(** * Red Lake Forest Watch: the satellite change-detection pipeline

    A shallow embedding of [satellite_processor.py].  Python floats are
    IEEE-754 binary64 numbers and are modelled by Rocq's primitive floats;
    Python integers by [Z]; dicts decoded from JSON by an association-list
    JSON tree; the alert dicts, whose keys are fixed, by a record.  Calls
    that leave the process (Earth Engine requests, the file system, the
    clock, the console) go through a small state-and-error monad whose
    state carries the chronological trace of those calls; what the remote
    services answer is a parameter of the development. *)

From Stdlib Require Import ZArith List String Ascii Bool Lia Floats.
From Stdlib Require Import Permutation Sorted DecimalString.
From Stdlib Require DecimalPos DecimalNat DecimalFacts.
Import ListNotations.

Set Warnings "-inexact-float,-register-all".
Local Open Scope string_scope.
Local Open Scope Z_scope.

(* ================================================================= *)
(** ** Python floats *)

(** Facts about the comparison of binary64 numbers, read off the
    specification [SFcompare] of the primitive comparison. *)
Module PyFloat.

Definition is_nan (x : float) : bool := PrimFloat.is_nan x.

Definition cmp (x y : float) : option comparison :=
  SFcompare (Prim2SF x) (Prim2SF y).

Lemma ltb_cmp x y : (x <? y)%float = true <-> cmp x y = Some Lt.
Proof.
  rewrite ltb_spec. unfold SFltb, cmp.
  destruct (SFcompare _ _) as [[]|]; split; congruence.
Qed.

Lemma leb_cmp x y :
  (x <=? y)%float = true <-> cmp x y = Some Lt \/ cmp x y = Some Eq.
Proof.
  rewrite leb_spec. unfold SFleb, cmp.
  destruct (SFcompare _ _) as [[]|]; split; try tauto; try congruence;
    intros [H|H]; congruence.
Qed.

Lemma is_nan_spec x : is_nan x = true <-> Prim2SF x = S754_nan.
Proof.
  unfold is_nan, PrimFloat.is_nan. rewrite eqb_spec.
  unfold SFeqb. destruct (Prim2SF x) as [[]|[]| |[] m e]; cbn;
    rewrite ?Z.compare_refl, ?Pos.compare_cont_refl; cbn;
    split; congruence.
Qed.

Ltac cmp_cases :=
  repeat match goal with
  | |- context [Z.compare ?a ?b] => destruct (Z.compare_spec a b)
  | H : context [Z.compare ?a ?b] |- _ => destruct (Z.compare_spec a b)
  | |- context [Pos.compare_cont Eq ?a ?b] =>
      change (Pos.compare_cont Eq a b) with (Pos.compare a b);
      destruct (Pos.compare_spec a b)
  | H : context [Pos.compare_cont Eq ?a ?b] |- _ =>
      change (Pos.compare_cont Eq a b) with (Pos.compare a b) in H;
      destruct (Pos.compare_spec a b)
  end.

Lemma SFcompare_total a b :
  a <> S754_nan -> b <> S754_nan -> exists c, SFcompare a b = Some c.
Proof.
  destruct a as [[]|[]| |[] ? ?], b as [[]|[]| |[] ? ?];
    cbn; intros; try congruence; eauto.
Qed.

Lemma SFcompare_sym a b c :
  SFcompare a b = Some c -> SFcompare b a = Some (CompOpp c).
Proof.
  destruct a as [[]|[]| |[] ma ea], b as [[]|[]| |[] mb eb];
    cbn; intros H; try discriminate; injection H as <-; try reflexivity;
    f_equal; cmp_cases; cbn; try reflexivity; try lia.
Qed.

Lemma SFcompare_lt_trans a b c :
  SFcompare a b = Some Lt -> SFcompare b c = Some Lt ->
  SFcompare a c = Some Lt.
Proof.
  destruct a as [[]|[]| |[] ma ea], b as [[]|[]| |[] mb eb],
    c as [[]|[]| |[] mc ec];
    cbn; intros H1 H2; try discriminate; try reflexivity;
    injection H1 as H1; injection H2 as H2; f_equal;
    cmp_cases; cbn in *; try discriminate; try reflexivity; try lia.
Qed.

Lemma SFcompare_eq_l a b c r :
  SFcompare a b = Some Eq -> SFcompare b c = Some r ->
  SFcompare a c = Some r.
Proof.
  destruct a as [[]|[]| |[] ma ea], b as [[]|[]| |[] mb eb],
    c as [[]|[]| |[] mc ec];
    cbn; intros H1 H2; try discriminate; try assumption;
    injection H1 as H1; injection H2 as H2; f_equal; subst r;
    cmp_cases; cbn in *; try discriminate; try reflexivity; try lia.
Qed.

Lemma cmp_total x y :
  is_nan x = false -> is_nan y = false -> exists c, cmp x y = Some c.
Proof.
  intros Hx Hy. apply SFcompare_total; intro E;
    apply is_nan_spec in E; congruence.
Qed.

Lemma cmp_sym x y c : cmp x y = Some c -> cmp y x = Some (CompOpp c).
Proof. apply SFcompare_sym. Qed.

Lemma cmp_lt_trans x y z :
  cmp x y = Some Lt -> cmp y z = Some Lt -> cmp x z = Some Lt.
Proof. apply SFcompare_lt_trans. Qed.

Lemma cmp_eq_l x y z r :
  cmp x y = Some Eq -> cmp y z = Some r -> cmp x z = Some r.
Proof. apply SFcompare_eq_l. Qed.

Lemma cmp_eq_r x y z r :
  cmp x y = Some r -> cmp y z = Some Eq -> cmp x z = Some r.
Proof.
  intros H1 H2. apply cmp_sym in H1, H2. cbn in H2.
  pose proof (cmp_eq_l _ _ _ _ H2 H1) as H. apply cmp_sym in H.
  now rewrite CompOpp_involutive in H.
Qed.

(** [x < y] and [y < x] never hold together. *)
Lemma ltb_asym x y : (x <? y)%float = true -> (y <? x)%float = false.
Proof.
  intros H. apply ltb_cmp in H. apply cmp_sym in H. cbn in H.
  destruct (y <? x)%float eqn:E; [|reflexivity].
  apply ltb_cmp in E. congruence.
Qed.

Lemma ltb_trans x y z :
  (x <? y)%float = true -> (y <? z)%float = true -> (x <? z)%float = true.
Proof. rewrite !ltb_cmp. apply cmp_lt_trans. Qed.

Lemma eqb_cmp x y : (x =? y)%float = true <-> cmp x y = Some Eq.
Proof.
  rewrite eqb_spec. unfold SFeqb, cmp.
  destruct (SFcompare _ _) as [[]|]; split; congruence.
Qed.

Lemma cmp_not_nan x y c :
  cmp x y = Some c -> is_nan x = false /\ is_nan y = false.
Proof.
  unfold cmp. intros H.
  split; apply not_true_is_false; intros N; apply is_nan_spec in N;
    rewrite N in H; [|destruct (Prim2SF x) as [[]|[]| |[] ? ?]]; discriminate.
Qed.

Lemma leb_not_nan x y : (x <=? y)%float = true -> is_nan y = false.
Proof.
  intros H. apply leb_cmp in H.
  destruct H as [H|H]; apply cmp_not_nan in H; apply H.
Qed.

(** Two numbers equal to a third are not one below the other. *)
Lemma eqb_not_ltb x y v :
  (x =? v)%float = true -> (y =? v)%float = true -> (x <? y)%float = false.
Proof.
  rewrite !eqb_cmp. intros Hx Hy.
  apply cmp_sym in Hy. cbn in Hy.
  pose proof (cmp_eq_r _ _ _ _ Hx Hy) as H.
  destruct (x <? y)%float eqn:E; [|reflexivity].
  apply ltb_cmp in E. congruence.
Qed.

(** "Not below" is transitive on numbers that are not NaN. *)
Lemma nlt_trans x y z :
  is_nan x = false -> is_nan y = false -> is_nan z = false ->
  (x <? y)%float = false -> (y <? z)%float = false -> (x <? z)%float = false.
Proof.
  intros Nx Ny Nz Hxy Hyz.
  destruct (x <? z)%float eqn:Hxz; [|reflexivity]. exfalso.
  apply ltb_cmp in Hxz.
  destruct (cmp_total x y Nx Ny) as [c1 H1].
  destruct (cmp_total y z Ny Nz) as [c2 H2].
  assert (c1 <> Lt) by (intros ->; apply ltb_cmp in H1; congruence).
  assert (c2 <> Lt) by (intros ->; apply ltb_cmp in H2; congruence).
  destruct c1; [|congruence|].
  - pose proof (cmp_eq_l _ _ _ _ H1 H2). destruct c2; congruence.
  - destruct c2; [|congruence|].
    + pose proof (cmp_eq_r _ _ _ _ H1 H2). congruence.
    + apply cmp_sym in H1, H2. cbn in H1, H2.
      pose proof (cmp_lt_trans _ _ _ H2 H1) as H3.
      apply cmp_sym in H3. cbn in H3. congruence.
Qed.

End PyFloat.

(* ================================================================= *)
(** ** Python values shared by the pipeline *)

(** The exceptions the modelled code can raise. *)
Inductive exn : Type :=
| ValueError (msg : string)
| OverflowError (msg : string)
| KeyError (key : string)
| IndexError (msg : string)
| TypeError (msg : string)
| JSONDecodeError (msg : string)
| FileNotFoundError (path : string)
| IsADirectoryError (path : string)
| NotADirectoryError (path : string)
| FileExistsError (path : string)
| OSError (errno : Z) (path : string).

(** A decoded JSON document: Python's dicts keep insertion order, so an
    object is an association list. *)
Inductive json : Type :=
| JNull
| JBool (b : bool)
| JInt (n : Z)
| JFloat (x : float)
| JStr (s : string)
| JArr (items : list json)
| JObj (fields : list (string * json)).

Fixpoint assoc_get (k : string) (fields : list (string * json)) : option json :=
  match fields with
  | [] => None
  | (k', v) :: rest => if String.eqb k k' then Some v else assoc_get k rest
  end.

(** [d[k]] for a string key. *)
Definition subscript_key (d : json) (k : string) : exn + json :=
  match d with
  | JObj fields =>
      match assoc_get k fields with
      | Some v => inr v
      | None => inl (KeyError k)
      end
  | JArr _ => inl (TypeError "list indices must be integers or slices, not str")
  | JStr _ => inl (TypeError "string indices must be integers, not 'str'")
  | _ => inl (TypeError "object is not subscriptable")
  end.

(** [d[0]]. *)
Definition subscript_0 (d : json) : exn + json :=
  match d with
  | JArr (x :: _) => inr x
  | JArr [] => inl (IndexError "list index out of range")
  | JStr (String c _) => inr (JStr (String c EmptyString))
  | JStr EmptyString => inl (IndexError "string index out of range")
  | JObj _ => inl (KeyError "0")
  | _ => inl (TypeError "object is not subscriptable")
  end.

(** Truth value of a decoded document, as [if x:] tests it. *)
Definition truthy (d : json) : bool :=
  match d with
  | JNull => false
  | JBool b => b
  | JInt n => negb (n =? 0)
  | JFloat x => negb (x =? 0)%float
  | JStr s => negb (String.eqb s "")
  | JArr l => match l with [] => false | _ => true end
  | JObj l => match l with [] => false | _ => true end
  end.

Fixpoint string_contains_from (fuel : nat) (needle hay : string) : bool :=
  if String.prefix needle hay then true
  else match fuel, hay with
       | S fuel', String _ rest => string_contains_from fuel' needle rest
       | _, _ => false
       end.

(** ['features' in d], for a [d] that passed the truth test. *)
Definition contains_key (k : string) (d : json) : exn + bool :=
  match d with
  | JObj fields =>
      inr (match assoc_get k fields with Some _ => true | None => false end)
  | JArr items =>
      inr (existsb (fun j => match j with JStr s => String.eqb s k | _ => false end)
                   items)
  | JStr s => inr (string_contains_from (String.length s) k s)
  | _ => inl (TypeError "argument is not iterable")
  end.

(** The items a [for] loop over a decoded document visits. *)
Definition iterate (d : json) : exn + list json :=
  match d with
  | JArr items => inr items
  | JObj fields => inr (map (fun kv => JStr (fst kv)) fields)
  | JStr s => inr (map (fun c => JStr (String c EmptyString)) (list_ascii_of_string s))
  | _ => inl (TypeError "object is not iterable")
  end.

(** Decimal text of an integer, as [str(n)] and f-strings print it. *)
Definition str_of_Z (n : Z) : string := NilZero.string_of_int (Z.to_int n).
Definition str_of_nat (n : nat) : string := NilZero.string_of_uint (Nat.to_uint n).

Fixpoint repeat_string (s : string) (n : nat) : string :=
  match n with
  | O => ""
  | S n' => s ++ repeat_string s n'
  end.

(* ================================================================= *)
(** ** [datetime]: the proleptic Gregorian calendar *)

Module PyDate.

Record date : Type := mkdate { year : Z; month : Z; day : Z }.

(** A [datetime]: a calendar date and a time of day. *)
Record datetime : Type := mkdatetime {
  dt_date : date;
  dt_hour : Z;
  dt_minute : Z;
  dt_second : Z;
  dt_microsecond : Z
}.

Definition MINYEAR : Z := 1.
Definition MAXYEAR : Z := 9999.
Definition MAXORDINAL : Z := 3652059.

Definition is_leap (y : Z) : bool :=
  (y mod 4 =? 0) && (negb (y mod 100 =? 0) || (y mod 400 =? 0)).

Definition days_before_year (y : Z) : Z :=
  let y' := y - 1 in y' * 365 + y' / 4 - y' / 100 + y' / 400.

Definition DAYS_IN_MONTH (m : Z) : Z :=
  match m with
  | 1 => 31 | 2 => 28 | 3 => 31 | 4 => 30 | 5 => 31 | 6 => 30
  | 7 => 31 | 8 => 31 | 9 => 30 | 10 => 31 | 11 => 30 | 12 => 31
  | _ => -1
  end.

Definition DAYS_BEFORE_MONTH (m : Z) : Z :=
  match m with
  | 1 => 0 | 2 => 31 | 3 => 59 | 4 => 90 | 5 => 120 | 6 => 151
  | 7 => 181 | 8 => 212 | 9 => 243 | 10 => 273 | 11 => 304 | 12 => 334
  | _ => -1
  end.

Definition days_in_month (y m : Z) : Z :=
  if (m =? 2) && is_leap y then 29 else DAYS_IN_MONTH m.

Definition days_before_month (y m : Z) : Z :=
  DAYS_BEFORE_MONTH m + (if (2 <? m) && is_leap y then 1 else 0).

Definition ymd2ord (y m d : Z) : Z :=
  days_before_year y + days_before_month y m + d.

Definition DI400Y : Z := 146097.
Definition DI100Y : Z := 36524.
Definition DI4Y : Z := 1461.

(** The month and day of the [n]-th day (from 0) of a year: the estimate
    [(n + 50) >> 5] is the right month or one too far. *)
Definition month_day (n : Z) (leapyear : bool) : Z * Z :=
  let m := Z.shiftr (n + 50) 5 in
  let preceding :=
    DAYS_BEFORE_MONTH m + (if (2 <? m) && leapyear then 1 else 0) in
  if n <? preceding then
    let m' := m - 1 in
    let preceding' :=
      preceding - (DAYS_IN_MONTH m' + (if (m' =? 2) && leapyear then 1 else 0)) in
    (m', n - preceding' + 1)
  else (m, n - preceding + 1).

Definition ord2ymd (n : Z) : date :=
  let n := n - 1 in
  let n400 := n / DI400Y in
  let n := n mod DI400Y in
  let y := n400 * 400 + 1 in
  let n100 := n / DI100Y in
  let n := n mod DI100Y in
  let n4 := n / DI4Y in
  let n := n mod DI4Y in
  let n1 := n / 365 in
  let n := n mod 365 in
  let y := y + n100 * 100 + n4 * 4 + n1 in
  if (n1 =? 4) || (n100 =? 4) then mkdate (y - 1) 12 31
  else
    let leapyear := (n1 =? 3) && (negb (n4 =? 24) || (n100 =? 3)) in
    let (m, d) := month_day n leapyear in
    mkdate y m d.

Definition valid_date (d : date) : bool :=
  (MINYEAR <=? year d) && (year d <=? MAXYEAR) &&
  (1 <=? month d) && (month d <=? 12) &&
  (1 <=? day d) && (day d <=? days_in_month (year d) (month d)).

Definition toordinal (d : date) : Z := ymd2ord (year d) (month d) (day d).
Definition fromordinal (n : Z) : date := ord2ymd n.

(** [dt - timedelta(days=n)]: building the [timedelta] fails beyond a
    billion days, the subtraction when it leaves years 1..9999.  The time
    of day is untouched by a whole number of days. *)
Definition sub_days (dt : datetime) (n : Z) : exn + datetime :=
  if (n <? -999999999) || (999999999 <? n) then
    inl (OverflowError "days out of range for timedelta")
  else
    let o := toordinal (dt_date dt) - n in
    if (0 <? o) && (o <=? MAXORDINAL) then
      inr (mkdatetime (fromordinal o) (dt_hour dt) (dt_minute dt)
                      (dt_second dt) (dt_microsecond dt))
    else inl (OverflowError "date value out of range").

(** Decimal text of [n] padded with zeros to [width] digits. *)
Definition zero_pad (width : nat) (n : Z) : string :=
  let s := str_of_Z n in
  repeat_string "0" (width - String.length s) ++ s.

(** [d.strftime('%Y-%m-%d')]: the C library prints the year as it is,
    without padding (with glibc the year 999 gives [999-06-15]), and the
    month and the day with two digits. *)
Definition strftime_ymd (d : date) : string :=
  str_of_Z (year d) ++ "-" ++ zero_pad 2 (month d) ++ "-" ++ zero_pad 2 (day d).

Definition is_digit (c : ascii) : bool :=
  let n := nat_of_ascii c in (48 <=? n)%nat && (n <=? 57)%nat.

Definition digit_val (c : ascii) : Z := Z.of_nat (nat_of_ascii c) - 48.

(** Python strings are sequences of code points; here they are their
    UTF-8 bytes.  The regular expression of [strptime] reads a digit of
    the year, and the second digit of a day from 10 to 29, with [\d],
    which matches every decimal digit of Unicode (category Nd), and
    [int] gives each its value.  The decimal digits of Unicode 14.0 come
    in runs of ten, from the digit zero on: these are the zeros. *)
Definition DECIMAL_ZEROS : list Z :=
  [48; 1632; 1776; 1984; 2406; 2534; 2662; 2790; 2918; 3046; 3174; 3302;
   3430; 3558; 3664; 3792; 3872; 4160; 4240; 6112; 6160; 6470; 6608; 6784;
   6800; 6992; 7088; 7232; 7248; 42528; 43216; 43264; 43472; 43504; 43600;
   44016; 65296; 66720; 68912; 69734; 69872; 69942; 70096; 70384; 70736;
   70864; 71248; 71360; 71472; 71904; 72016; 72784; 73040; 73120; 92768;
   92864; 93008; 120782; 120792; 120802; 120812; 120822; 123200; 123632;
   125264; 130032].

(** The value of a code point that is a decimal digit. *)
Definition decimal_value (cp : Z) : option Z :=
  match find (fun zero => (zero <=? cp) && (cp <? zero + 10)) DECIMAL_ZEROS with
  | Some zero => Some (cp - zero)
  | None => None
  end.

Definition byte (c : ascii) : Z := Z.of_nat (nat_of_ascii c).

(** The payload of a continuation byte [10xxxxxx]. *)
Definition continuation (c : ascii) : option Z :=
  let b := byte c in
  if (128 <=? b) && (b <? 192) then Some (b - 128) else None.

(** The code point at the head of a string, with the rest of the string:
    one to four bytes of UTF-8, the shortest encoding only. *)
Definition head_code_point (s : string) : option (Z * string) :=
  match s with
  | EmptyString => None
  | String c0 r0 =>
      let b0 := byte c0 in
      if b0 <? 128 then Some (b0, r0)
      else
        match r0 with
        | EmptyString => None
        | String c1 r1 =>
            match continuation c1 with
            | None => None
            | Some x1 =>
                if (194 <=? b0) && (b0 <? 224)
                then Some ((b0 - 192) * 64 + x1, r1)
                else
                  match r1 with
                  | EmptyString => None
                  | String c2 r2 =>
                      match continuation c2 with
                      | None => None
                      | Some x2 =>
                          if (224 <=? b0) && (b0 <? 240) then
                            let cp := (b0 - 224) * 4096 + x1 * 64 + x2 in
                            if cp <? 2048 then None else Some (cp, r2)
                          else
                            match r2 with
                            | EmptyString => None
                            | String c3 r3 =>
                                match continuation c3 with
                                | None => None
                                | Some x3 =>
                                    if (240 <=? b0) && (b0 <? 245) then
                                      let cp := (b0 - 240) * 262144 +
                                                x1 * 4096 + x2 * 64 + x3 in
                                      if cp <? 65536 then None
                                      else Some (cp, r3)
                                    else None
                                end
                            end
                      end
                  end
            end
        end
  end.

(** The decimal digit at the head of a string. *)
Definition head_digit (s : string) : option (Z * string) :=
  match head_code_point s with
  | Some (cp, rest) =>
      match decimal_value cp with
      | Some v => Some (v, rest)
      | None => None
      end
  | None => None
  end.

(** The values of the digits of a string that holds decimal digits
    only; a code point takes a byte at least, so the length of the string
    is fuel enough. *)
Fixpoint unicode_digits (fuel : nat) (s : string) : option (list Z) :=
  match s with
  | EmptyString => Some []
  | String _ _ =>
      match fuel with
      | O => None
      | S fuel' =>
          match head_digit s with
          | Some (v, rest) =>
              match unicode_digits fuel' rest with
              | Some vs => Some (v :: vs)
              | None => None
              end
          | None => None
          end
      end
  end.

(** The year field, [\d\d\d\d]: four decimal digits. *)
Definition parse_year (s : string) : option Z :=
  match unicode_digits (String.length s) s with
  | Some vs =>
      if (List.length vs =? 4)%nat
      then Some (fold_left (fun acc v => acc * 10 + v) vs 0)
      else None
  | None => None
  end.

Fixpoint digits_val (acc : Z) (s : string) : option Z :=
  match s with
  | EmptyString => Some acc
  | String c rest =>
      if is_digit c then digits_val (acc * 10 + digit_val c) rest else None
  end.

(** Splits at the first ['-']. *)
Fixpoint split_dash (s : string) : option (string * string) :=
  match s with
  | EmptyString => None
  | String c rest =>
      if Ascii.eqb c "-" then Some ("", rest)
      else match split_dash rest with
           | Some (a, b) => Some (String c a, b)
           | None => None
           end
  end.

(** A field of one or two ASCII digits with a value from 1 to [hi]: the
    month is [1[0-2]|0[1-9]|[1-9]], and so is the day,
    [3[01]|[12]\d|0[1-9]|[1-9]| [1-9]], but for its [\d]. *)
Definition parse_field (hi : Z) (s : string) : option Z :=
  let len := String.length s in
  if ((1 <=? len) && (len <=? 2))%nat then
    match digits_val 0 s with
    | Some v => if (1 <=? v) && (v <=? hi) then Some v else None
    | None => None
    end
  else None.

(** The day field also accepts a space in front of a single digit, and
    any decimal digit after a 1 or a 2. *)
Definition parse_day (s : string) : option Z :=
  match s with
  | String " " (String c EmptyString) => parse_field 31 (String c EmptyString)
  | String c rest =>
      if Ascii.eqb c "1" || Ascii.eqb c "2" then
        match head_digit rest with
        | Some (v, EmptyString) => Some (digit_val c * 10 + v)
        | _ => parse_field 31 s
        end
      else parse_field 31 s
  | EmptyString => None
  end.

(** [datetime.strptime(s, '%Y-%m-%d')]: four digits of year, then month
    and day, each between its dashes, then the range check of the
    [datetime] constructor; the time of day is midnight.  No field can
    hold a dash, and the byte of a dash is no part of a longer UTF-8
    sequence, so the fields are what stands between the dashes. *)
Definition strptime_ymd (s : string) : exn + datetime :=
  let bad := inl (ValueError "time data does not match format '%Y-%m-%d'") in
  match split_dash s with
  | None => bad
  | Some (ys, rest) =>
      match split_dash rest with
      | None => bad
      | Some (ms, ds) =>
          match parse_year ys, parse_field 12 ms, parse_day ds with
          | Some y, Some m, Some d =>
              if valid_date (mkdate y m d)
              then inr (mkdatetime (mkdate y m d) 0 0 0 0)
              else if y <? MINYEAR
                   then inl (ValueError "year 0 is out of range")
                   else inl (ValueError "day is out of range for month")
          | _, _, _ => bad
          end
      end
  end.

(** [dt.isoformat()]: here the year has four digits. *)
Definition isoformat (dt : datetime) : string :=
  zero_pad 4 (year (dt_date dt)) ++ "-" ++ zero_pad 2 (month (dt_date dt)) ++
  "-" ++ zero_pad 2 (day (dt_date dt)) ++ "T" ++ zero_pad 2 (dt_hour dt) ++ ":" ++
  zero_pad 2 (dt_minute dt) ++ ":" ++ zero_pad 2 (dt_second dt) ++
  (if dt_microsecond dt =? 0 then ""
   else "." ++ zero_pad 6 (dt_microsecond dt)).

End PyDate.

(** The calendar arithmetic is sound: an ordinal in range names a valid
    date, and that date has the ordinal it came from. *)
Module PyDateFacts.
Import PyDate.

Definition month_day_check (leap : bool) (k : nat) : bool :=
  let n := Z.of_nat k in
  let (m, d) := month_day n leap in
  (1 <=? m) && (m <=? 12) && (1 <=? d) &&
  (d <=? DAYS_IN_MONTH m + (if (m =? 2) && leap then 1 else 0)) &&
  (DAYS_BEFORE_MONTH m + (if (2 <? m) && leap then 1 else 0) + d =? n + 1).

Lemma month_day_checked leap :
  forallb (month_day_check leap) (seq 0 365) = true.
Proof. destruct leap; vm_compute; reflexivity. Qed.

Lemma month_day_ok n leap :
  0 <= n < 365 ->
  let (m, d) := month_day n leap in
  1 <= m <= 12 /\
  1 <= d <= DAYS_IN_MONTH m + (if (m =? 2) && leap then 1 else 0) /\
  DAYS_BEFORE_MONTH m + (if (2 <? m) && leap then 1 else 0) + d = n + 1.
Proof.
  intros Hn.
  pose proof (month_day_checked leap) as H.
  rewrite forallb_forall in H.
  assert (Hin : In (Z.to_nat n) (seq 0 365)) by (apply in_seq; lia).
  specialize (H _ Hin). unfold month_day_check in H.
  rewrite Z2Nat.id in H by lia.
  destruct (month_day n leap) as [m d].
  rewrite !andb_true_iff in H.
  destruct H as [[[[H1 H2] H3] H4] H5]. lia.
Qed.

Lemma is_leap_spec y :
  is_leap y = true <-> (y mod 4 = 0 /\ (y mod 100 <> 0 \/ y mod 400 = 0)).
Proof.
  unfold is_leap. rewrite andb_true_iff, orb_true_iff, negb_true_iff.
  rewrite !Z.eqb_eq, Z.eqb_neq. tauto.
Qed.

(** The quotients [_ord2ymd] takes: 400-year cycles, centuries, 4-year
    cycles, years, and the day of the year that is left. *)
Lemma ordinal_split n :
  1 <= n ->
  let a := (n - 1) / 146097 in
  let r400 := (n - 1) mod 146097 in
  let b := r400 / 36524 in
  let r100 := r400 mod 36524 in
  let c := r100 / 1461 in
  let r4 := r100 mod 1461 in
  let d := r4 / 365 in
  let r1 := r4 mod 365 in
  n - 1 = 146097 * a + 36524 * b + 1461 * c + 365 * d + r1 /\
  0 <= a /\ 0 <= b <= 4 /\ 0 <= c <= 24 /\ 0 <= d <= 4 /\ 0 <= r1 < 365 /\
  (b = 4 -> c = 0 /\ d = 0 /\ r1 = 0) /\
  (d = 4 -> r1 = 0 /\ c <= 23).
Proof. intros Hn. cbv zeta. Z.to_euclidean_division_equations. lia. Qed.

Lemma is_leap_quotients a b c d :
  0 <= a -> 0 <= b <= 3 -> 0 <= c <= 24 -> 0 <= d <= 3 ->
  is_leap (a * 400 + 1 + b * 100 + c * 4 + d) =
  (d =? 3) && (negb (c =? 24) || (b =? 3)).
Proof.
  intros. apply eq_true_iff_eq. rewrite is_leap_spec.
  rewrite andb_true_iff, orb_true_iff, negb_true_iff, !Z.eqb_eq, Z.eqb_neq.
  Z.to_euclidean_division_equations. lia.
Qed.

Ltac split_ordinal n Hn :=
  unfold ord2ymd, DI400Y, DI100Y, DI4Y; cbv zeta;
  let H := fresh "Hsplit" in
  pose proof (ordinal_split n Hn) as H; cbv zeta in H;
  set (a := (n - 1) / 146097) in *; set (r400 := (n - 1) mod 146097) in *;
  set (b := r400 / 36524) in *; set (r100 := r400 mod 36524) in *;
  set (c := r100 / 1461) in *; set (r4 := r100 mod 1461) in *;
  set (d := r4 / 365) in *; set (r1 := r4 mod 365) in *;
  clearbody a r400 b r100 c r4 d r1;
  destruct H as (Hn1 & Ha & Hb & Hc & Hd & Hr & Hb4 & Hd4).

Lemma ord2ymd_toordinal n : 1 <= n -> toordinal (ord2ymd n) = n.
Proof.
  intros Hn. split_ordinal n Hn.
  destruct ((d =? 4) || (b =? 4)) eqn:E.
  - apply orb_true_iff in E. rewrite !Z.eqb_eq in E.
    unfold toordinal, ymd2ord, days_before_month, days_before_year.
    cbn [year month day DAYS_BEFORE_MONTH].
    assert (L : is_leap (a * 400 + 1 + b * 100 + c * 4 + d - 1) = true).
    { apply is_leap_spec. Z.to_euclidean_division_equations. lia. }
    rewrite L. cbn. Z.to_euclidean_division_equations. lia.
  - apply orb_false_iff in E. rewrite !Z.eqb_neq in E.
    pose proof (month_day_ok r1 ((d =? 3) && (negb (c =? 24) || (b =? 3))) Hr)
      as Hmd.
    destruct (month_day r1 _) as [m dd].
    unfold toordinal, ymd2ord, days_before_month, days_before_year.
    cbn [year month day].
    rewrite is_leap_quotients by lia.
    destruct Hmd as (Hm & Hdd & Hsum).
    Z.to_euclidean_division_equations. lia.
Qed.

Lemma ord2ymd_valid n :
  1 <= n <= MAXORDINAL -> valid_date (ord2ymd n) = true.
Proof.
  intros [Hn Hmax]. unfold MAXORDINAL in Hmax. split_ordinal n Hn.
  unfold valid_date, MINYEAR, MAXYEAR.
  destruct ((d =? 4) || (b =? 4)) eqn:E.
  - apply orb_true_iff in E. rewrite !Z.eqb_eq in E.
    cbn [year month day]. unfold days_in_month. cbn [Z.eqb andb DAYS_IN_MONTH].
    rewrite !andb_true_iff, !Z.leb_le. cbn. lia.
  - apply orb_false_iff in E. rewrite !Z.eqb_neq in E.
    pose proof (month_day_ok r1 ((d =? 3) && (negb (c =? 24) || (b =? 3))) Hr)
      as Hmd.
    destruct (month_day r1 _) as [m dd]. cbn [year month day].
    unfold days_in_month. rewrite is_leap_quotients by lia.
    destruct Hmd as (Hm & Hdd & Hsum).
    rewrite !andb_true_iff, !Z.leb_le.
    repeat split; try lia.
    destruct ((m =? 2) && _) eqn:E2; [|lia].
    apply andb_true_iff in E2. destruct E2 as [E2 _]. apply Z.eqb_eq in E2.
    subst m. cbn in Hdd. lia.
Qed.

(** Subtracting days from a [datetime], when the result is in range. *)
Lemma sub_days_in_range dt n :
  1 <= toordinal (dt_date dt) - n <= MAXORDINAL ->
  1 <= toordinal (dt_date dt) <= MAXORDINAL ->
  exists d,
    sub_days dt n = inr (mkdatetime d (dt_hour dt) (dt_minute dt)
                                    (dt_second dt) (dt_microsecond dt)) /\
    d = fromordinal (toordinal (dt_date dt) - n) /\
    valid_date d = true /\
    toordinal d = toordinal (dt_date dt) - n.
Proof.
  intros Hr Ho. unfold sub_days, MAXORDINAL in *.
  destruct ((n <? -999999999) || (999999999 <? n)) eqn:E.
  { apply orb_true_iff in E. rewrite !Z.ltb_lt in E. lia. }
  replace ((0 <? toordinal (dt_date dt) - n) &&
           (toordinal (dt_date dt) - n <=? 3652059)) with true
    by (symmetry; apply andb_true_iff; rewrite Z.ltb_lt, Z.leb_le; lia).
  eexists. split; [reflexivity|]. split; [reflexivity|]. split.
  - apply ord2ymd_valid. unfold MAXORDINAL. lia.
  - apply ord2ymd_toordinal. lia.
Qed.

(** A valid date has an ordinal between 1 and [MAXORDINAL]. *)
Lemma toordinal_range d :
  valid_date d = true -> 1 <= toordinal d <= MAXORDINAL.
Proof.
  unfold valid_date, toordinal, ymd2ord, days_before_year, days_before_month,
    days_in_month, MINYEAR, MAXYEAR, MAXORDINAL.
  destruct d as [y m dd]. cbn [year month day].
  rewrite !andb_true_iff, !Z.leb_le.
  intros [[[[[Hy1 Hy2] Hm1] Hm2] Hd1] Hd2].
  assert (Hm : m = 1 \/ m = 2 \/ m = 3 \/ m = 4 \/ m = 5 \/ m = 6 \/ m = 7 \/
               m = 8 \/ m = 9 \/ m = 10 \/ m = 11 \/ m = 12) by lia.
  assert (Hdb : days_before_year (y + 1) - days_before_year y =
                if is_leap y then 366 else 365).
  { unfold days_before_year. destruct (is_leap y) eqn:L.
    - apply is_leap_spec in L. Z.to_euclidean_division_equations. lia.
    - assert (L' : ~ (y mod 4 = 0 /\ (y mod 100 <> 0 \/ y mod 400 = 0))).
      { rewrite <- is_leap_spec. congruence. }
      Z.to_euclidean_division_equations. lia. }
  unfold days_before_year in Hdb.
  destruct (is_leap y);
    repeat (destruct Hm as [->|Hm]); try subst m; cbn in *;
    Z.to_euclidean_division_equations; lia.
Qed.

End PyDateFacts.

(* ================================================================= *)
(** ** The world outside the process *)

(** An [ee.Geometry]: built from a GeoJSON geometry or by
    [ee.Geometry.Rectangle]. *)
Inductive geometry : Type :=
| GeoJSON (g : json)
| Rectangle (west south east north : float).

(** Rasters are single-band images: a value per pixel, or nothing where
    the pixel is masked.  An [ee.Image] with several bands gives one
    raster per band name. *)
Definition pixel : Type := (Z * Z)%type.
Definition raster : Type := pixel -> option float.
Definition image : Type := string -> raster.

(** The requests that reach Earth Engine: [ee.Initialize] and every
    [getInfo()]. *)
Inductive ee_request : Type :=
| ReqInitialize (project : string)
| ReqCollectionSize (region : geometry) (start_date end_date : string)
                    (cloud_max : Z)
| ReqVectors (mask : raster) (region : geometry) (scale : Z)
             (maxPixels : float) (geometryType : string)
| ReqArea (geom : geometry)
| ReqCentroid (geom : geometry).

(** What a path names.  The file system is a map from paths to entries:
    [files w p] is what the path [p] names in the world [w], [None] when
    nothing is found there. *)
Inductive fs_entry : Type :=
| File (content : string)
| Directory.

(** What a run does that can be seen from outside, in order. *)
Inductive event : Type :=
| Print (line : string)
| EarthEngine (req : ee_request)
| Clock
| PathExists (path : string)
| FileRead (path : string)
| Mkdir (path : string)
| FileWrite (path : string) (content : string).

Record world : Type := mkworld {
  trace : list event;
  files : string -> option fs_entry;
  clock_reads : nat
}.

(** Computations that may raise and that act on the world. *)
Definition M (A : Type) : Type := world -> (exn + A) * world.

Definition ret {A} (a : A) : M A := fun w => (inr a, w).

Definition raise {A} (e : exn) : M A := fun w => (inl e, w).

Definition bind {A B} (c : M A) (k : A -> M B) : M B :=
  fun w =>
    match c w with
    | (inr a, w') => k a w'
    | (inl e, w') => (inl e, w')
    end.

Definition lift {A} (r : exn + A) : M A :=
  match r with
  | inr a => ret a
  | inl e => raise e
  end.

Declare Scope monad_scope.
Delimit Scope monad_scope with monad.
Notation "x <- c ;; k" := (bind c (fun x => k))
  (at level 61, c at next level, right associativity) : monad_scope.
Notation "c ;; k" := (bind c (fun _ => k))
  (at level 61, right associativity) : monad_scope.
Local Open Scope monad_scope.

Definition emit (e : event) : M unit :=
  fun w => (inr tt, mkworld (trace w ++ [e])%list (files w) (clock_reads w)).

Definition print (line : string) : M unit := emit (Print line).

Definition file_put (path : string) (entry : fs_entry) : M unit :=
  fun w =>
    (inr tt,
     mkworld (trace w)
             (fun p => if String.eqb p path then Some entry else files w p)
             (clock_reads w)).

(** The directory and the name of a path: what stands before and after
    its last ['/'].  A path without ['/'] has no directory part: it names
    an entry of the current directory. *)
Fixpoint split_path (path : string) : option string * string :=
  match path with
  | EmptyString => (None, "")
  | String c rest =>
      match split_path rest with
      | (Some dir, name) => (Some (String c dir), name)
      | (None, name) =>
          if Ascii.eqb c "/" then (Some "", name) else (None, String c name)
      end
  end.

(** What the directory part of a path names; the current directory and
    the root are there. *)
Definition parent_entry (fs : string -> option fs_entry) (path : string)
  : option fs_entry :=
  match fst (split_path path) with
  | None => Some Directory
  | Some dir => if String.eqb dir "" then Some Directory else fs dir
  end.

(** [open(path).read()] for a path that exists. *)
Definition read_text (path : string) : M string :=
  emit (FileRead path) ;;
  fun w =>
    match files w path with
    | Some (File content) => (inr content, w)
    | Some Directory => (inl (IsADirectoryError path), w)
    | None => (inl (FileNotFoundError path), w)
    end.

(** [Path(path).mkdir(exist_ok=True)]: a directory that is there is
    left alone, a file in its place is an error, and a new directory needs
    the directory it is made in. *)
Definition mkdir_exist_ok (path : string) : M unit :=
  emit (Mkdir path) ;;
  fun w =>
    match files w path with
    | Some Directory => (inr tt, w)
    | Some (File _) => (inl (FileExistsError path), w)
    | None =>
        match parent_entry (files w) path with
        | Some Directory => file_put path Directory w
        | Some (File _) => (inl (NotADirectoryError path), w)
        | None => (inl (FileNotFoundError path), w)
        end
    end.

(** [open(path, 'w').write(content)]: a directory cannot be opened for
    writing, nor can the empty path or a path that ends with ['/']; the
    file is created or replaced in the directory of the path, which has
    to be there. *)
Definition write_text (path content : string) : M unit :=
  fun w =>
    match files w path with
    | Some Directory => (inl (IsADirectoryError path), w)
    | _ =>
        if String.eqb path "" then (inl (FileNotFoundError path), w)
        else if String.eqb (snd (split_path path)) ""
        then (inl (IsADirectoryError path), w)
        else
          match parent_entry (files w) path with
          | Some Directory =>
              (emit (FileWrite path content) ;; file_put path (File content)) w
          | Some (File _) => (inl (NotADirectoryError path), w)
          | None => (inl (FileNotFoundError path), w)
          end
    end.

Definition nl : string := String (ascii_of_nat 10) EmptyString.

(* ================================================================= *)
(** ** Configuration *)

Definition RED_LAKE_BOUNDS_west : float := (-95.5)%float.
Definition RED_LAKE_BOUNDS_south : float := 47.1%float.
Definition RED_LAKE_BOUNDS_east : float := (-94.0)%float.
Definition RED_LAKE_BOUNDS_north : float := 48.3%float.

Definition RED_LAKE_CENTER : float * float := (47.88, -94.90)%float.

Definition NDVI_DECREASE_THRESHOLD : float := (-0.15)%float.
Definition NDVI_INCREASE_THRESHOLD : float := 0.10%float.
(** The source has the integer 2; Python compares a float with it
    exactly, and 2 is a binary64 number. *)
Definition MIN_AREA_ACRES : float := 2%float.

Definition OUTPUT_DIR : string := "output".
Definition DEFAULT_BOUNDARY : string := "red_lake_boundary.geojson".

(** [OUTPUT_DIR / name]. *)
Definition path_join (dir name : string) : string := dir ++ "/" ++ name.

(* ================================================================= *)
(** ** Pixel-wise image operations *)

(** [a.subtract(b)] with [sub] the server's subtraction of pixel values:
    masked where either input is. *)
Definition img_subtract (sub : float -> float -> float) (a b : raster) : raster :=
  fun p =>
    match a p, b p with
    | Some x, Some y => Some (sub x y)
    | _, _ => None
    end.

(** [a.lt(c)] and [a.gt(c)]: 1 where the comparison holds, 0 elsewhere. *)
Definition img_lt (a : raster) (c : float) : raster :=
  fun p => option_map (fun x => if (x <? c)%float then 1%float else 0%float) (a p).

Definition img_gt (a : raster) (c : float) : raster :=
  fun p => option_map (fun x => if (c <? x)%float then 1%float else 0%float) (a p).

(** [m.selfMask()]: masks the pixels whose value is zero. *)
Definition selfMask (m : raster) : raster :=
  fun p =>
    match m p with
    | Some v => if (v =? 0)%float then None else Some v
    | None => None
    end.

(** The thresholding step of change detection. *)
Definition classify (ndvi_change : raster) (decrease increase : float)
  : raster * raster :=
  (img_lt ndvi_change decrease, img_gt ndvi_change increase).

(* ================================================================= *)
(** ** Alerts *)

Record change_results : Type := mk_change_results {
  baseline_ndvi : raster;
  current_ndvi : raster;
  ndvi_change : raster;
  damage_mask : raster;
  recovery_mask : raster;
  baseline_date : string;
  current_date : string
}.

(** The alert dict: its keys are fixed, in this order. *)
Record alert : Type := mk_alert {
  a_id : string;
  a_type : string;
  a_severity : string;
  a_lat : float;
  a_lng : float;
  a_area_acres : float;
  a_date : string;
  a_description : string
}.

Definition alert_json (a : alert) : json :=
  JObj [("id", JStr (a_id a)); ("type", JStr (a_type a));
        ("severity", JStr (a_severity a)); ("lat", JFloat (a_lat a));
        ("lng", JFloat (a_lng a)); ("area_acres", JFloat (a_area_acres a));
        ("date", JStr (a_date a)); ("description", JStr (a_description a))].

(** ['high' if area_acres > 20 else 'medium']. *)
Definition damage_severity (area_acres : float) : string :=
  if (20 <? area_acres)%float then "high" else "medium".

(** [area_sqm * 0.000247105]. *)
Definition acres_of_sqm (area_sqm : float) : float :=
  (area_sqm * 0.000247105)%float.

(** [sorted(l, key=key, reverse=True)]: a stable sort, largest key first;
    elements whose keys compare equal keep their order.  An element is
    inserted in front of the first one whose key is not larger.  For keys
    that are numbers (no NaN) a stable sort has one possible result, so
    this is the list Python's sort returns. *)
Fixpoint insert_desc {A} (key : A -> float) (x : A) (l : list A) : list A :=
  match l with
  | [] => [x]
  | y :: l' =>
      if (key x <? key y)%float then y :: insert_desc key x l'
      else x :: y :: l'
  end.

Definition sorted_reverse {A} (key : A -> float) (l : list A) : list A :=
  fold_right (insert_desc key) [] l.

(** The alerts the summary lists:
    [sorted(alerts, key=lambda x: x['area_acres'], reverse=True)[:5]]. *)
Definition top_alerts (alerts : list alert) : list alert :=
  firstn 5 (sorted_reverse a_area_acres alerts).

(* ================================================================= *)
(** ** The sort of the summary *)

Section SortedReverse.

Context {A : Type} (key : A -> float).

(** [a] may stand before [b]: its key is not below [b]'s. *)
Definition not_below (a b : A) : Prop := (key a <? key b)%float = false.

Lemma insert_desc_perm x l : Permutation (insert_desc key x l) (x :: l).
Proof.
  induction l as [|y l IH]; cbn [insert_desc]; [reflexivity|].
  destruct (key x <? key y)%float; [|reflexivity].
  rewrite IH. apply perm_swap.
Qed.

Lemma sorted_reverse_perm l : Permutation (sorted_reverse key l) l.
Proof.
  induction l as [|x l IH]; cbn; [reflexivity|].
  rewrite insert_desc_perm. now apply perm_skip.
Qed.

Lemma insert_desc_sorted x l :
  PyFloat.is_nan (key x) = false ->
  Forall (fun a => PyFloat.is_nan (key a) = false) l ->
  StronglySorted not_below l ->
  StronglySorted not_below (insert_desc key x l).
Proof.
  intros Nx Nl Hs. induction Hs as [|y l Hs IH Hy]; cbn [insert_desc].
  - constructor; constructor.
  - inversion Nl as [|? ? Ny Nl']; subst.
    destruct (key x <? key y)%float eqn:E.
    + constructor; [apply IH; assumption|].
      apply (Permutation_Forall (x := x :: l));
        [symmetry; apply insert_desc_perm|].
      constructor; [|assumption].
      unfold not_below. now apply PyFloat.ltb_asym.
    + constructor; [constructor; assumption|].
      constructor; [exact E|].
      rewrite Forall_forall in Hy, Nl' |- *. intros z Hz.
      unfold not_below in *.
      apply (PyFloat.nlt_trans _ (key y)); auto.
Qed.

Lemma sorted_reverse_sorted l :
  Forall (fun a => PyFloat.is_nan (key a) = false) l ->
  StronglySorted not_below (sorted_reverse key l).
Proof.
  induction 1 as [|x l Nx Nl IH]; cbn; [constructor|].
  apply insert_desc_sorted; [assumption| |assumption].
  apply (Permutation_Forall (x := l)); [|assumption].
  symmetry. apply sorted_reverse_perm.
Qed.

(** The elements with a given key, in the order they have in [l]. *)
Definition with_key (v : float) (l : list A) : list A :=
  filter (fun a => (key a =? v)%float) l.

Lemma insert_desc_stable v x l :
  with_key v (insert_desc key x l) = with_key v (x :: l).
Proof.
  unfold with_key. induction l as [|y l IH]; cbn [insert_desc]; [reflexivity|].
  destruct (key x <? key y)%float eqn:E; [|reflexivity].
  cbn [filter] in *. rewrite IH.
  destruct (key x =? v)%float eqn:Ex, (key y =? v)%float eqn:Ey;
    try reflexivity.
  pose proof (PyFloat.eqb_not_ltb _ _ _ Ex Ey). congruence.
Qed.

Lemma sorted_reverse_stable v l :
  with_key v (sorted_reverse key l) = with_key v l.
Proof.
  induction l as [|x l IH]; cbn [sorted_reverse fold_right]; [reflexivity|].
  rewrite insert_desc_stable. unfold with_key in *. cbn [filter].
  fold (sorted_reverse key l). now rewrite IH.
Qed.

End SortedReverse.

(* ================================================================= *)
(** ** The pipeline *)

Section Pipeline.

(** What the outside answers; the services are taken to answer every
    request.  [ee_initialize] is [None] when
    [ee.Initialize] succeeds and the text of the exception otherwise;
    [now k] is the result of the [k]-th call of [datetime.now()];
    [collection_size] is [collection.size().getInfo()] for the filtered
    Sentinel-2 collection and [composite] the median composite clipped to
    the region; [vectors_info], [area_info] and [centroid_info] are the
    results of [getInfo()] on the polygons of a mask, on a geometry's
    area and on the coordinates of its centroid (longitude, latitude).
    [nd_pixel] and [sub_pixel] are the server's pixel arithmetic for
    [normalizedDifference] and [subtract].  [json_load] and [json_dumps]
    are the [json] module's decoder and encoder, [round1] is
    [round(x, 1)], [float_str] and [float_4f] print a float as [str(x)]
    and as [format(x, '.4f')].  [stat_error p] is the answer of the
    operating system when the path [p], at which nothing is found, is
    looked up: [None] when the lookup fails in one of the ways that
    [Path.exists] takes for absence (no such file or directory, a file
    where a directory is needed, too many symbolic links, or a path that
    cannot be a path at all), and otherwise the [OSError] it raises (a
    name that is too long, a directory on the way that may not be
    searched). *)
Variable ee_initialize : option string.
Variable now : nat -> PyDate.datetime.
Variable collection_size : geometry -> string -> string -> Z -> Z.
Variable composite : geometry -> string -> string -> Z -> image.
Variable nd_pixel : float -> float -> option float.
Variable sub_pixel : float -> float -> float.
Variable vectors_info : raster -> geometry -> json.
Variable area_info : geometry -> float.
Variable centroid_info : geometry -> float * float.
Variable stat_error : string -> option exn.
Variable json_load : string -> exn + json.
Variable json_dumps : json -> string.
Variable round1 : float -> float.
Variable float_str : float -> string.
Variable float_4f : float -> string.

(** [Path(path).exists()]: [True] for a path that names something;
    where nothing is found, [exists] answers [False] when the lookup
    reports absence and lets any other error of the lookup through. *)
Definition path_exists (path : string) : M bool :=
  emit (PathExists path) ;;
  fun w =>
    match files w path with
    | Some _ => (inr true, w)
    | None =>
        match stat_error path with
        | Some e => (inl e, w)
        | None => (inr false, w)
        end
    end.

(** [datetime.now()]. *)
Definition datetime_now : M PyDate.datetime :=
  emit Clock ;;
  fun w => (inr (now (clock_reads w)),
            mkworld (trace w) (files w) (S (clock_reads w))).

(** A [getInfo()] round trip: the request is recorded, the answer is the
    service's. *)
Definition getInfo {A} (req : ee_request) (answer : A) : M A :=
  emit (EarthEngine req) ;; ret answer.

Definition initialize_ee : M bool :=
  emit (EarthEngine (ReqInitialize "red-lake-forest-watch")) ;;
  match ee_initialize with
  | None =>
      print "✓ Connected to Google Earth Engine" ;;
      ret true
  | Some e =>
      print "✗ Earth Engine authentication required" ;;
      print "  Run: earthengine authenticate" ;;
      print ("  Error: " ++ e) ;;
      ret false
  end.

Definition load_reservation_boundary (geojson_path : option string) : M geometry :=
  let fallback :=
    print "⚠ Using bounding box approximation - load actual boundary for accuracy" ;;
    ret (Rectangle RED_LAKE_BOUNDS_west RED_LAKE_BOUNDS_south
                   RED_LAKE_BOUNDS_east RED_LAKE_BOUNDS_north) in
  match geojson_path with
  | None => fallback
  | Some path =>
      if String.eqb path "" then fallback
      else
        present <- path_exists path ;;
        if present then
          text <- read_text path ;;
          geojson <- lift (json_load text) ;;
          features <- lift (subscript_key geojson "features") ;;
          first <- lift (subscript_0 features) ;;
          g <- lift (subscript_key first "geometry") ;;
          ret (GeoJSON g)
        else fallback
  end.

Definition get_sentinel2_image (region : geometry) (start_date end_date : string)
    (cloud_max : Z) : M (option image) :=
  count <- getInfo (ReqCollectionSize region start_date end_date cloud_max)
                   (collection_size region start_date end_date cloud_max) ;;
  print ("  Found " ++ str_of_Z count ++ " Sentinel-2 images for " ++
         start_date ++ " to " ++ end_date) ;;
  if count =? 0 then ret None
  else ret (Some (composite region start_date end_date cloud_max)).

(** [image.normalizedDifference([b1, b2])], one band. *)
Definition normalizedDifference (img : image) (b1 b2 : string) : raster :=
  fun p =>
    match img b1 p, img b2 p with
    | Some x, Some y => nd_pixel x y
    | _, _ => None
    end.

Definition calculate_ndvi (img : image) : raster :=
  normalizedDifference img "B8" "B4".

Definition calculate_nbr (img : image) : raster :=
  normalizedDifference img "B8" "B12".

(** The [current_date] argument: absent, a string, or a [datetime]. *)
Inductive date_arg : Type :=
| DateNone
| DateStr (s : string)
| DateObj (dt : PyDate.datetime).

Definition resolve_date (current_date : date_arg) : M PyDate.datetime :=
  match current_date with
  | DateNone => datetime_now
  | DateStr s => lift (PyDate.strptime_ymd s)
  | DateObj dt => ret dt
  end.

(** [(dt - timedelta(days=n)).strftime('%Y-%m-%d')]. *)
Definition days_before (dt : PyDate.datetime) (n : Z) : M string :=
  d <- lift (PyDate.sub_days dt n) ;;
  ret (PyDate.strftime_ymd (PyDate.dt_date d)).

Definition detect_changes (region : geometry) (current_date : date_arg)
    (lookback_days : Z) : M (option change_results) :=
  current_date <- resolve_date current_date ;;
  current_start <- days_before current_date 15 ;;
  let current_end := PyDate.strftime_ymd (PyDate.dt_date current_date) in
  baseline_end <- days_before current_date lookback_days ;;
  baseline_start <- days_before current_date (lookback_days + 15) ;;
  print (nl ++ "Analyzing changes:") ;;
  print ("  Baseline: " ++ baseline_start ++ " to " ++ baseline_end) ;;
  print ("  Current:  " ++ current_start ++ " to " ++ current_end) ;;
  print (nl ++ "Fetching baseline imagery...") ;;
  baseline_image <- get_sentinel2_image region baseline_start baseline_end 20 ;;
  print "Fetching current imagery..." ;;
  current_image <- get_sentinel2_image region current_start current_end 20 ;;
  match baseline_image, current_image with
  | Some baseline_image, Some current_image =>
      let baseline_ndvi := calculate_ndvi baseline_image in
      let current_ndvi := calculate_ndvi current_image in
      let ndvi_change := img_subtract sub_pixel current_ndvi baseline_ndvi in
      let masks :=
        classify ndvi_change NDVI_DECREASE_THRESHOLD NDVI_INCREASE_THRESHOLD in
      ret (Some (mk_change_results baseline_ndvi current_ndvi ndvi_change
                                   (fst masks) (snd masks)
                                   baseline_end current_end))
  | _, _ =>
      print "✗ Insufficient imagery available" ;;
      ret None
  end.

(** The polygons of a mask:
    [mask.selfMask().reduceToVectors(...).getInfo()]. *)
Definition mask_vectors (mask : raster) (region : geometry) : M json :=
  getInfo (ReqVectors (selfMask mask) region 30 1e8%float "polygon")
          (vectors_info (selfMask mask) region).

Definition damage_alert (i : nat) (area_acres : float) (centroid : float * float)
    (date : string) : alert :=
  mk_alert ("damage_" ++ str_of_nat (i + 1)) "vegetation_change"
           (damage_severity area_acres) (snd centroid) (fst centroid)
           (round1 area_acres) date
           ("Significant vegetation loss detected (" ++
            float_str (round1 area_acres) ++ " acres)").

Definition recovery_alert (i : nat) (area_acres : float) (centroid : float * float)
    (date : string) : alert :=
  mk_alert ("recovery_" ++ str_of_nat (i + 1)) "recovery" "positive"
           (snd centroid) (fst centroid) (round1 area_acres) date
           ("Vegetation recovery observed (" ++
            float_str (round1 area_acres) ++ " acres)").

(** The body of both [for i, feature in enumerate(...)] loops, from index
    [i] on; [mk] builds the alert of the mask at hand. *)
Fixpoint feature_loop (mk : nat -> float -> float * float -> string -> alert)
    (date : string) (i : nat) (features : list json) (alerts : list alert)
  : M (list alert) :=
  match features with
  | [] => ret alerts
  | feature :: rest =>
      g <- lift (subscript_key feature "geometry") ;;
      let geom := GeoJSON g in
      area_sqm <- getInfo (ReqArea geom) (area_info geom) ;;
      let area_acres := acres_of_sqm area_sqm in
      alerts <- (if (MIN_AREA_ACRES <=? area_acres)%float then
                   centroid <- getInfo (ReqCentroid geom) (centroid_info geom) ;;
                   ret (alerts ++ [mk i area_acres centroid date])%list
                 else ret alerts) ;;
      feature_loop mk date (S i) rest alerts
  end.

(** [if info and 'features' in info: for i, feature in
    enumerate(info['features']): ...]. *)
Definition process_features (mk : nat -> float -> float * float -> string -> alert)
    (date : string) (info : json) (alerts : list alert) : M (list alert) :=
  if truthy info then
    has <- lift (contains_key "features" info) ;;
    if has then
      fs <- lift (subscript_key info "features") ;;
      items <- lift (iterate fs) ;;
      feature_loop mk date 0 items alerts
    else ret alerts
  else ret alerts.

Definition extract_change_areas (cr : change_results) (region : geometry)
  : M (list alert) :=
  let alerts := [] in
  damage_features <- mask_vectors (damage_mask cr) region ;;
  alerts <- process_features damage_alert (current_date cr) damage_features alerts ;;
  recovery_features <- mask_vectors (recovery_mask cr) region ;;
  process_features recovery_alert (current_date cr) recovery_features alerts.

(** The dict that [export_alerts_json] hands to [json.dump]. *)
Definition export_document (generated : string) (alerts : list alert) : json :=
  JObj [("generated", JStr generated);
        ("count", JInt (Z.of_nat (List.length alerts)));
        ("alerts", JArr (map alert_json alerts))].

Definition export_alerts_json (alerts : list alert) (output_path : string) : M unit :=
  t <- datetime_now ;;
  let output := export_document (PyDate.isoformat t) alerts in
  write_text output_path (json_dumps output) ;;
  print ("✓ Exported " ++ str_of_nat (List.length alerts) ++ " alerts to " ++
         output_path).

Definition severity_is (s : string) (a : alert) : bool :=
  String.eqb (a_severity a) s.

(** The line of the summary for one alert. *)
Definition alert_line (a : alert) : string :=
  "  • " ++ a_type a ++ ": " ++ float_str (a_area_acres a) ++
  " acres at (" ++ float_4f (a_lat a) ++ ", " ++ float_4f (a_lng a) ++ ")".

Fixpoint print_top (alerts : list alert) : M unit :=
  match alerts with
  | [] => ret tt
  | a :: rest => print (alert_line a) ;; print_top rest
  end.

(** [run_analysis]: [None] is Python's [None] of the bare [return]s. *)
Definition run_analysis (boundary_file : option string) : M (option (list alert)) :=
  print (repeat_string "=" 50) ;;
  print "RED LAKE FOREST WATCH - Satellite Analysis" ;;
  print (repeat_string "=" 50) ;;
  connected <- initialize_ee ;;
  if negb connected then ret None
  else
    print (nl ++ "Loading reservation boundary...") ;;
    region <- load_reservation_boundary boundary_file ;;
    print (nl ++ "Running change detection...") ;;
    changes <- detect_changes region DateNone 30 ;;
    match changes with
    | None =>
        print "Analysis failed - check imagery availability" ;;
        ret None
    | Some changes =>
        print (nl ++ "Extracting change areas...") ;;
        alerts <- extract_change_areas changes region ;;
        print (nl ++ "✓ Found " ++ str_of_nat (List.length alerts) ++
               " significant changes") ;;
        mkdir_exist_ok OUTPUT_DIR ;;
        export_alerts_json alerts (path_join OUTPUT_DIR "alerts.json") ;;
        print (nl ++ repeat_string "=" 50) ;;
        print "ANALYSIS COMPLETE" ;;
        print (repeat_string "=" 50) ;;
        let high_priority := filter (severity_is "high") alerts in
        let medium_priority := filter (severity_is "medium") alerts in
        let recovery := filter (severity_is "positive") alerts in
        print ("  🔴 High priority:   " ++ str_of_nat (List.length high_priority)) ;;
        print ("  🟡 Medium priority: " ++ str_of_nat (List.length medium_priority)) ;;
        print ("  🟢 Recovery areas:  " ++ str_of_nat (List.length recovery)) ;;
        (match alerts with
         | [] => ret tt
         | _ =>
             print (nl ++ "Top alerts:") ;;
             print_top (top_alerts alerts)
         end) ;;
        ret (Some alerts)
    end.

Definition schedule_regular_analysis : M unit :=
  print "For scheduled runs, set up a cron job:" ;;
  print "  0 6 */5 * * python satellite_processor.py" ;;
  print "  (Runs every 5 days at 6 AM)".

(** The entry point, for the command line [argv] (the script's name
    first). *)
Definition main (argv : list string) : M (option (list alert)) :=
  let boundary_file :=
    match argv with
    | _ :: path :: _ => Some path
    | _ => None
    end in
  (match boundary_file with
   | Some path =>
       if String.eqb path ""
       then print "No boundary file provided - using bounding box approximation" ;;
            print "Usage: python satellite_processor.py [boundary.geojson]"
       else print ("Using boundary file: " ++ path)
   | None =>
       print "No boundary file provided - using bounding box approximation" ;;
       print "Usage: python satellite_processor.py [boundary.geojson]"
   end) ;;
  run_analysis boundary_file.

(* ----------------------------------------------------------------- *)
(** *** Running the monad *)

(** The world after further events [evs]. *)
Definition logged (w : world) (evs : list event) : world :=
  mkworld (trace w ++ evs)%list (files w) (clock_reads w).

(** The Earth Engine requests among some events, in order. *)
Fixpoint requests (evs : list event) : list ee_request :=
  match evs with
  | [] => []
  | EarthEngine r :: rest => r :: requests rest
  | _ :: rest => requests rest
  end.

(** The lines printed among some events, in order. *)
Fixpoint printed (evs : list event) : list string :=
  match evs with
  | [] => []
  | Print s :: rest => s :: printed rest
  | _ :: rest => printed rest
  end.

(** The files written among some events. *)
Fixpoint written (evs : list event) : list string :=
  match evs with
  | [] => []
  | FileWrite p _ :: rest => p :: written rest
  | Mkdir p :: rest => p :: written rest
  | _ :: rest => written rest
  end.

Lemma logged_nil w : logged w [] = w.
Proof. destruct w. unfold logged. cbn. now rewrite app_nil_r. Qed.

Lemma logged_logged w a b : logged (logged w a) b = logged w (a ++ b).
Proof. unfold logged. cbn. now rewrite app_assoc. Qed.

Lemma bind_run {A B} (c : M A) (k : A -> M B) w a w' :
  c w = (inr a, w') -> bind c k w = k a w'.
Proof. unfold bind. now intros ->. Qed.

Lemma emit_run e w : emit e w = (inr tt, logged w [e]).
Proof. reflexivity. Qed.

Lemma print_run s w : print s w = (inr tt, logged w [Print s]).
Proof. reflexivity. Qed.

Lemma getInfo_run {A} req (a : A) w :
  getInfo req a w = (inr a, logged w [EarthEngine req]).
Proof. reflexivity. Qed.

Lemma lift_run {A} (r : exn + A) a w : r = inr a -> lift r w = (inr a, w).
Proof. now intros ->. Qed.

(** One step of a run: the head computation's result is known. *)
Ltac step :=
  first
    [ rewrite print_run
    | rewrite emit_run
    | rewrite getInfo_run
    | erewrite bind_run by
        first [ apply print_run | apply emit_run | apply getInfo_run
              | eassumption | reflexivity ] ];
  rewrite ?logged_logged; cbn [app].

(* ----------------------------------------------------------------- *)
(** *** Change detection *)

Lemma get_sentinel2_image_run region s e cloud w :
  get_sentinel2_image region s e cloud w =
  (inr (if collection_size region s e cloud =? 0 then None
        else Some (composite region s e cloud)),
   logged w [EarthEngine (ReqCollectionSize region s e cloud);
             Print ("  Found " ++ str_of_Z (collection_size region s e cloud) ++
                    " Sentinel-2 images for " ++ s ++ " to " ++ e)]).
Proof.
  unfold get_sentinel2_image. repeat step.
  destruct (_ =? 0); reflexivity.
Qed.

(** The day [n] days before [dt], printed. *)
Definition window_date (dt : PyDate.datetime) (n : Z) : string :=
  PyDate.strftime_ymd
    (PyDate.fromordinal (PyDate.toordinal (PyDate.dt_date dt) - n)).

Definition in_range (o : Z) : Prop := 1 <= o <= PyDate.MAXORDINAL.

Lemma days_before_run dt n w :
  in_range (PyDate.toordinal (PyDate.dt_date dt)) ->
  in_range (PyDate.toordinal (PyDate.dt_date dt) - n) ->
  days_before dt n w = (inr (window_date dt n), w).
Proof.
  intros Ho Hr.
  destruct (PyDateFacts.sub_days_in_range dt n Hr Ho) as (d & Hs & Hd & _).
  unfold days_before. erewrite bind_run by (apply lift_run; exact Hs).
  cbn. unfold window_date. now subst d.
Qed.

(** What [detect_changes] prints and asks, once the reference date is
    known, for the window bounds [bs], [be], [cs], [ce]. *)
Definition detect_events (region : geometry) (bs be cs ce : string) : list event :=
  let nb := collection_size region bs be 20 in
  let nc := collection_size region cs ce 20 in
  [Print (nl ++ "Analyzing changes:");
   Print ("  Baseline: " ++ bs ++ " to " ++ be);
   Print ("  Current:  " ++ cs ++ " to " ++ ce);
   Print (nl ++ "Fetching baseline imagery...");
   EarthEngine (ReqCollectionSize region bs be 20);
   Print ("  Found " ++ str_of_Z nb ++ " Sentinel-2 images for " ++
          bs ++ " to " ++ be);
   Print "Fetching current imagery...";
   EarthEngine (ReqCollectionSize region cs ce 20);
   Print ("  Found " ++ str_of_Z nc ++ " Sentinel-2 images for " ++
          cs ++ " to " ++ ce)] ++
  (if (nb =? 0) || (nc =? 0) then [Print "✗ Insufficient imagery available"]
   else []).

(** What [detect_changes] returns for those window bounds. *)
Definition detect_result (region : geometry) (bs be cs ce : string)
  : option change_results :=
  if (collection_size region bs be 20 =? 0) ||
     (collection_size region cs ce 20 =? 0) then None
  else
    let baseline_ndvi := calculate_ndvi (composite region bs be 20) in
    let current_ndvi := calculate_ndvi (composite region cs ce 20) in
    let ndvi_change := img_subtract sub_pixel current_ndvi baseline_ndvi in
    Some (mk_change_results baseline_ndvi current_ndvi ndvi_change
            (img_lt ndvi_change NDVI_DECREASE_THRESHOLD)
            (img_gt ndvi_change NDVI_INCREASE_THRESHOLD)
            be ce).

Lemma detect_changes_run region cd lb w0 ref w :
  resolve_date cd w0 = (inr ref, w) ->
  in_range (PyDate.toordinal (PyDate.dt_date ref)) ->
  in_range (PyDate.toordinal (PyDate.dt_date ref) - 15) ->
  in_range (PyDate.toordinal (PyDate.dt_date ref) - lb) ->
  in_range (PyDate.toordinal (PyDate.dt_date ref) - (lb + 15)) ->
  let bs := window_date ref (lb + 15) in
  let be := window_date ref lb in
  let cs := window_date ref 15 in
  let ce := PyDate.strftime_ymd (PyDate.dt_date ref) in
  detect_changes region cd lb w0 =
  (inr (detect_result region bs be cs ce),
   logged w (detect_events region bs be cs ce)).
Proof.
  intros Hres Ho H15 Hlb Hlb15 bs be cs ce.
  unfold detect_changes.
  erewrite bind_run by exact Hres.
  erewrite bind_run by (apply days_before_run; assumption).
  erewrite bind_run by (apply days_before_run; assumption).
  erewrite bind_run by (apply days_before_run; assumption).
  fold bs be cs ce.
  do 4 step.
  erewrite bind_run by apply get_sentinel2_image_run.
  rewrite logged_logged. cbn [app].
  step.
  erewrite bind_run by apply get_sentinel2_image_run.
  rewrite logged_logged. cbn [app].
  unfold detect_result, detect_events. cbv zeta.
  destruct (collection_size region bs be 20 =? 0),
           (collection_size region cs ce 20 =? 0); cbn [orb];
    try (step; unfold ret; reflexivity);
    unfold ret; rewrite app_nil_r; reflexivity.
Qed.

(** The events a run added to the trace. *)
Definition new_events (w w' : world) : list event :=
  skipn (List.length (trace w)) (trace w').

Lemma requests_detect_events region bs be cs ce :
  requests (detect_events region bs be cs ce) =
  [ReqCollectionSize region bs be 20; ReqCollectionSize region cs ce 20].
Proof.
  unfold detect_events. cbv zeta. destruct (_ || _); reflexivity.
Qed.

Lemma detect_result_dates region bs be cs ce cr :
  detect_result region bs be cs ce = Some cr ->
  baseline_date cr = be /\ current_date cr = ce.
Proof.
  unfold detect_result. destruct (_ || _); [discriminate|].
  intros H. injection H as <-. split; reflexivity.
Qed.

(** C1.  Whatever the reference date (given as a [datetime], parsed from
    a string, or read from the clock) and whatever [lookback_days], as long
    as the four window bounds are dates of the calendar (years 1 to 9999),
    [detect_changes] asks the imagery gateway first for the baseline window
    and then for the current window, where the current window runs from the
    date 15 days before the reference date to the reference date and the
    baseline window from the date [lookback_days + 15] days before it to
    the date [lookback_days] days before it; the result records the two
    window ends. *)
Theorem detect_changes_windows region cd lb w0 ref w :
  resolve_date cd w0 = (inr ref, w) ->
  PyDate.valid_date (PyDate.dt_date ref) = true ->
  in_range (PyDate.toordinal (PyDate.dt_date ref) - 15) ->
  in_range (PyDate.toordinal (PyDate.dt_date ref) - lb) ->
  in_range (PyDate.toordinal (PyDate.dt_date ref) - (lb + 15)) ->
  let o := PyDate.toordinal (PyDate.dt_date ref) in
  let bs := PyDate.fromordinal (o - (lb + 15)) in
  let be := PyDate.fromordinal (o - lb) in
  let cs := PyDate.fromordinal (o - 15) in
  let ce := PyDate.dt_date ref in
  (PyDate.valid_date bs = true /\ PyDate.toordinal bs = o - (lb + 15)) /\
  (PyDate.valid_date be = true /\ PyDate.toordinal be = o - lb) /\
  (PyDate.valid_date cs = true /\ PyDate.toordinal cs = o - 15) /\
  exists res evs,
    detect_changes region cd lb w0 = (inr res, logged w evs) /\
    requests evs =
    [ReqCollectionSize region (PyDate.strftime_ymd bs) (PyDate.strftime_ymd be) 20;
     ReqCollectionSize region (PyDate.strftime_ymd cs) (PyDate.strftime_ymd ce) 20] /\
    forall cr, res = Some cr ->
      baseline_date cr = PyDate.strftime_ymd be /\
      current_date cr = PyDate.strftime_ymd ce.
Proof.
  intros Hres Hv H15 Hlb Hlb15 o bs be cs ce.
  pose proof (PyDateFacts.toordinal_range _ Hv) as Ho.
  split; [split; [apply PyDateFacts.ord2ymd_valid; exact Hlb15
                 | apply PyDateFacts.ord2ymd_toordinal; apply Hlb15]|].
  split; [split; [apply PyDateFacts.ord2ymd_valid; exact Hlb
                 | apply PyDateFacts.ord2ymd_toordinal; apply Hlb]|].
  split; [split; [apply PyDateFacts.ord2ymd_valid; exact H15
                 | apply PyDateFacts.ord2ymd_toordinal; apply H15]|].
  exists (detect_result region (window_date ref (lb + 15)) (window_date ref lb)
            (window_date ref 15) (PyDate.strftime_ymd (PyDate.dt_date ref))).
  exists (detect_events region (window_date ref (lb + 15)) (window_date ref lb)
            (window_date ref 15) (PyDate.strftime_ymd (PyDate.dt_date ref))).
  split; [|split].
  - apply detect_changes_run; assumption.
  - apply requests_detect_events.
  - apply detect_result_dates.
Qed.

(** A run that is refused before the imagery gateway is asked anything:
    it raises, and no request has been sent. *)
Definition rejected_before_gateway {A} (c : M A) (w : world) : Prop :=
  exists e w', c w = (inl e, w') /\ requests (new_events w w') = [].

(** C3, as the code has it.  [detect_changes] does not validate
    [lookback_days]: for a value below 15 whose window bounds are dates of
    the calendar it raises nothing and is not refused; it asks the imagery
    gateway for the baseline and the current window, and the baseline
    window ends after the current window starts (the two overlap as soon
    as [lookback_days] is at least -15). *)
Theorem detect_changes_short_lookback region cd lb w0 ref w :
  resolve_date cd w0 = (inr ref, w) ->
  PyDate.valid_date (PyDate.dt_date ref) = true ->
  in_range (PyDate.toordinal (PyDate.dt_date ref) - 15) ->
  in_range (PyDate.toordinal (PyDate.dt_date ref) - lb) ->
  in_range (PyDate.toordinal (PyDate.dt_date ref) - (lb + 15)) ->
  lb < 15 ->
  let o := PyDate.toordinal (PyDate.dt_date ref) in
  let bs := PyDate.fromordinal (o - (lb + 15)) in
  let be := PyDate.fromordinal (o - lb) in
  let cs := PyDate.fromordinal (o - 15) in
  let ce := PyDate.dt_date ref in
  ~ rejected_before_gateway (detect_changes region cd lb) w0 /\
  (exists res evs,
    detect_changes region cd lb w0 = (inr res, logged w evs) /\
    requests evs =
    [ReqCollectionSize region (PyDate.strftime_ymd bs) (PyDate.strftime_ymd be) 20;
     ReqCollectionSize region (PyDate.strftime_ymd cs) (PyDate.strftime_ymd ce) 20]) /\
  PyDate.toordinal cs < PyDate.toordinal be /\
  (-15 <= lb -> PyDate.toordinal bs <= PyDate.toordinal ce).
Proof.
  intros Hres Hv H15 Hlb Hlb15 Hshort o bs be cs ce.
  pose proof (PyDateFacts.toordinal_range _ Hv) as Ho.
  pose proof (detect_changes_run region cd lb w0 ref w Hres Ho H15 Hlb Hlb15)
    as Hrun.
  cbv zeta in Hrun.
  split; [|split; [|split]].
  - intros (e & w' & Hfail & _). rewrite Hfail in Hrun. discriminate Hrun.
  - eexists _, _. split; [exact Hrun|]. apply requests_detect_events.
  - unfold cs, be, in_range in *.
    rewrite !PyDateFacts.ord2ymd_toordinal by lia. lia.
  - intros Hneg. unfold bs, ce, o, in_range in *.
    rewrite PyDateFacts.ord2ymd_toordinal by lia. lia.
Qed.

(* ----------------------------------------------------------------- *)
(** *** Classification *)

(** A pixel is set in a mask when [selfMask] keeps it: it is not masked
    and its value is not zero. *)
Definition mask_set (m : raster) (p : pixel) : bool :=
  match selfMask m p with
  | Some _ => true
  | None => false
  end.

Lemma img_lt_set a c p :
  mask_set (img_lt a c) p = true ->
  exists x, a p = Some x /\ (x <? c)%float = true.
Proof.
  unfold mask_set, selfMask, img_lt.
  destruct (a p) as [x|]; cbn [option_map]; [|discriminate].
  destruct (x <? c)%float eqn:E; [eauto|].
  intros H. vm_compute in H. discriminate H.
Qed.

Lemma img_gt_set a c p :
  mask_set (img_gt a c) p = true ->
  exists x, a p = Some x /\ (c <? x)%float = true.
Proof.
  unfold mask_set, selfMask, img_gt.
  destruct (a p) as [x|]; cbn [option_map]; [|discriminate].
  destruct (c <? x)%float eqn:E; [eauto|].
  intros H. vm_compute in H. discriminate H.
Qed.

(** C5.  For any two index rasters and thresholds with
    [decrease < 0 < increase], no pixel is set both in the damage mask
    ([change < decrease]) and in the recovery mask ([change > increase]). *)
Theorem masks_disjoint (baseline current : raster) (decrease increase : float)
    (p : pixel) :
  (decrease <? 0)%float = true ->
  (0 <? increase)%float = true ->
  let change := img_subtract sub_pixel current baseline in
  let masks := classify change decrease increase in
  mask_set (fst masks) p && mask_set (snd masks) p = false.
Proof.
  intros Hd Hi change masks.
  destruct (mask_set (fst masks) p) eqn:E1; [|reflexivity].
  destruct (mask_set (snd masks) p) eqn:E2; [|reflexivity].
  exfalso.
  apply img_lt_set in E1. apply img_gt_set in E2.
  destruct E1 as (x & Hx & Hlt), E2 as (y & Hy & Hgt).
  rewrite Hx in Hy. injection Hy as <-.
  pose proof (PyFloat.ltb_trans _ _ _ Hlt Hd) as H1.
  pose proof (PyFloat.ltb_trans _ _ _ Hi Hgt) as H2.
  pose proof (PyFloat.ltb_asym _ _ H1) as H3.
  congruence.
Qed.

(* ----------------------------------------------------------------- *)
(** *** Boundary loading *)

Definition fallback_region : geometry :=
  Rectangle RED_LAKE_BOUNDS_west RED_LAKE_BOUNDS_south
            RED_LAKE_BOUNDS_east RED_LAKE_BOUNDS_north.

Definition fallback_warning : string :=
  "⚠ Using bounding box approximation - load actual boundary for accuracy".

(** The geometry read off the text of a boundary file. *)
Definition boundary_geometry (text : string) : exn + geometry :=
  match json_load text with
  | inl e => inl e
  | inr geojson =>
      match subscript_key geojson "features" with
      | inl e => inl e
      | inr features =>
          match subscript_0 features with
          | inl e => inl e
          | inr first =>
              match subscript_key first "geometry" with
              | inl e => inl e
              | inr g => inr (GeoJSON g)
              end
          end
      end
  end.


(** What [load_reservation_boundary] returns and what it does, as
    functions of the files present. *)
Definition boundary_result (fs : string -> option fs_entry)
    (geojson_path : option string) : exn + geometry :=
  match geojson_path with
  | None => inr fallback_region
  | Some path =>
      if String.eqb path "" then inr fallback_region
      else
        match fs path with
        | None =>
            match stat_error path with
            | Some e => inl e
            | None => inr fallback_region
            end
        | Some Directory => inl (IsADirectoryError path)
        | Some (File text) => boundary_geometry text
        end
  end.

Definition boundary_events (fs : string -> option fs_entry)
    (geojson_path : option string) : list event :=
  match geojson_path with
  | None => [Print fallback_warning]
  | Some path =>
      if String.eqb path "" then [Print fallback_warning]
      else
        match fs path with
        | None =>
            PathExists path ::
            match stat_error path with
            | Some _ => []
            | None => [Print fallback_warning]
            end
        | Some _ => [PathExists path; FileRead path]
        end
  end.

Lemma path_exists_run path w :
  path_exists path w =
  match files w path with
  | Some _ => (inr true, logged w [PathExists path])
  | None =>
      match stat_error path with
      | Some e => (inl e, logged w [PathExists path])
      | None => (inr false, logged w [PathExists path])
      end
  end.
Proof.
  unfold path_exists, bind, emit, logged. cbn [files].
  destruct (files w path); [reflexivity|].
  destruct (stat_error path); reflexivity.
Qed.

Lemma read_text_run path text w :
  files w path = Some (File text) ->
  read_text path w = (inr text, logged w [FileRead path]).
Proof.
  intros H. unfold read_text, bind, emit, logged. cbn [files]. now rewrite H.
Qed.

Lemma load_reservation_boundary_run geojson_path w :
  load_reservation_boundary geojson_path w =
  (boundary_result (files w) geojson_path,
   logged w (boundary_events (files w) geojson_path)).
Proof.
  unfold load_reservation_boundary, boundary_result, boundary_events.
  destruct geojson_path as [path|]; [|reflexivity].
  destruct (String.eqb path ""); [reflexivity|].
  pose proof (path_exists_run path w) as Hex.
  destruct (files w path) as [[text|]|] eqn:E.
  - erewrite bind_run by exact Hex. cbv beta iota.
    erewrite bind_run by (apply read_text_run; exact E).
    rewrite logged_logged. cbn [app].
    unfold boundary_geometry, lift, bind, ret, raise.
    destruct (json_load text) as [e|geojson]; [reflexivity|].
    destruct (subscript_key geojson "features") as [e|features]; [reflexivity|].
    destruct (subscript_0 features) as [e|first]; [reflexivity|].
    destruct (subscript_key first "geometry") as [e|g]; reflexivity.
  - erewrite bind_run by exact Hex. cbv beta iota.
    unfold read_text, bind, emit, logged. cbn [files trace clock_reads].
    rewrite E, <- app_assoc. reflexivity.
  - destruct (stat_error path) as [e|].
    + unfold bind. now rewrite Hex.
    + erewrite bind_run by exact Hex. cbv beta iota zeta.
      unfold bind. rewrite print_run. unfold ret. rewrite logged_logged.
      reflexivity.
Qed.

(** X5.  A boundary file that is there but that [json.load] cannot
    decode is not caught: the decoder's exception leaves
    [load_reservation_boundary], and no warning is printed. *)
Lemma load_reservation_boundary_undecodable path text e w :
  path <> "" ->
  files w path = Some (File text) ->
  json_load text = inl e ->
  load_reservation_boundary (Some path) w =
  (inl e, logged w [PathExists path; FileRead path]).
Proof.
  intros Hne Hf Hj. rewrite load_reservation_boundary_run.
  apply String.eqb_neq in Hne.
  unfold boundary_result, boundary_events. rewrite Hne, Hf.
  unfold boundary_geometry. rewrite Hj. reflexivity.
Qed.


(* ----------------------------------------------------------------- *)
(** *** A run without imagery *)

Lemma initialize_ee_connected w :
  ee_initialize = None ->
  initialize_ee w =
  (inr true, logged w [EarthEngine (ReqInitialize "red-lake-forest-watch");
                       Print "✓ Connected to Google Earth Engine"]).
Proof.
  intros H. unfold initialize_ee. rewrite H. repeat step. reflexivity.
Qed.

(** The world after events [evs] and one more reading of the clock. *)
Definition logged_tick (w : world) (evs : list event) : world :=
  mkworld (trace w ++ evs)%list (files w) (S (clock_reads w)).

Lemma datetime_now_run w :
  datetime_now w = (inr (now (clock_reads w)), logged_tick w [Clock]).
Proof. reflexivity. Qed.

Lemma logged_tick_logged w a b :
  logged (logged_tick w a) b = logged_tick w (a ++ b).
Proof. unfold logged, logged_tick. cbn. now rewrite app_assoc. Qed.

Lemma logged_logged_tick w a b :
  logged_tick (logged w a) b = logged_tick w (a ++ b).
Proof. unfold logged, logged_tick. cbn. now rewrite app_assoc. Qed.

Definition banner : list event :=
  [Print (repeat_string "=" 50);
   Print "RED LAKE FOREST WATCH - Satellite Analysis";
   Print (repeat_string "=" 50)].

(** What [run_analysis] does up to the end of change detection, for a
    connected service, a loaded [region] and window bounds in range. *)
Definition analysis_prefix (fs : string -> option fs_entry)
    (boundary_file : option string) (region : geometry)
    (bs be cs ce : string) : list event :=
  banner ++
  [EarthEngine (ReqInitialize "red-lake-forest-watch");
   Print "✓ Connected to Google Earth Engine";
   Print (nl ++ "Loading reservation boundary...")] ++
  boundary_events fs boundary_file ++
  [Print (nl ++ "Running change detection..."); Clock] ++
  detect_events region bs be cs ce.

Lemma load_reservation_boundary_ok boundary_file region w evs0 :
  boundary_result (files w) boundary_file = inr region ->
  load_reservation_boundary boundary_file (logged w evs0) =
  (inr region, logged w (evs0 ++ boundary_events (files w) boundary_file)).
Proof.
  intros H. rewrite load_reservation_boundary_run.
  cbn [files logged]. rewrite H. f_equal.
  unfold logged. cbn [trace files clock_reads]. now rewrite app_assoc.
Qed.

Lemma detect_changes_now_run region lb w evs0 :
  let ref := now (clock_reads w) in
  in_range (PyDate.toordinal (PyDate.dt_date ref)) ->
  in_range (PyDate.toordinal (PyDate.dt_date ref) - 15) ->
  in_range (PyDate.toordinal (PyDate.dt_date ref) - lb) ->
  in_range (PyDate.toordinal (PyDate.dt_date ref) - (lb + 15)) ->
  detect_changes region DateNone lb (logged w evs0) =
  (inr (detect_result region (window_date ref (lb + 15)) (window_date ref lb)
          (window_date ref 15) (PyDate.strftime_ymd (PyDate.dt_date ref))),
   logged_tick w
     (evs0 ++
      Clock :: detect_events region (window_date ref (lb + 15))
                 (window_date ref lb) (window_date ref 15)
                 (PyDate.strftime_ymd (PyDate.dt_date ref)))).
Proof.
  intros ref Ho H15 Hlb Hlb15.
  assert (Hres : resolve_date DateNone (logged w evs0) =
                 (inr ref, logged_tick w (evs0 ++ [Clock]))).
  { unfold resolve_date. rewrite datetime_now_run.
    rewrite logged_logged_tick. reflexivity. }
  pose proof (detect_changes_run region DateNone lb _ ref _ Hres Ho H15 Hlb Hlb15)
    as Hrun.
  cbv zeta in Hrun. rewrite Hrun. rewrite logged_tick_logged.
  rewrite <- app_assoc. reflexivity.
Qed.

Lemma detect_result_none region bs be cs ce :
  collection_size region bs be 20 = 0 \/ collection_size region cs ce 20 = 0 ->
  detect_result region bs be cs ce = None.
Proof.
  intros H. unfold detect_result.
  replace ((collection_size region bs be 20 =? 0) ||
           (collection_size region cs ce 20 =? 0)) with true; [reflexivity|].
  symmetry. apply orb_true_iff. rewrite !Z.eqb_eq. exact H.
Qed.

Lemma requests_app a b : requests (a ++ b) = (requests a ++ requests b)%list.
Proof.
  induction a as [|[] a IH]; cbn; rewrite ?IH; reflexivity.
Qed.

Lemma printed_app a b : printed (a ++ b) = (printed a ++ printed b)%list.
Proof.
  induction a as [|[] a IH]; cbn; rewrite ?IH; reflexivity.
Qed.

Lemma written_app a b : written (a ++ b) = (written a ++ written b)%list.
Proof.
  induction a as [|[] a IH]; cbn; rewrite ?IH; reflexivity.
Qed.

Lemma boundary_events_quiet fs p :
  requests (boundary_events fs p) = [] /\ written (boundary_events fs p) = [].
Proof.
  unfold boundary_events. destruct p as [path|]; [|split; reflexivity].
  destruct (String.eqb path ""); [split; reflexivity|].
  destruct (fs path); [split; reflexivity|].
  destruct (stat_error path); split; reflexivity.
Qed.

Lemma written_detect_events region bs be cs ce :
  written (detect_events region bs be cs ce) = [].
Proof.
  unfold detect_events. cbv zeta. destruct (_ || _); reflexivity.
Qed.

Lemma printed_detect_events_none region bs be cs ce :
  detect_result region bs be cs ce = None ->
  In "✗ Insufficient imagery available"
     (printed (detect_events region bs be cs ce)).
Proof.
  unfold detect_result, detect_events. cbv zeta.
  destruct (_ || _); [|discriminate]. intros _.
  rewrite printed_app. apply in_or_app. right. left. reflexivity.
Qed.

(** The events of a run that stops for lack of imagery. *)
Definition no_imagery_events (fs : string -> option fs_entry)
    (boundary_file : option string) (region : geometry)
    (bs be cs ce : string) : list event :=
  banner ++
  [EarthEngine (ReqInitialize "red-lake-forest-watch");
   Print "✓ Connected to Google Earth Engine";
   Print (nl ++ "Loading reservation boundary...")] ++
  boundary_events fs boundary_file ++
  [Print (nl ++ "Running change detection...")] ++
  (Clock :: detect_events region bs be cs ce) ++
  [Print "Analysis failed - check imagery availability"].

Lemma run_analysis_no_imagery_run boundary_file region w :
  ee_initialize = None ->
  boundary_result (files w) boundary_file = inr region ->
  let ref := now (clock_reads w) in
  in_range (PyDate.toordinal (PyDate.dt_date ref)) ->
  in_range (PyDate.toordinal (PyDate.dt_date ref) - 15) ->
  in_range (PyDate.toordinal (PyDate.dt_date ref) - 30) ->
  in_range (PyDate.toordinal (PyDate.dt_date ref) - (30 + 15)) ->
  let bs := window_date ref (30 + 15) in
  let be := window_date ref 30 in
  let cs := window_date ref 15 in
  let ce := PyDate.strftime_ymd (PyDate.dt_date ref) in
  detect_result region bs be cs ce = None ->
  run_analysis boundary_file w =
  (inr None,
   logged_tick w (no_imagery_events (files w) boundary_file region bs be cs ce)).
Proof.
  intros Hinit Hb ref Ho H15 H30 H45 bs be cs ce Hnone.
  unfold run_analysis.
  do 3 step.
  erewrite bind_run by (apply initialize_ee_connected; exact Hinit).
  cbn [negb]. rewrite logged_logged. cbn [app].
  step.
  erewrite bind_run by (apply load_reservation_boundary_ok; exact Hb).
  erewrite bind_run by
    (rewrite print_run, logged_logged; reflexivity).
  erewrite bind_run by
    (apply detect_changes_now_run; assumption).
  fold ref bs be cs ce. rewrite Hnone.
  erewrite bind_run by
    (rewrite print_run, logged_tick_logged; reflexivity).
  unfold ret, no_imagery_events, banner. f_equal. f_equal.
  cbn [app]. rewrite <- !app_assoc. reflexivity.
Qed.

(** C8.  When the imagery gateway has no scene for the baseline window
    or for the current window, a run that got as far as change detection
    ends without an exception and without alerts (it returns [None]); it
    prints why; it creates no directory and writes no file, so the files
    are as they were; and the only requests it sent are the connection
    and the two scene counts: nothing was classified, no mask was
    vectorized, no area or centroid was asked for. *)
Theorem run_analysis_no_imagery boundary_file region w :
  ee_initialize = None ->
  boundary_result (files w) boundary_file = inr region ->
  let ref := now (clock_reads w) in
  PyDate.valid_date (PyDate.dt_date ref) = true ->
  in_range (PyDate.toordinal (PyDate.dt_date ref) - (30 + 15)) ->
  let bs := window_date ref (30 + 15) in
  let be := window_date ref 30 in
  let cs := window_date ref 15 in
  let ce := PyDate.strftime_ymd (PyDate.dt_date ref) in
  collection_size region bs be 20 = 0 \/ collection_size region cs ce 20 = 0 ->
  exists w' evs,
    run_analysis boundary_file w = (inr None, w') /\
    evs = new_events w w' /\
    files w' = files w /\
    written evs = [] /\
    requests evs =
    [ReqInitialize "red-lake-forest-watch";
     ReqCollectionSize region bs be 20;
     ReqCollectionSize region cs ce 20] /\
    In "✗ Insufficient imagery available" (printed evs) /\
    In "Analysis failed - check imagery availability" (printed evs) /\
    detect_result region bs be cs ce = None.
Proof.
  intros Hinit Hb ref Hv H45 bs be cs ce Hzero.
  pose proof (PyDateFacts.toordinal_range _ Hv) as Ho.
  assert (H15 : in_range (PyDate.toordinal (PyDate.dt_date ref) - 15))
    by (unfold in_range in *; lia).
  assert (H30 : in_range (PyDate.toordinal (PyDate.dt_date ref) - 30))
    by (unfold in_range in *; lia).
  pose proof (detect_result_none region bs be cs ce Hzero) as Hnone.
  exists (logged_tick w
            (no_imagery_events (files w) boundary_file region bs be cs ce)).
  exists (no_imagery_events (files w) boundary_file region bs be cs ce).
  split; [apply run_analysis_no_imagery_run; assumption|].
  split.
  { unfold new_events, logged_tick. cbn [trace].
    rewrite skipn_app, skipn_all, Nat.sub_diag. reflexivity. }
  split; [reflexivity|].
  unfold no_imagery_events.
  destruct (boundary_events_quiet (files w) boundary_file) as [Hq1 Hq2].
  split; [|split; [|split; [|split]]].
  - rewrite !written_app, Hq2. cbn [written app banner].
    rewrite written_detect_events. reflexivity.
  - rewrite !requests_app, Hq1. cbn [requests app banner].
    rewrite requests_detect_events. reflexivity.
  - rewrite !printed_app. apply in_or_app. right. apply in_or_app. right.
    apply in_or_app. right. apply in_or_app. right. apply in_or_app. left.
    cbn [printed]. apply printed_detect_events_none. exact Hnone.
  - rewrite !printed_app. apply in_or_app. right. apply in_or_app. right.
    apply in_or_app. right. apply in_or_app. right. apply in_or_app. right.
    left. reflexivity.
  - exact Hnone.
Qed.

(* ----------------------------------------------------------------- *)
(** *** Extraction of the change areas *)

Definition has_geometry (f : json) : bool :=
  match subscript_key f "geometry" with
  | inr _ => true
  | inl _ => false
  end.

(** The alert, if any, of the raw feature at position [k]. *)
Definition feature_alerts (mk : nat -> float -> float * float -> string -> alert)
    (date : string) (k : nat) (f : json) : list alert :=
  match subscript_key f "geometry" with
  | inr g =>
      let geom := GeoJSON g in
      let area_acres := acres_of_sqm (area_info geom) in
      if (MIN_AREA_ACRES <=? area_acres)%float
      then [mk k area_acres (centroid_info geom) date]
      else []
  | inl _ => []
  end.

(** The requests made for one raw feature. *)
Definition feature_events (f : json) : list event :=
  match subscript_key f "geometry" with
  | inr g =>
      let geom := GeoJSON g in
      EarthEngine (ReqArea geom) ::
      (if (MIN_AREA_ACRES <=? acres_of_sqm (area_info geom))%float
       then [EarthEngine (ReqCentroid geom)] else [])
  | inl _ => []
  end.

(** [enumerate(l)], counting from [i]. *)
Definition enumerate_from {A} (i : nat) (l : list A) : list (nat * A) :=
  combine (seq i (List.length l)) l.

Definition loop_alerts (mk : nat -> float -> float * float -> string -> alert)
    (date : string) (i : nat) (features : list json) : list alert :=
  flat_map (fun kf => feature_alerts mk date (fst kf) (snd kf))
           (enumerate_from i features).

Definition loop_events (features : list json) : list event :=
  flat_map feature_events features.

(** One turn of the loop. *)
Lemma feature_loop_step mk date i f g rest alerts w :
  subscript_key f "geometry" = inr g ->
  let geom := GeoJSON g in
  let area_acres := acres_of_sqm (area_info geom) in
  let kept := (MIN_AREA_ACRES <=? area_acres)%float in
  feature_loop mk date i (f :: rest) alerts w =
  feature_loop mk date (S i) rest
    (if kept then alerts ++ [mk i area_acres (centroid_info geom) date]
     else alerts)%list
    (logged w (EarthEngine (ReqArea geom) ::
               if kept then [EarthEngine (ReqCentroid geom)] else [])).
Proof.
  intros Hg geom area_acres kept. cbn [feature_loop].
  erewrite bind_run by (apply lift_run; exact Hg).
  step. fold geom area_acres kept.
  destruct kept.
  - erewrite bind_run by (repeat step; reflexivity). reflexivity.
  - erewrite bind_run by reflexivity. reflexivity.
Qed.

Lemma feature_loop_run mk date features : forall i alerts w,
  forallb has_geometry features = true ->
  feature_loop mk date i features alerts w =
  (inr (alerts ++ loop_alerts mk date i features)%list,
   logged w (loop_events features)).
Proof.
  unfold loop_alerts, loop_events, enumerate_from.
  induction features as [|f rest IH]; intros i alerts w Hg.
  - cbn. now rewrite app_nil_r, logged_nil.
  - cbn [forallb] in Hg. apply andb_true_iff in Hg. destruct Hg as [Hf Hrest].
    unfold has_geometry in Hf.
    destruct (subscript_key f "geometry") as [e|g] eqn:E; [discriminate|].
    rewrite (feature_loop_step mk date i f g rest alerts w E).
    rewrite IH by exact Hrest. rewrite logged_logged.
    cbn [List.length seq combine flat_map fst snd].
    unfold feature_alerts, feature_events. rewrite E. cbv zeta.
    destruct (MIN_AREA_ACRES <=? _)%float; cbn [app];
      rewrite <- ?app_assoc; reflexivity.
Qed.

(** The raw features of a [getInfo()] answer, as the guard
    [if info and 'features' in info] and the loop header read them. *)
Definition response_features (info : json) : exn + list json :=
  if truthy info then
    match contains_key "features" info with
    | inl e => inl e
    | inr true =>
        match subscript_key info "features" with
        | inl e => inl e
        | inr fs => iterate fs
        end
    | inr false => inr []
    end
  else inr [].

Lemma process_features_run mk date info items alerts w :
  response_features info = inr items ->
  forallb has_geometry items = true ->
  process_features mk date info alerts w =
  (inr (alerts ++ loop_alerts mk date 0 items)%list,
   logged w (loop_events items)).
Proof.
  unfold response_features, process_features. intros Hr Hg.
  destruct (truthy info).
  - destruct (contains_key "features" info) as [e|[]]; [discriminate| |].
    + cbn [lift]. erewrite bind_run by reflexivity.
      destruct (subscript_key info "features") as [e|fs]; [discriminate|].
      cbn [lift]. erewrite bind_run by reflexivity.
      rewrite Hr. cbn [lift]. erewrite bind_run by reflexivity.
      now apply feature_loop_run.
    + cbn [lift]. erewrite bind_run by reflexivity.
      injection Hr as <-. cbn. now rewrite app_nil_r, logged_nil.
  - injection Hr as <-. cbn. now rewrite app_nil_r, logged_nil.
Qed.

(** The raw features the vectorization service returns for the two
    masks of [cr]. *)
Definition damage_response (cr : change_results) (region : geometry) : json :=
  vectors_info (selfMask (damage_mask cr)) region.

Definition recovery_response (cr : change_results) (region : geometry) : json :=
  vectors_info (selfMask (recovery_mask cr)) region.

Definition extraction_events (cr : change_results) (region : geometry)
    (fd fr : list json) : list event :=
  EarthEngine (ReqVectors (selfMask (damage_mask cr)) region 30 1e8%float "polygon")
  :: loop_events fd ++
  EarthEngine (ReqVectors (selfMask (recovery_mask cr)) region 30 1e8%float "polygon")
  :: loop_events fr.

Lemma extract_change_areas_run cr region fd fr w :
  response_features (damage_response cr region) = inr fd ->
  response_features (recovery_response cr region) = inr fr ->
  forallb has_geometry fd = true ->
  forallb has_geometry fr = true ->
  extract_change_areas cr region w =
  (inr (loop_alerts damage_alert (current_date cr) 0 fd ++
        loop_alerts recovery_alert (current_date cr) 0 fr)%list,
   logged w (extraction_events cr region fd fr)).
Proof.
  intros Hd Hr Gd Gr. unfold extract_change_areas, mask_vectors.
  step.
  erewrite bind_run by (apply process_features_run; eassumption).
  rewrite logged_logged. step.
  erewrite process_features_run by eassumption.
  rewrite logged_logged. unfold extraction_events.
  cbn [app]. rewrite <- app_assoc. reflexivity.
Qed.

Lemma loop_alerts_cons mk date i f rest :
  loop_alerts mk date i (f :: rest) =
  (feature_alerts mk date i f ++ loop_alerts mk date (S i) rest)%list.
Proof. reflexivity. Qed.

(** Every alert of the loop comes from a raw feature that has a geometry
    and passes the area filter, and is built from that feature's position,
    converted area and centroid. *)
Lemma loop_alerts_In mk date a features : forall i,
  In a (loop_alerts mk date i features) ->
  exists k f g,
    nth_error features k = Some f /\
    subscript_key f "geometry" = inr g /\
    (MIN_AREA_ACRES <=? acres_of_sqm (area_info (GeoJSON g)))%float = true /\
    a = mk (i + k)%nat (acres_of_sqm (area_info (GeoJSON g)))
           (centroid_info (GeoJSON g)) date.
Proof.
  induction features as [|f rest IH]; intros i Hin; [destruct Hin|].
  rewrite loop_alerts_cons in Hin. apply in_app_or in Hin.
  destruct Hin as [Hin|Hin].
  - unfold feature_alerts in Hin.
    destruct (subscript_key f "geometry") as [e|g] eqn:E; [destruct Hin|].
    cbv zeta in Hin.
    destruct (MIN_AREA_ACRES <=? _)%float eqn:K; [|destruct Hin].
    destruct Hin as [<-|[]].
    exists 0%nat, f, g. rewrite Nat.add_0_r. auto.
  - destruct (IH _ Hin) as (k & f' & g & Hn & Hg & Hk & Ha).
    exists (S k), f', g. rewrite Nat.add_succ_r. auto.
Qed.

(** The positions, from 0, of the raw features that pass the area
    filter. *)
Definition kept (f : json) : bool :=
  match subscript_key f "geometry" with
  | inr g => (MIN_AREA_ACRES <=? acres_of_sqm (area_info (GeoJSON g)))%float
  | inl _ => false
  end.

Definition kept_from (i : nat) (features : list json) : list nat :=
  map fst (filter (fun kf => kept (snd kf)) (enumerate_from i features)).

Definition kept_positions (features : list json) : list nat :=
  kept_from 0 features.

Lemma kept_from_cons i f rest :
  kept_from i (f :: rest) =
  ((if kept f then [i] else []) ++ kept_from (S i) rest)%list.
Proof.
  unfold kept_from, enumerate_from.
  cbn [List.length seq combine filter snd].
  destruct (kept f); reflexivity.
Qed.

Lemma loop_alerts_ids mk prefix date features :
  (forall k a c d, a_id (mk k a c d) = prefix ++ str_of_nat (k + 1)) ->
  forall i,
    map a_id (loop_alerts mk date i features) =
    map (fun k => prefix ++ str_of_nat (k + 1)) (kept_from i features).
Proof.
  intros Hid. induction features as [|f rest IH]; intros i; [reflexivity|].
  rewrite loop_alerts_cons, kept_from_cons, !map_app, IH. f_equal.
  unfold feature_alerts, kept.
  destruct (subscript_key f "geometry") as [e|g]; [reflexivity|].
  cbv zeta. destruct (MIN_AREA_ACRES <=? _)%float; [|reflexivity].
  cbn [map]. now rewrite Hid.
Qed.

Lemma kept_from_bounds features : forall i,
  Forall (fun k => (i <= k < i + List.length features)%nat)
         (kept_from i features).
Proof.
  induction features as [|f rest IH]; intros i; [constructor|].
  rewrite kept_from_cons. apply Forall_app. split.
  - destruct (kept f); constructor; [cbn; lia|constructor].
  - eapply Forall_impl; [|apply IH]. cbn. intros; lia.
Qed.

Lemma kept_from_increasing features : forall i,
  StronglySorted lt (kept_from i features).
Proof.
  induction features as [|f rest IH]; intros i; [constructor|].
  rewrite kept_from_cons. destruct (kept f); cbn [app]; [|apply IH].
  constructor; [apply IH|].
  eapply Forall_impl; [|apply kept_from_bounds]. cbn. intros; lia.
Qed.

(** C2, as the code has it.  The number in an alert's id is the
    position (from 1) that the feature has in the list the vectorization
    service returned for its mask, dropped features included: the ids of
    the damage alerts are [damage_(k+1)] for the positions [k] of the kept
    damage features, in increasing order, followed by [recovery_(k+1)] for
    the positions of the kept recovery features.  The two kinds are
    numbered independently; a dropped feature leaves a gap. *)
Theorem alert_ids_follow_positions cr region fd fr w :
  response_features (damage_response cr region) = inr fd ->
  response_features (recovery_response cr region) = inr fr ->
  forallb has_geometry fd = true ->
  forallb has_geometry fr = true ->
  exists alerts evs,
    extract_change_areas cr region w = (inr alerts, logged w evs) /\
    map a_id alerts =
    List.app
      (map (fun k => "damage_" ++ str_of_nat (k + 1)) (kept_positions fd))
      (map (fun k => "recovery_" ++ str_of_nat (k + 1)) (kept_positions fr)) /\
    StronglySorted lt (kept_positions fd) /\
    StronglySorted lt (kept_positions fr) /\
    Forall (fun k => (k < List.length fd)%nat) (kept_positions fd) /\
    Forall (fun k => (k < List.length fr)%nat) (kept_positions fr).
Proof.
  intros Hd Hr Gd Gr.
  exists (loop_alerts damage_alert (current_date cr) 0 fd ++
          loop_alerts recovery_alert (current_date cr) 0 fr)%list,
         (extraction_events cr region fd fr).
  split; [now apply extract_change_areas_run|].
  split; [|split; [|split; [|split]]].
  - rewrite map_app. unfold kept_positions. f_equal.
    + apply loop_alerts_ids. reflexivity.
    + apply loop_alerts_ids. reflexivity.
  - apply kept_from_increasing.
  - apply kept_from_increasing.
  - eapply Forall_impl; [|apply kept_from_bounds]. cbn. intros; lia.
  - eapply Forall_impl; [|apply kept_from_bounds]. cbn. intros; lia.
Qed.

(* ----------------------------------------------------------------- *)
(** *** The alert of a raw feature *)

Lemma to_uint_nonnil n : Nat.to_uint n <> Decimal.Nil.
Proof.
  pose proof (DecimalNat.Unsigned.to_of (Nat.to_uint n)) as H.
  rewrite DecimalNat.Unsigned.of_to in H. rewrite H.
  apply DecimalFacts.unorm_nonnil.
Qed.

Lemma str_of_nat_inj n m : str_of_nat n = str_of_nat m -> n = m.
Proof.
  unfold str_of_nat. intros H.
  apply DecimalNat.Unsigned.to_uint_inj.
  pose proof (NilZero.usu _ (to_uint_nonnil n)) as Hn.
  pose proof (NilZero.usu _ (to_uint_nonnil m)) as Hm.
  rewrite H in Hn. congruence.
Qed.

Lemma append_inj_r (p a b : string) : p ++ a = p ++ b -> a = b.
Proof.
  induction p as [|c p IH]; cbn; [auto|]. intros H. injection H. exact IH.
Qed.

(** The alert of the raw feature at position [k] is in the list when the
    feature passes the filter. *)
Lemma loop_alerts_at mk date features : forall i k f g,
  nth_error features k = Some f ->
  subscript_key f "geometry" = inr g ->
  (MIN_AREA_ACRES <=? acres_of_sqm (area_info (GeoJSON g)))%float = true ->
  In (mk (i + k)%nat (acres_of_sqm (area_info (GeoJSON g)))
         (centroid_info (GeoJSON g)) date)
     (loop_alerts mk date i features).
Proof.
  induction features as [|f0 rest IH]; intros i k f g Hn Hg Hk.
  - destruct k; discriminate.
  - rewrite loop_alerts_cons. apply in_or_app. destruct k as [|k].
    + left. injection Hn as ->. unfold feature_alerts. rewrite Hg.
      cbv zeta. rewrite Hk, Nat.add_0_r. left. reflexivity.
    + right. cbn [nth_error] in Hn.
      replace (i + S k)%nat with (S i + k)%nat by lia.
      exact (IH (S i) k f g Hn Hg Hk).
Qed.

Lemma loop_alerts_length mk date features : forall i,
  List.length (loop_alerts mk date i features) =
  List.length (filter kept features).
Proof.
  induction features as [|f rest IH]; intros i; [reflexivity|].
  rewrite loop_alerts_cons, length_app, IH. cbn [filter].
  unfold feature_alerts, kept.
  destruct (subscript_key f "geometry") as [e|g]; [reflexivity|].
  cbv zeta. destruct (MIN_AREA_ACRES <=? _)%float; reflexivity.
Qed.

(** The alerts of an extraction by their ids.  [alerts] holds the alerts
    of the loop over [features], whose ids start with [prefix], and
    [others], whose ids do not.  The id with the number [k + 1] is there
    exactly when the feature at position [k] passes the filter, and the
    alert that bears it is the alert of that feature. *)
Lemma alerts_by_id mk prefix date features others alerts k f g :
  (forall k a c d, a_id (mk k a c d) = prefix ++ str_of_nat (k + 1)) ->
  (forall a n, In a others -> a_id a <> prefix ++ str_of_nat n) ->
  (forall a, In a alerts <->
             In a (loop_alerts mk date 0 features) \/ In a others) ->
  nth_error features k = Some f ->
  subscript_key f "geometry" = inr g ->
  let area_acres := acres_of_sqm (area_info (GeoJSON g)) in
  let id := prefix ++ str_of_nat (k + 1) in
  (In id (map a_id alerts) <-> (MIN_AREA_ACRES <=? area_acres)%float = true) /\
  (forall a, In a alerts -> a_id a = id ->
             a = mk k area_acres (centroid_info (GeoJSON g)) date).
Proof.
  intros Hid Hothers Halerts Hn Hg area_acres id.
  assert (Hown : forall a, In a alerts -> a_id a = id ->
            (MIN_AREA_ACRES <=? area_acres)%float = true /\
            a = mk k area_acres (centroid_info (GeoJSON g)) date).
  { intros a Hin Ha. apply Halerts in Hin. destruct Hin as [Hin|Hin].
    - apply loop_alerts_In in Hin.
      destruct Hin as (k' & f' & g' & Hn' & Hg' & Hk' & ->).
      rewrite Hid in Ha. apply append_inj_r, str_of_nat_inj in Ha.
      cbn [Nat.add] in *.
      assert (k' = k) by lia. subst k'.
      rewrite Hn in Hn'. injection Hn' as <-.
      rewrite Hg in Hg'. injection Hg' as <-.
      split; [exact Hk'|reflexivity].
    - exfalso. exact (Hothers a (k + 1)%nat Hin Ha). }
  split; [split|].
  - intros Hin. apply in_map_iff in Hin. destruct Hin as (a & Ha & Hin).
    exact (proj1 (Hown a Hin Ha)).
  - intros Hk. apply in_map_iff.
    exists (mk k area_acres (centroid_info (GeoJSON g)) date).
    split; [apply Hid|]. apply Halerts. left.
    exact (loop_alerts_at mk date features 0 k f g Hn Hg Hk).
  - intros a Hin Ha. exact (proj2 (Hown a Hin Ha)).
Qed.

Lemma loop_alerts_id_prefix mk prefix date features a :
  (forall k a c d, a_id (mk k a c d) = prefix ++ str_of_nat (k + 1)) ->
  In a (loop_alerts mk date 0 features) ->
  exists k, a_id a = prefix ++ str_of_nat (k + 1).
Proof.
  intros Hid Hin. apply loop_alerts_In in Hin.
  destruct Hin as (k & f & g & _ & _ & _ & ->). exists (0 + k)%nat. apply Hid.
Qed.

Lemma recovery_not_damage date features a n :
  In a (loop_alerts recovery_alert date 0 features) ->
  a_id a <> "damage_" ++ str_of_nat n.
Proof.
  intros Hin.
  destruct (loop_alerts_id_prefix recovery_alert "recovery_" date features a
              ltac:(reflexivity) Hin) as [k ->].
  cbn [append]. discriminate.
Qed.

Lemma damage_not_recovery date features a n :
  In a (loop_alerts damage_alert date 0 features) ->
  a_id a <> "recovery_" ++ str_of_nat n.
Proof.
  intros Hin.
  destruct (loop_alerts_id_prefix damage_alert "damage_" date features a
              ltac:(reflexivity) Hin) as [k ->].
  cbn [append]. discriminate.
Qed.

(** The damage alerts of an extraction by their ids, and the recovery
    alerts. *)
Lemma damage_by_id date fd fr k f g :
  nth_error fd k = Some f ->
  subscript_key f "geometry" = inr g ->
  let alerts := (loop_alerts damage_alert date 0 fd ++
                 loop_alerts recovery_alert date 0 fr)%list in
  let area_acres := acres_of_sqm (area_info (GeoJSON g)) in
  let id := "damage_" ++ str_of_nat (k + 1) in
  (In id (map a_id alerts) <-> (MIN_AREA_ACRES <=? area_acres)%float = true) /\
  (forall a, In a alerts -> a_id a = id ->
             a = damage_alert k area_acres (centroid_info (GeoJSON g)) date).
Proof.
  intros Hn Hg alerts.
  apply (alerts_by_id damage_alert "damage_" date fd
           (loop_alerts recovery_alert date 0 fr) alerts k f g);
    [reflexivity| |apply in_app_iff|exact Hn|exact Hg].
  intros a n Hin. exact (recovery_not_damage date fr a n Hin).
Qed.

Lemma recovery_by_id date fd fr k f g :
  nth_error fr k = Some f ->
  subscript_key f "geometry" = inr g ->
  let alerts := (loop_alerts damage_alert date 0 fd ++
                 loop_alerts recovery_alert date 0 fr)%list in
  let area_acres := acres_of_sqm (area_info (GeoJSON g)) in
  let id := "recovery_" ++ str_of_nat (k + 1) in
  (In id (map a_id alerts) <-> (MIN_AREA_ACRES <=? area_acres)%float = true) /\
  (forall a, In a alerts -> a_id a = id ->
             a = recovery_alert k area_acres (centroid_info (GeoJSON g)) date).
Proof.
  intros Hn Hg alerts.
  apply (alerts_by_id recovery_alert "recovery_" date fr
           (loop_alerts damage_alert date 0 fd) alerts k f g);
    [reflexivity| | |exact Hn|exact Hg].
  - intros a n Hin. exact (damage_not_recovery date fd a n Hin).
  - intros a. unfold alerts. rewrite in_app_iff.
    split; intros [H|H]; [right|left|right|left]; exact H.
Qed.

(** C6.  The area filter of [extract_change_areas].  The area of a raw
    feature, in square metres, is converted to acres by multiplying by
    0.000247105, and the feature is kept, that is, the alert with its id
    is among the alerts returned, if and only if the converted area is at
    least 2; the alert records that converted area, rounded.  A feature
    of 1.9 acres is dropped, one of exactly 2.0 acres is kept.  This holds
    for the features of both masks, and the extraction returns as many
    alerts as there are features that pass the filter. *)
Theorem area_filter cr region fd fr w :
  response_features (damage_response cr region) = inr fd ->
  response_features (recovery_response cr region) = inr fr ->
  forallb has_geometry fd = true ->
  forallb has_geometry fr = true ->
  exists alerts evs,
    extract_change_areas cr region w = (inr alerts, logged w evs) /\
    (forall k f g,
       nth_error fd k = Some f ->
       subscript_key f "geometry" = inr g ->
       let area_acres := (area_info (GeoJSON g) * 0.000247105)%float in
       let id := "damage_" ++ str_of_nat (k + 1) in
       (In id (map a_id alerts) <-> (2 <=? area_acres)%float = true) /\
       (forall a, In a alerts -> a_id a = id ->
                  a_area_acres a = round1 area_acres) /\
       (area_acres = 1.9%float -> ~ In id (map a_id alerts)) /\
       (area_acres = 2.0%float -> In id (map a_id alerts))) /\
    (forall k f g,
       nth_error fr k = Some f ->
       subscript_key f "geometry" = inr g ->
       let area_acres := (area_info (GeoJSON g) * 0.000247105)%float in
       let id := "recovery_" ++ str_of_nat (k + 1) in
       (In id (map a_id alerts) <-> (2 <=? area_acres)%float = true) /\
       (forall a, In a alerts -> a_id a = id ->
                  a_area_acres a = round1 area_acres) /\
       (area_acres = 1.9%float -> ~ In id (map a_id alerts)) /\
       (area_acres = 2.0%float -> In id (map a_id alerts))) /\
    List.length alerts =
    List.length
      (filter (fun f =>
                 match subscript_key f "geometry" with
                 | inr g => (2 <=? area_info (GeoJSON g) * 0.000247105)%float
                 | inl _ => false
                 end)
              (fd ++ fr)).
Proof.
  intros Hd Hr Gd Gr.
  exists (loop_alerts damage_alert (current_date cr) 0 fd ++
          loop_alerts recovery_alert (current_date cr) 0 fr)%list,
         (extraction_events cr region fd fr).
  split; [now apply extract_change_areas_run|].
  split; [|split].
  - intros k f g Hn Hg area_acres id.
    destruct (damage_by_id (current_date cr) fd fr k f g Hn Hg) as [Hiff Hown].
    split; [exact Hiff|]. split; [|split].
    + intros a Hin Ha. now rewrite (Hown a Hin Ha).
    + intros Ha Hin. apply Hiff in Hin.
      change ((2 <=? area_acres)%float = true) in Hin.
      rewrite Ha in Hin. vm_compute in Hin. discriminate Hin.
    + intros Ha. apply Hiff.
      change ((2 <=? area_acres)%float = true). rewrite Ha. reflexivity.
  - intros k f g Hn Hg area_acres id.
    destruct (recovery_by_id (current_date cr) fd fr k f g Hn Hg)
      as [Hiff Hown].
    split; [exact Hiff|]. split; [|split].
    + intros a Hin Ha. now rewrite (Hown a Hin Ha).
    + intros Ha Hin. apply Hiff in Hin.
      change ((2 <=? area_acres)%float = true) in Hin.
      rewrite Ha in Hin. vm_compute in Hin. discriminate Hin.
    + intros Ha. apply Hiff.
      change ((2 <=? area_acres)%float = true). rewrite Ha. reflexivity.
  - rewrite length_app, !loop_alerts_length, filter_app, length_app.
    reflexivity.
Qed.

(** C7.  The severity of the alerts of [extract_change_areas].  Every
    damage feature that passes the area filter has its alert, the one
    alert with its id, and the severity of that alert is ["high"] if and
    only if the converted area of the feature is above 20, and ["medium"]
    otherwise: 20.0 itself gives ["medium"], 20.01 gives ["high"].  Every
    recovery feature that passes the filter has its alert, with severity
    ["positive"].  There are no other alerts. *)
Theorem alert_severity cr region fd fr w :
  response_features (damage_response cr region) = inr fd ->
  response_features (recovery_response cr region) = inr fr ->
  forallb has_geometry fd = true ->
  forallb has_geometry fr = true ->
  exists alerts evs,
    extract_change_areas cr region w = (inr alerts, logged w evs) /\
    (forall k f g,
       nth_error fd k = Some f ->
       subscript_key f "geometry" = inr g ->
       let area_acres := (area_info (GeoJSON g) * 0.000247105)%float in
       (2 <=? area_acres)%float = true ->
       exists a,
         In a alerts /\
         a_id a = "damage_" ++ str_of_nat (k + 1) /\
         (forall b, In b alerts -> a_id b = a_id a -> b = a) /\
         a_type a = "vegetation_change" /\
         a_area_acres a = round1 area_acres /\
         (a_severity a = "high" <-> (20 <? area_acres)%float = true) /\
         (a_severity a = "medium" <-> (20 <? area_acres)%float = false) /\
         (area_acres = 20.0%float -> a_severity a = "medium") /\
         (area_acres = 20.01%float -> a_severity a = "high")) /\
    (forall k f g,
       nth_error fr k = Some f ->
       subscript_key f "geometry" = inr g ->
       let area_acres := (area_info (GeoJSON g) * 0.000247105)%float in
       (2 <=? area_acres)%float = true ->
       exists a,
         In a alerts /\
         a_id a = "recovery_" ++ str_of_nat (k + 1) /\
         (forall b, In b alerts -> a_id b = a_id a -> b = a) /\
         a_type a = "recovery" /\
         a_area_acres a = round1 area_acres /\
         a_severity a = "positive") /\
    (forall a, In a alerts ->
       exists k f g,
         subscript_key f "geometry" = inr g /\
         (2 <=? area_info (GeoJSON g) * 0.000247105)%float = true /\
         ((nth_error fd k = Some f /\
           a_id a = "damage_" ++ str_of_nat (k + 1)) \/
          (nth_error fr k = Some f /\
           a_id a = "recovery_" ++ str_of_nat (k + 1)))).
Proof.
  intros Hd Hr Gd Gr.
  exists (loop_alerts damage_alert (current_date cr) 0 fd ++
          loop_alerts recovery_alert (current_date cr) 0 fr)%list,
         (extraction_events cr region fd fr).
  split; [now apply extract_change_areas_run|].
  split; [|split].
  - intros k f g Hn Hg area_acres Hk.
    destruct (damage_by_id (current_date cr) fd fr k f g Hn Hg) as [Hiff Hown].
    exists (damage_alert k area_acres (centroid_info (GeoJSON g))
                         (current_date cr)).
    split.
    { apply in_or_app. left.
      exact (loop_alerts_at damage_alert (current_date cr) fd 0 k f g Hn Hg Hk). }
    split; [reflexivity|].
    split; [intros b Hin Hb; exact (Hown b Hin Hb)|].
    split; [reflexivity|]. split; [reflexivity|].
    cbn [a_severity damage_alert]. unfold damage_severity.
    split; [|split; [|split]].
    + destruct (20 <? area_acres)%float; split; congruence.
    + destruct (20 <? area_acres)%float; split; congruence.
    + intros ->. reflexivity.
    + intros ->. reflexivity.
  - intros k f g Hn Hg area_acres Hk.
    destruct (recovery_by_id (current_date cr) fd fr k f g Hn Hg)
      as [Hiff Hown].
    exists (recovery_alert k area_acres (centroid_info (GeoJSON g))
                           (current_date cr)).
    split.
    { apply in_or_app. right.
      exact (loop_alerts_at recovery_alert (current_date cr) fr 0 k f g
               Hn Hg Hk). }
    split; [reflexivity|].
    split; [intros b Hin Hb; exact (Hown b Hin Hb)|].
    repeat split.
  - intros a Hin. apply in_app_or in Hin. destruct Hin as [Hin|Hin];
      apply loop_alerts_In in Hin;
      destruct Hin as (k & f & g & Hn & Hg & Hk & ->);
      exists k, f, g; (split; [exact Hg|]); (split; [exact Hk|]);
      [left|right]; split; solve [exact Hn | reflexivity].
Qed.

(* ----------------------------------------------------------------- *)
(** *** The areas and the types of the alerts *)

(** The area recorded in an alert is not NaN, provided [round(x, 1)] of
    a number is a number. *)
Lemma loop_alerts_area mk date features i :
  (forall x, PyFloat.is_nan x = false -> PyFloat.is_nan (round1 x) = false) ->
  (forall k a c d, a_area_acres (mk k a c d) = round1 a) ->
  Forall (fun a => PyFloat.is_nan (a_area_acres a) = false)
         (loop_alerts mk date i features).
Proof.
  intros Hround Hmk. apply Forall_forall. intros a Hin.
  apply loop_alerts_In in Hin.
  destruct Hin as (k & f & g & _ & _ & Hk & ->).
  rewrite Hmk. apply Hround. exact (PyFloat.leb_not_nan _ _ Hk).
Qed.

Lemma loop_alerts_type mk ty date features i :
  (forall k a c d, a_type (mk k a c d) = ty) ->
  Forall (fun a => a_type a = ty) (loop_alerts mk date i features).
Proof.
  intros Hmk. apply Forall_forall. intros a Hin.
  apply loop_alerts_In in Hin.
  destruct Hin as (k & f & g & _ & _ & _ & ->). apply Hmk.
Qed.

(* ----------------------------------------------------------------- *)
(** *** Export *)

Lemma alert_json_inj a b : alert_json a = alert_json b -> a = b.
Proof.
  destruct a, b. unfold alert_json. cbn. intros H.
  injection H as -> -> -> -> -> -> -> ->. reflexivity.
Qed.

(** A path at which a file can be written: it names no directory, it
    has a name, and the directory it lies in is there. *)
Definition writable (fs : string -> option fs_entry) (path : string) : Prop :=
  fs path <> Some Directory /\
  path <> "" /\
  snd (split_path path) <> "" /\
  parent_entry fs path = Some Directory.

Lemma write_text_run path content w :
  writable (files w) path ->
  write_text path content w =
  (inr tt,
   mkworld (trace w ++ [FileWrite path content])
           (fun p => if String.eqb p path then Some (File content)
                     else files w p)
           (clock_reads w)).
Proof.
  intros (Hdir & Hne & Hname & Hparent). unfold write_text.
  apply String.eqb_neq in Hne, Hname. rewrite Hne, Hname, Hparent.
  destruct (files w path) as [[c|]|]; try reflexivity. congruence.
Qed.

(** The file of the run, [output/alerts.json], can be written once the
    directory [output] is there. *)
Lemma alerts_path_writable fs :
  fs OUTPUT_DIR = Some Directory ->
  fs (path_join OUTPUT_DIR "alerts.json") <> Some Directory ->
  writable fs (path_join OUTPUT_DIR "alerts.json").
Proof.
  intros Hd Hf. split; [exact Hf|].
  split; [discriminate|]. split; [discriminate|]. exact Hd.
Qed.

(** C10.  [export_alerts_json], called as the run calls it (for
    [output/alerts.json], in a directory [output] that is there), writes
    one document, the encoding of a dict whose ["alerts"] entry is the
    list of the alerts given, each as its dict, in the order given (and
    distinct alerts give distinct dicts), and whose ["count"] entry is the
    length of that list. *)
Theorem export_alerts_json_document alerts w :
  let output_path := path_join OUTPUT_DIR "alerts.json" in
  files w OUTPUT_DIR = Some Directory ->
  files w output_path <> Some Directory ->
  exists doc items w',
    export_alerts_json alerts output_path w = (inr tt, w') /\
    doc = export_document (PyDate.isoformat (now (clock_reads w))) alerts /\
    written (new_events w w') = [output_path] /\
    In (FileWrite output_path (json_dumps doc)) (new_events w w') /\
    files w' output_path = Some (File (json_dumps doc)) /\
    subscript_key doc "alerts" = inr (JArr items) /\
    subscript_key doc "count" = inr (JInt (Z.of_nat (List.length items))) /\
    items = map alert_json alerts /\
    List.length items = List.length alerts /\
    (forall a b, alert_json a = alert_json b -> a = b).
Proof.
  intros output_path Hout Hdir.
  pose proof (alerts_path_writable (files w) Hout Hdir) as Hw.
  fold output_path in Hw.
  exists (export_document (PyDate.isoformat (now (clock_reads w))) alerts),
         (map alert_json alerts).
  eexists. split.
  { unfold export_alerts_json.
    erewrite bind_run by apply datetime_now_run.
    erewrite bind_run by (apply write_text_run; exact Hw).
    rewrite print_run. reflexivity. }
  unfold new_events, logged, logged_tick. cbn [trace files clock_reads].
  rewrite <- !app_assoc, skipn_app, skipn_all, Nat.sub_diag.
  cbn [skipn app].
  split; [reflexivity|].
  split; [reflexivity|].
  split; [right; left; reflexivity|].
  split; [now rewrite String.eqb_refl|].
  split; [reflexivity|].
  split; [now rewrite length_map|].
  split; [reflexivity|].
  split; [apply length_map|].
  apply alert_json_inj.
Qed.

(* ----------------------------------------------------------------- *)
(** *** A complete run *)

(** X2.  When the connection fails the run stops there: it returns
    [None], nothing but the connection was asked, nothing was written,
    and the error is printed. *)
Lemma run_analysis_setup_failure boundary_file e w :
  ee_initialize = Some e ->
  exists evs,
    run_analysis boundary_file w = (inr None, logged w evs) /\
    requests evs = [ReqInitialize "red-lake-forest-watch"] /\
    written evs = [] /\
    In ("  Error: " ++ e) (printed evs).
Proof.
  intros He. unfold run_analysis. do 3 step.
  assert (Hinit : forall w0,
            initialize_ee w0 =
            (inr false,
             logged w0 [EarthEngine (ReqInitialize "red-lake-forest-watch");
                        Print "✗ Earth Engine authentication required";
                        Print "  Run: earthengine authenticate";
                        Print ("  Error: " ++ e)])).
  { intros w0. unfold initialize_ee. rewrite He. repeat step. reflexivity. }
  erewrite bind_run by apply Hinit.
  cbn [negb]. rewrite logged_logged. cbn [app].
  eexists. split; [reflexivity|].
  split; [reflexivity|]. split; [reflexivity|].
  cbn [printed]. do 5 right. left. reflexivity.
Qed.

Lemma bind_inr {A B} (c : M A) (k : A -> M B) w b w' :
  bind c k w = (inr b, w') ->
  exists a w1, c w = (inr a, w1) /\ k a w1 = (inr b, w').
Proof.
  unfold bind. destruct (c w) as [[e|a] w1]; [discriminate|]. eauto.
Qed.

(** The masks of the results of [detect_changes] are those of the
    classification with the configured thresholds. *)
Lemma detect_changes_masks region cd lb w cr w' :
  detect_changes region cd lb w = (inr (Some cr), w') ->
  damage_mask cr = img_lt (ndvi_change cr) NDVI_DECREASE_THRESHOLD /\
  recovery_mask cr = img_gt (ndvi_change cr) NDVI_INCREASE_THRESHOLD.
Proof.
  unfold detect_changes. intros H.
  apply bind_inr in H. destruct H as (ref & w1 & _ & H).
  apply bind_inr in H. destruct H as (cs & w2 & _ & H).
  apply bind_inr in H. destruct H as (be & w3 & _ & H).
  apply bind_inr in H. destruct H as (bs & w4 & _ & H).
  do 4 (apply bind_inr in H; destruct H as (? & ? & _ & H)).
  apply bind_inr in H. destruct H as (bi & w5 & _ & H).
  apply bind_inr in H. destruct H as (? & w6 & _ & H).
  apply bind_inr in H. destruct H as (ci & w7 & _ & H).
  destruct bi as [bi|], ci as [ci|];
    try (apply bind_inr in H; destruct H as (? & ? & _ & H); discriminate H).
  unfold ret in H. injection H as <- _. split; reflexivity.
Qed.

(** X3.  Whatever [detect_changes] is given, the damage mask and the
    recovery mask of the results it returns are disjoint: with the
    configured thresholds -0.15 and 0.10 no pixel is set in both. *)
Lemma detected_masks_disjoint region cd lb w cr w' p :
  detect_changes region cd lb w = (inr (Some cr), w') ->
  mask_set (damage_mask cr) p && mask_set (recovery_mask cr) p = false.
Proof.
  intros H. destruct (detect_changes_masks region cd lb w cr w' H) as [-> ->].
  destruct (mask_set (img_lt _ _) p) eqn:E1; [|reflexivity].
  destruct (mask_set (img_gt _ _) p) eqn:E2; [|reflexivity].
  exfalso.
  apply img_lt_set in E1. apply img_gt_set in E2.
  destruct E1 as (x & Hx & Hlt), E2 as (y & Hy & Hgt).
  rewrite Hx in Hy. injection Hy as <-.
  assert (Hd : (NDVI_DECREASE_THRESHOLD <? NDVI_INCREASE_THRESHOLD)%float = true)
    by reflexivity.
  pose proof (PyFloat.ltb_trans x NDVI_DECREASE_THRESHOLD
                NDVI_INCREASE_THRESHOLD Hlt Hd) as H1.
  pose proof (PyFloat.ltb_asym _ _ H1) as H2.
  congruence.
Qed.

Lemma print_top_run alerts : forall w,
  print_top alerts w = (inr tt, logged w (map (fun a => Print (alert_line a)) alerts)).
Proof.
  induction alerts as [|a rest IH]; intros w; cbn [print_top map].
  - unfold ret. now rewrite logged_nil.
  - step. rewrite IH, logged_logged. reflexivity.
Qed.

(** The world after [Path(path).mkdir(exist_ok=True)] succeeded. *)
Definition after_mkdir (path : string) (w : world) : world :=
  match files w path with
  | Some _ => logged w [Mkdir path]
  | None =>
      mkworld (trace w ++ [Mkdir path])
              (fun p => if String.eqb p path then Some Directory else files w p)
              (clock_reads w)
  end.

Lemma mkdir_exist_ok_run path w :
  (forall c, files w path <> Some (File c)) ->
  parent_entry (files w) path = Some Directory ->
  mkdir_exist_ok path w = (inr tt, after_mkdir path w).
Proof.
  intros H Hp. unfold mkdir_exist_ok, after_mkdir.
  erewrite bind_run by apply emit_run. cbn [files logged].
  destruct (files w path) as [[c|]|] eqn:E.
  - now destruct (H c).
  - reflexivity.
  - rewrite Hp. unfold file_put, logged. cbn [trace files clock_reads].
    reflexivity.
Qed.

Lemma files_after_mkdir path w p :
  (forall c, files w path <> Some (File c)) ->
  files (after_mkdir path w) p =
  if String.eqb p path then Some Directory else files w p.
Proof.
  intros H. unfold after_mkdir.
  destruct (files w path) as [[c|]|] eqn:E; cbn [files logged].
  - now destruct (H c).
  - destruct (String.eqb_spec p path) as [->|]; [exact E|reflexivity].
  - reflexivity.
Qed.

(** The text [export_alerts_json] writes when the clock has been read
    [k] times before. *)
Definition export_text (k : nat) (alerts : list alert) : string :=
  json_dumps (export_document (PyDate.isoformat (now k)) alerts).

(** The world after [export_alerts_json] succeeded. *)
Definition after_export (alerts : list alert) (path : string) (w : world) : world :=
  mkworld (trace w ++
           [Clock; FileWrite path (export_text (clock_reads w) alerts);
            Print ("✓ Exported " ++ str_of_nat (List.length alerts) ++
                   " alerts to " ++ path)])
          (fun p => if String.eqb p path
                    then Some (File (export_text (clock_reads w) alerts))
                    else files w p)
          (S (clock_reads w)).

Lemma export_alerts_json_run alerts path w :
  writable (files w) path ->
  export_alerts_json alerts path w = (inr tt, after_export alerts path w).
Proof.
  intros Hdir. unfold export_alerts_json.
  erewrite bind_run by apply datetime_now_run.
  erewrite bind_run by (apply write_text_run; exact Hdir).
  rewrite print_run. unfold after_export, export_text, logged, logged_tick.
  cbn [trace files clock_reads]. rewrite <- !app_assoc. reflexivity.
Qed.

(** What the end of [run_analysis] prints for the alerts found. *)
Definition summary_events (alerts : list alert) : list event :=
  [Print (nl ++ repeat_string "=" 50);
   Print "ANALYSIS COMPLETE";
   Print (repeat_string "=" 50);
   Print ("  🔴 High priority:   " ++
          str_of_nat (List.length (filter (severity_is "high") alerts)));
   Print ("  🟡 Medium priority: " ++
          str_of_nat (List.length (filter (severity_is "medium") alerts)));
   Print ("  🟢 Recovery areas:  " ++
          str_of_nat (List.length (filter (severity_is "positive") alerts)))] ++
  match alerts with
  | [] => []
  | _ => Print (nl ++ "Top alerts:") ::
         map (fun a => Print (alert_line a)) (top_alerts alerts)
  end.

(** The events of a run up to the export. *)
Definition analysis_events (fs : string -> option fs_entry)
    (boundary_file : option string) (region : geometry)
    (bs be cs ce : string) (cr : change_results) (fd fr : list json)
    (alerts : list alert) : list event :=
  banner ++
  [EarthEngine (ReqInitialize "red-lake-forest-watch");
   Print "✓ Connected to Google Earth Engine";
   Print (nl ++ "Loading reservation boundary...")] ++
  boundary_events fs boundary_file ++
  [Print (nl ++ "Running change detection...")] ++
  (Clock :: detect_events region bs be cs ce) ++
  [Print (nl ++ "Extracting change areas...")] ++
  extraction_events cr region fd fr ++
  [Print (nl ++ "✓ Found " ++ str_of_nat (List.length alerts) ++
          " significant changes")].

(** A run that finds imagery, step by step: the world it ends in. *)
Lemma run_analysis_complete_run boundary_file region cr fd fr w :
  ee_initialize = None ->
  boundary_result (files w) boundary_file = inr region ->
  let ref := now (clock_reads w) in
  PyDate.valid_date (PyDate.dt_date ref) = true ->
  in_range (PyDate.toordinal (PyDate.dt_date ref) - (30 + 15)) ->
  let bs := window_date ref (30 + 15) in
  let be := window_date ref 30 in
  let cs := window_date ref 15 in
  let ce := PyDate.strftime_ymd (PyDate.dt_date ref) in
  detect_result region bs be cs ce = Some cr ->
  response_features (damage_response cr region) = inr fd ->
  response_features (recovery_response cr region) = inr fr ->
  forallb has_geometry fd = true ->
  forallb has_geometry fr = true ->
  (forall c, files w OUTPUT_DIR <> Some (File c)) ->
  files w (path_join OUTPUT_DIR "alerts.json") <> Some Directory ->
  let alerts :=
    (loop_alerts damage_alert ce 0 fd ++ loop_alerts recovery_alert ce 0 fr)%list in
  let w1 :=
    logged_tick w (analysis_events (files w) boundary_file region bs be cs ce
                     cr fd fr alerts) in
  run_analysis boundary_file w =
  (inr (Some alerts),
   logged (after_export alerts (path_join OUTPUT_DIR "alerts.json")
                        (after_mkdir OUTPUT_DIR w1))
          (summary_events alerts)).
Proof.
  intros Hinit Hb ref Hv H45 bs be cs ce Hsome Hd Hr Gd Gr Hout Hfile alerts w1.
  pose proof (PyDateFacts.toordinal_range _ Hv) as Ho.
  assert (H15 : in_range (PyDate.toordinal (PyDate.dt_date ref) - 15))
    by (unfold in_range in *; lia).
  assert (H30 : in_range (PyDate.toordinal (PyDate.dt_date ref) - 30))
    by (unfold in_range in *; lia).
  assert (Hce : current_date cr = ce).
  { apply (detect_result_dates _ _ _ _ _ _ Hsome). }
  unfold run_analysis.
  do 3 step.
  erewrite bind_run by (apply initialize_ee_connected; exact Hinit).
  cbn [negb]. rewrite logged_logged. cbn [app].
  step.
  erewrite bind_run by (apply load_reservation_boundary_ok; exact Hb).
  erewrite bind_run by (rewrite print_run, logged_logged; reflexivity).
  erewrite bind_run by (apply detect_changes_now_run; assumption).
  fold ref bs be cs ce. rewrite Hsome.
  erewrite bind_run by (rewrite print_run, logged_tick_logged; reflexivity).
  erewrite bind_run by (apply extract_change_areas_run; eassumption).
  rewrite logged_tick_logged, Hce. fold alerts.
  erewrite bind_run by (rewrite print_run, logged_tick_logged; reflexivity).
  match goal with
  | |- bind (mkdir_exist_ok OUTPUT_DIR) _ (logged_tick w ?L) = _ =>
      replace (logged_tick w L) with w1
        by (unfold w1, analysis_events, banner; f_equal;
            rewrite <- !app_assoc; cbn [app]; rewrite <- ?app_assoc;
            reflexivity)
  end.
  assert (Hout1 : forall c, files w1 OUTPUT_DIR <> Some (File c)) by exact Hout.
  erewrite bind_run by (apply mkdir_exist_ok_run; [exact Hout1|reflexivity]).
  assert (Hfile1 : writable (files (after_mkdir OUTPUT_DIR w1))
                     (path_join OUTPUT_DIR "alerts.json")).
  { apply alerts_path_writable; rewrite files_after_mkdir by exact Hout1.
    - now rewrite String.eqb_refl.
    - replace (String.eqb (path_join OUTPUT_DIR "alerts.json") OUTPUT_DIR)
        with false by reflexivity.
      exact Hfile. }
  erewrite bind_run by (apply export_alerts_json_run; exact Hfile1).
  set (w2 := after_export alerts (path_join OUTPUT_DIR "alerts.json")
                          (after_mkdir OUTPUT_DIR w1)).
  do 6 step.
  assert (Htop : forall w0,
            (match alerts with
             | [] => ret tt
             | _ :: _ => print (nl ++ "Top alerts:") ;; print_top (top_alerts alerts)
             end) w0 =
            (inr tt,
             logged w0 match alerts with
                       | [] => []
                       | _ => Print (nl ++ "Top alerts:") ::
                              map (fun a => Print (alert_line a)) (top_alerts alerts)
                       end)).
  { intros w0. destruct alerts as [|a0 rest].
    - unfold ret. now rewrite logged_nil.
    - step. rewrite print_top_run, logged_logged. reflexivity. }
  erewrite bind_run by apply Htop.
  rewrite logged_logged. unfold ret, summary_events. cbn [app]. reflexivity.
Qed.

(** The events of such a run, and its files. *)
Lemma complete_run_world evs1 alerts w :
  (forall c, files w OUTPUT_DIR <> Some (File c)) ->
  let path := path_join OUTPUT_DIR "alerts.json" in
  let w' := logged (after_export alerts path
                      (after_mkdir OUTPUT_DIR (logged_tick w evs1)))
                   (summary_events alerts) in
  new_events w w' =
  (evs1 ++
   [Mkdir OUTPUT_DIR; Clock;
    FileWrite path (export_text (S (clock_reads w)) alerts);
    Print ("✓ Exported " ++ str_of_nat (List.length alerts) ++
           " alerts to " ++ path)] ++
   summary_events alerts)%list /\
  files w' path = Some (File (export_text (S (clock_reads w)) alerts)) /\
  files w' OUTPUT_DIR = Some Directory.
Proof.
  intros Hout path w'.
  set (w1 := logged_tick w evs1) in *.
  assert (Hout1 : forall c, files w1 OUTPUT_DIR <> Some (File c)) by exact Hout.
  assert (Htrace1 : trace (after_mkdir OUTPUT_DIR w1) =
                    (trace w1 ++ [Mkdir OUTPUT_DIR])%list).
  { unfold after_mkdir. destruct (files w1 OUTPUT_DIR); reflexivity. }
  assert (Hclock1 : clock_reads (after_mkdir OUTPUT_DIR w1) = S (clock_reads w)).
  { unfold after_mkdir. destruct (files w1 OUTPUT_DIR); reflexivity. }
  split; [|split].
  - unfold new_events, w', logged, after_export. cbn [trace].
    rewrite Htrace1, Hclock1. unfold w1, logged_tick.
    cbn [trace]. rewrite <- !app_assoc.
    rewrite skipn_app, skipn_all, Nat.sub_diag. cbn [skipn app]. reflexivity.
  - unfold w', logged, after_export. cbn [files].
    rewrite String.eqb_refl, Hclock1. reflexivity.
  - unfold w', logged, after_export. cbn [files].
    replace (String.eqb OUTPUT_DIR path) with false by reflexivity.
    rewrite files_after_mkdir by exact Hout1.
    now rewrite String.eqb_refl.
Qed.


(* ----------------------------------------------------------------- *)
(** *** Order of the alerts and of the summary *)

Lemma printed_lines {A} (line : A -> string) l :
  printed (map (fun a => Print (line a)) l) = map line l.
Proof. induction l as [|a l IH]; cbn; [reflexivity|now rewrite IH]. Qed.

(** C9.  A run that finds imagery returns the alerts of the damage
    features, all of them and in the order of the features, followed by
    the alerts of the recovery features.  The last lines it prints are the
    summary of the largest alerts: the first five of the alerts sorted by
    [area_acres], largest first, where the sorted list is a rearrangement
    of the alerts, no alert in it stands before one with a larger area,
    and alerts with equal areas keep the order they had in the alert
    list.  ([round(x, 1)] is taken to return a number, not NaN, for a
    number.) *)
Theorem alerts_order_and_summary boundary_file region cr fd fr w :
  ee_initialize = None ->
  boundary_result (files w) boundary_file = inr region ->
  let ref := now (clock_reads w) in
  PyDate.valid_date (PyDate.dt_date ref) = true ->
  in_range (PyDate.toordinal (PyDate.dt_date ref) - (30 + 15)) ->
  let bs := window_date ref (30 + 15) in
  let be := window_date ref 30 in
  let cs := window_date ref 15 in
  let ce := PyDate.strftime_ymd (PyDate.dt_date ref) in
  detect_result region bs be cs ce = Some cr ->
  response_features (damage_response cr region) = inr fd ->
  response_features (recovery_response cr region) = inr fr ->
  forallb has_geometry fd = true ->
  forallb has_geometry fr = true ->
  (forall c, files w OUTPUT_DIR <> Some (File c)) ->
  files w (path_join OUTPUT_DIR "alerts.json") <> Some Directory ->
  (forall x, PyFloat.is_nan x = false -> PyFloat.is_nan (round1 x) = false) ->
  exists dalerts ralerts ranked before w',
    run_analysis boundary_file w = (inr (Some (dalerts ++ ralerts)%list), w') /\
    map a_id dalerts =
    map (fun k => "damage_" ++ str_of_nat (k + 1)) (kept_positions fd) /\
    Forall (fun a => a_type a = "vegetation_change") dalerts /\
    map a_id ralerts =
    map (fun k => "recovery_" ++ str_of_nat (k + 1)) (kept_positions fr) /\
    Forall (fun a => a_type a = "recovery") ralerts /\
    Permutation ranked (dalerts ++ ralerts) /\
    StronglySorted (not_below a_area_acres) ranked /\
    (forall v, with_key a_area_acres v ranked =
               with_key a_area_acres v (dalerts ++ ralerts)%list) /\
    printed (new_events w w') =
    List.app before
      match (dalerts ++ ralerts)%list with
      | [] => []
      | _ => (nl ++ "Top alerts:") :: map alert_line (firstn 5 ranked)
      end.
Proof.
  intros Hinit Hb ref Hv H45 bs be cs ce Hsome Hd Hr Gd Gr Hout Hfile Hround.
  pose proof (run_analysis_complete_run boundary_file region cr fd fr w Hinit
                Hb Hv H45 Hsome Hd Hr Gd Gr Hout Hfile) as Hrun.
  cbv zeta in Hrun. fold ref bs be cs ce in Hrun.
  set (dalerts := loop_alerts damage_alert ce 0 fd) in *.
  set (ralerts := loop_alerts recovery_alert ce 0 fr) in *.
  set (alerts := (dalerts ++ ralerts)%list) in *.
  destruct (complete_run_world
              (analysis_events (files w) boundary_file region bs be cs ce cr
                 fd fr alerts) alerts w Hout) as (Hevs & _ & _).
  cbv zeta in Hevs.
  exists dalerts, ralerts, (sorted_reverse a_area_acres alerts).
  eexists. eexists. split; [exact Hrun|].
  split; [apply loop_alerts_ids; reflexivity|].
  split; [apply loop_alerts_type; reflexivity|].
  split; [apply loop_alerts_ids; reflexivity|].
  split; [apply loop_alerts_type; reflexivity|].
  split; [apply sorted_reverse_perm|].
  split.
  { apply sorted_reverse_sorted. apply Forall_app.
    split; apply loop_alerts_area; auto. }
  split; [intros v; apply sorted_reverse_stable|].
  rewrite Hevs. unfold summary_events.
  rewrite !printed_app, !app_assoc. f_equal.
  fold alerts. destruct alerts as [|a0 rest]; [reflexivity|].
  cbn [printed]. rewrite printed_lines. reflexivity.
Qed.

(* ----------------------------------------------------------------- *)
(** *** The windows of 2024-06-15 *)

(** X4.  Whatever the services answer, with [lookback_days = 30] and
    the reference date 2024-06-15 the baseline window is 2024-05-01 to
    2024-05-16 and the current window 2024-05-31 to 2024-06-15. *)
Lemma detect_changes_2024_06_15 region w :
  exists res evs,
    detect_changes region (DateStr "2024-06-15") 30 w =
    (inr res, logged w evs) /\
    requests evs =
    [ReqCollectionSize region "2024-05-01" "2024-05-16" 20;
     ReqCollectionSize region "2024-05-31" "2024-06-15" 20].
Proof.
  pose (ref := PyDate.mkdatetime (PyDate.mkdate 2024 6 15) 0 0 0 0).
  assert (Hres : resolve_date (DateStr "2024-06-15") w = (inr ref, w))
    by reflexivity.
  assert (Ho : in_range (PyDate.toordinal (PyDate.dt_date ref)))
    by (vm_compute; split; discriminate).
  assert (H15 : in_range (PyDate.toordinal (PyDate.dt_date ref) - 15))
    by (vm_compute; split; discriminate).
  assert (H30 : in_range (PyDate.toordinal (PyDate.dt_date ref) - 30))
    by (vm_compute; split; discriminate).
  assert (H45 : in_range (PyDate.toordinal (PyDate.dt_date ref) - (30 + 15)))
    by (vm_compute; split; discriminate).
  pose proof (detect_changes_run region _ 30 w ref w Hres Ho H15 H30 H45)
    as Hrun.
  cbv zeta in Hrun.
  replace (window_date ref (30 + 15)) with "2024-05-01" in Hrun
    by (vm_compute; reflexivity).
  replace (window_date ref 30) with "2024-05-16" in Hrun
    by (vm_compute; reflexivity).
  replace (window_date ref 15) with "2024-05-31" in Hrun
    by (vm_compute; reflexivity).
  replace (PyDate.strftime_ymd (PyDate.dt_date ref)) with "2024-06-15" in Hrun
    by (vm_compute; reflexivity).
  eexists _, _. split; [exact Hrun|]. apply requests_detect_events.
Qed.

(* ----------------------------------------------------------------- *)
(** *** Runs that stop *)

Lemma bind_stop {A B} (c : M A) (k : A -> M B) w e w' :
  c w = (inl e, w') -> bind c k w = (inl e, w').
Proof. unfold bind. now intros ->. Qed.

Lemma lift_stop {A} (r : exn + A) e w : r = inl e -> lift r w = (inl e, w).
Proof. now intros ->. Qed.

(* ----------------------------------------------------------------- *)
(** *** Boundary files that are there *)

(** X6.  A boundary file that decodes to a feature collection gives the
    geometry of its first feature; the other features are not looked at,
    and no warning is printed. *)
Lemma load_reservation_boundary_first_feature path text doc first rest g w :
  path <> "" ->
  files w path = Some (File text) ->
  json_load text = inr doc ->
  subscript_key doc "features" = inr (JArr (first :: rest)) ->
  subscript_key first "geometry" = inr g ->
  load_reservation_boundary (Some path) w =
  (inr (GeoJSON g), logged w [PathExists path; FileRead path]).
Proof.
  intros Hne Hf Hj Hfs Hg. rewrite load_reservation_boundary_run.
  apply String.eqb_neq in Hne.
  unfold boundary_result, boundary_events. rewrite Hne, Hf.
  unfold boundary_geometry. rewrite Hj, Hfs. cbn [subscript_0].
  rewrite Hg. reflexivity.
Qed.

(** X7.  A boundary file that decodes to a dict without ["features"], or
    with an empty list of features, makes [load_reservation_boundary]
    raise ([KeyError] and [IndexError]); the bounding box is not used. *)
Lemma load_reservation_boundary_no_feature path text fields w :
  path <> "" ->
  files w path = Some (File text) ->
  json_load text = inr (JObj fields) ->
  assoc_get "features" fields = None \/
  assoc_get "features" fields = Some (JArr []) ->
  exists e,
    load_reservation_boundary (Some path) w =
    (inl e, logged w [PathExists path; FileRead path]) /\
    (assoc_get "features" fields = None -> e = KeyError "features") /\
    (assoc_get "features" fields = Some (JArr []) ->
     e = IndexError "list index out of range").
Proof.
  intros Hne Hf Hj Hcase. rewrite load_reservation_boundary_run.
  apply String.eqb_neq in Hne.
  unfold boundary_result, boundary_events. rewrite Hne, Hf.
  unfold boundary_geometry. rewrite Hj. cbn [subscript_key].
  destruct Hcase as [H|H]; rewrite H; cbn [subscript_0];
    eexists; (split; [reflexivity|]); split; intros H'; congruence.
Qed.

(** X25.  A boundary path at which nothing is found and whose lookup
    fails with an error that [exists] does not take for absence (a name
    that is too long, a directory that may not be searched) makes
    [load_reservation_boundary] raise that error out of [exists]: the
    bounding box is not used and no warning is printed. *)
Lemma load_reservation_boundary_lookup_error path e w :
  path <> "" ->
  files w path = None ->
  stat_error path = Some e ->
  load_reservation_boundary (Some path) w =
  (inl e, logged w [PathExists path]).
Proof.
  intros Hne Hf He. rewrite load_reservation_boundary_run.
  apply String.eqb_neq in Hne.
  unfold boundary_result, boundary_events. now rewrite Hne, Hf, He.
Qed.

(* ----------------------------------------------------------------- *)
(** *** Dates that cannot be used *)

Lemma strptime_ymd_error s e :
  PyDate.strptime_ymd s = inl e -> exists msg, e = ValueError msg.
Proof.
  unfold PyDate.strptime_ymd.
  destruct (PyDate.split_dash s) as [[ys r]|]; [|intros [= <-]; eauto].
  destruct (PyDate.split_dash r) as [[ms ds]|]; [|intros [= <-]; eauto].
  destruct (PyDate.parse_year ys) as [y|]; [|intros [= <-]; eauto].
  destruct (PyDate.parse_field 12 ms) as [m|]; [|intros [= <-]; eauto].
  destruct (PyDate.parse_day ds) as [d|]; [|intros [= <-]; eauto].
  destruct (PyDate.valid_date _); [discriminate|].
  destruct (y <? PyDate.MINYEAR); intros [= <-]; eauto.
Qed.

(** X8.  A date string that [strptime] refuses makes [detect_changes]
    raise the [ValueError] at once: the world is as it was, so the clock
    was not read, nothing was printed and the gateway was not asked. *)
Lemma detect_changes_malformed_date region s lb e w :
  PyDate.strptime_ymd s = inl e ->
  detect_changes region (DateStr s) lb w = (inl e, w) /\
  exists msg, e = ValueError msg.
Proof.
  intros H. split; [|exact (strptime_ymd_error s e H)].
  unfold detect_changes, resolve_date.
  apply bind_stop. apply lift_stop. exact H.
Qed.

Lemma days_before_overflow dt n w :
  ~ in_range (PyDate.toordinal (PyDate.dt_date dt) - n) ->
  exists msg, days_before dt n w = (inl (OverflowError msg), w).
Proof.
  intros Hr. unfold days_before, PyDate.sub_days.
  destruct ((n <? -999999999) || (999999999 <? n)).
  - eexists. apply bind_stop. reflexivity.
  - destruct ((0 <? _) && (_ <=? PyDate.MAXORDINAL)) eqn:E.
    + exfalso. apply Hr. apply andb_true_iff in E.
      rewrite Z.ltb_lt, Z.leb_le in E. unfold in_range. lia.
    + eexists. apply bind_stop. reflexivity.
Qed.

Lemma in_range_dec o : {in_range o} + {~ in_range o}.
Proof.
  unfold in_range.
  destruct (Z_le_dec 1 o), (Z_le_dec o PyDate.MAXORDINAL);
    (left; lia) || (right; lia).
Qed.

(** X9.  When one of the window bounds is not a date of the calendar
    (before year 1 or after year 9999), [detect_changes] raises
    [OverflowError] while it computes the windows: nothing has been
    printed and the gateway has not been asked. *)
Lemma detect_changes_out_of_calendar region cd lb w0 ref w :
  resolve_date cd w0 = (inr ref, w) ->
  PyDate.valid_date (PyDate.dt_date ref) = true ->
  ~ in_range (PyDate.toordinal (PyDate.dt_date ref) - 15) \/
  ~ in_range (PyDate.toordinal (PyDate.dt_date ref) - lb) \/
  ~ in_range (PyDate.toordinal (PyDate.dt_date ref) - (lb + 15)) ->
  exists msg,
    detect_changes region cd lb w0 = (inl (OverflowError msg), w).
Proof.
  intros Hres Hv Hout.
  pose proof (PyDateFacts.toordinal_range _ Hv) as Ho.
  unfold detect_changes. erewrite bind_run by exact Hres.
  destruct (in_range_dec (PyDate.toordinal (PyDate.dt_date ref) - 15))
    as [H15|H15].
  2:{ destruct (days_before_overflow ref 15 w H15) as [msg Hm].
      exists msg. apply bind_stop. exact Hm. }
  erewrite bind_run by (apply days_before_run; assumption).
  destruct (in_range_dec (PyDate.toordinal (PyDate.dt_date ref) - lb))
    as [Hlb|Hlb].
  2:{ destruct (days_before_overflow ref lb w Hlb) as [msg Hm].
      exists msg. apply bind_stop. exact Hm. }
  erewrite bind_run by (apply days_before_run; assumption).
  destruct (in_range_dec (PyDate.toordinal (PyDate.dt_date ref) - (lb + 15)))
    as [Hlb15|Hlb15].
  { exfalso. destruct Hout as [H|[H|H]]; auto. }
  destruct (days_before_overflow ref (lb + 15) w Hlb15) as [msg Hm].
  exists msg. apply bind_stop. exact Hm.
Qed.

(** X10.  With [lookback_days] at least 15 (and the earliest bound a
    date of the calendar) the two windows that [detect_changes] asks for
    are each 15 days wide and do not overlap: the baseline window ends
    [lookback_days - 15] days before the current one starts, on the same
    day when [lookback_days] is 15. *)
Lemma detect_changes_windows_apart region cd lb w0 ref w :
  resolve_date cd w0 = (inr ref, w) ->
  PyDate.valid_date (PyDate.dt_date ref) = true ->
  15 <= lb ->
  in_range (PyDate.toordinal (PyDate.dt_date ref) - (lb + 15)) ->
  exists bs be cs ce : PyDate.date,
    (exists res evs,
       detect_changes region cd lb w0 = (inr res, logged w evs) /\
       requests evs =
       [ReqCollectionSize region (PyDate.strftime_ymd bs)
                          (PyDate.strftime_ymd be) 20;
        ReqCollectionSize region (PyDate.strftime_ymd cs)
                          (PyDate.strftime_ymd ce) 20]) /\
    PyDate.toordinal be - PyDate.toordinal bs = 15 /\
    PyDate.toordinal ce - PyDate.toordinal cs = 15 /\
    PyDate.toordinal cs - PyDate.toordinal be = lb - 15 /\
    PyDate.toordinal be <= PyDate.toordinal cs.
Proof.
  intros Hres Hv Hlb H45.
  pose proof (PyDateFacts.toordinal_range _ Hv) as Ho.
  set (o := PyDate.toordinal (PyDate.dt_date ref)) in *.
  assert (H15 : in_range (o - 15)) by (unfold in_range in *; lia).
  assert (H30 : in_range (o - lb)) by (unfold in_range in *; lia).
  exists (PyDate.fromordinal (o - (lb + 15))), (PyDate.fromordinal (o - lb)),
         (PyDate.fromordinal (o - 15)), (PyDate.dt_date ref).
  split.
  - pose proof (detect_changes_run region cd lb w0 ref w Hres Ho H15 H30 H45)
      as Hrun.
    cbv zeta in Hrun. eexists _, _. split; [exact Hrun|].
    apply requests_detect_events.
  - unfold PyDate.fromordinal, in_range in *.
    rewrite !PyDateFacts.ord2ymd_toordinal by lia. fold o. lia.
Qed.

(* ----------------------------------------------------------------- *)
(** *** Date strings *)

Definition no_dash (s : string) : bool :=
  forallb (fun c => negb (Ascii.eqb c "-")) (list_ascii_of_string s).

Lemma split_dash_at a b :
  no_dash a = true -> PyDate.split_dash (a ++ String "-" b) = Some (a, b).
Proof.
  unfold no_dash. induction a as [|c a IH]; [reflexivity|].
  cbn [list_ascii_of_string forallb append PyDate.split_dash].
  intros H. apply andb_true_iff in H. destruct H as [Hc Ha].
  apply negb_true_iff in Hc. rewrite Hc, IH by exact Ha. reflexivity.
Qed.

Lemma split_dash_app a b :
  no_dash a = true -> PyDate.split_dash (a ++ "-" ++ b) = Some (a, b).
Proof. exact (split_dash_at a b). Qed.

Definition option_Z_is (o : option Z) (v : Z) : bool :=
  match o with
  | Some x => x =? v
  | None => false
  end.

Lemma option_Z_is_spec o v : option_Z_is o v = true -> o = Some v.
Proof.
  destruct o as [x|]; cbn; [|discriminate].
  intros H. apply Z.eqb_eq in H. now subst.
Qed.

(** The number a string of decimal digits denotes, read from the left
    with [acc] already read. *)
Fixpoint uint_val (acc : Z) (u : Decimal.uint) : Z :=
  match u with
  | Decimal.Nil => acc
  | Decimal.D0 l => uint_val (acc * 10 + 0) l
  | Decimal.D1 l => uint_val (acc * 10 + 1) l
  | Decimal.D2 l => uint_val (acc * 10 + 2) l
  | Decimal.D3 l => uint_val (acc * 10 + 3) l
  | Decimal.D4 l => uint_val (acc * 10 + 4) l
  | Decimal.D5 l => uint_val (acc * 10 + 5) l
  | Decimal.D6 l => uint_val (acc * 10 + 6) l
  | Decimal.D7 l => uint_val (acc * 10 + 7) l
  | Decimal.D8 l => uint_val (acc * 10 + 8) l
  | Decimal.D9 l => uint_val (acc * 10 + 9) l
  end.

Lemma uint_val_acc u : forall acc,
  uint_val (Z.pos acc) u = Z.pos (Pos.of_uint_acc u acc).
Proof.
  induction u; intros acc; cbn [uint_val Pos.of_uint_acc];
    [reflexivity|..];
    (match goal with
     | |- uint_val ?a _ = Z.pos (Pos.of_uint_acc _ ?b) =>
         replace a with (Z.pos b) by lia
     end; apply IHu).
Qed.

Lemma uint_val_0 u : uint_val 0 u = Z.of_N (Pos.of_uint u).
Proof.
  induction u; cbn [uint_val Pos.of_uint]; [reflexivity|exact IHu|..];
    cbn [Z.mul Z.add Z.of_N]; apply uint_val_acc.
Qed.

Lemma uint_val_lower u : forall acc,
  0 <= acc -> acc * 10 ^ Z.of_nat (Decimal.nb_digits u) <= uint_val acc u.
Proof.
  induction u; intros acc Hacc; cbn [uint_val Decimal.nb_digits];
    [rewrite Z.pow_0_r; lia|..];
    (rewrite Nat2Z.inj_succ, Z.pow_succ_r by lia;
     match goal with
     | |- _ <= uint_val ?a _ =>
         assert (Ha : 0 <= a) by lia;
         specialize (IHu a Ha);
         assert (Hp : 0 < 10 ^ Z.of_nat (Decimal.nb_digits u))
           by (apply Z.pow_pos_nonneg; lia);
         nia
     end).
Qed.

Lemma length_string_of_uint u :
  String.length (NilEmpty.string_of_uint u) = Decimal.nb_digits u.
Proof.
  induction u; cbn [NilEmpty.string_of_uint String.length Decimal.nb_digits];
    congruence.
Qed.

Lemma no_dash_string_of_uint u : no_dash (NilEmpty.string_of_uint u) = true.
Proof.
  unfold no_dash.
  induction u; cbn [NilEmpty.string_of_uint list_ascii_of_string forallb];
    [reflexivity|..]; rewrite IHu; reflexivity.
Qed.

(** The decimal text of a positive number starts with a digit that is
    not 0. *)
Lemma to_uint_head p :
  match Pos.to_uint p with
  | Decimal.Nil | Decimal.D0 _ => False
  | _ => True
  end.
Proof.
  pose proof (DecimalPos.Unsigned.to_of (Pos.to_uint p)) as H.
  rewrite DecimalPos.Unsigned.of_to in H. cbn [N.to_uint] in H.
  pose proof (DecimalPos.Unsigned.to_uint_nonzero p) as Hz.
  pose proof (DecimalFacts.nzhead_nonzero (Pos.to_uint p)) as Hn.
  unfold Decimal.unorm in H.
  destruct (Decimal.nzhead (Pos.to_uint p)) eqn:E;
    try (rewrite H; exact I).
  - congruence.
  - exfalso. exact (Hn _ eq_refl).
Qed.

Lemma str_of_Z_pos p :
  str_of_Z (Z.pos p) = NilEmpty.string_of_uint (Pos.to_uint p).
Proof.
  unfold str_of_Z. cbn [Z.to_int NilZero.string_of_int].
  unfold NilZero.string_of_uint.
  pose proof (to_uint_head p) as H.
  destruct (Pos.to_uint p); [destruct H|..]; reflexivity.
Qed.

(** A positive number below [10 ^ n] has at most [n] digits. *)
Lemma length_str_of_Z p n :
  Z.pos p < 10 ^ Z.of_nat n -> (String.length (str_of_Z (Z.pos p)) <= n)%nat.
Proof.
  intros Hb. rewrite str_of_Z_pos, length_string_of_uint.
  pose proof (uint_val_0 (Pos.to_uint p)) as Hv.
  rewrite DecimalPos.Unsigned.of_to in Hv. cbn [Z.of_N] in Hv.
  pose proof (to_uint_head p) as Hh.
  destruct (Nat.le_gt_cases (Decimal.nb_digits (Pos.to_uint p)) n)
    as [Hle|Hgt]; [exact Hle|exfalso].
  assert (Hlow : 10 ^ Z.of_nat n <= uint_val 0 (Pos.to_uint p)).
  { destruct (Pos.to_uint p) as [|l|l|l|l|l|l|l|l|l|l];
      try destruct Hh; cbn [uint_val Decimal.nb_digits] in *;
      match goal with
      | |- _ <= uint_val ?a l =>
          pose proof (uint_val_lower l a ltac:(lia)) as Hl;
          assert (Hpow : 10 ^ Z.of_nat n <= 10 ^ Z.of_nat (Decimal.nb_digits l))
            by (apply Z.pow_le_mono_r; lia);
          nia
      end. }
  lia.
Qed.

Lemma uint_val_upper u : forall acc,
  0 <= acc -> uint_val acc u < (acc + 1) * 10 ^ Z.of_nat (Decimal.nb_digits u).
Proof.
  induction u; intros acc Hacc; cbn [uint_val Decimal.nb_digits];
    [rewrite Z.pow_0_r; lia|..];
    (rewrite Nat2Z.inj_succ, Z.pow_succ_r by lia;
     match goal with
     | |- uint_val ?a _ < _ =>
         assert (Ha : 0 <= a) by lia;
         specialize (IHu a Ha);
         assert (Hp : 0 < 10 ^ Z.of_nat (Decimal.nb_digits u))
           by (apply Z.pow_pos_nonneg; lia);
         nia
     end).
Qed.

(** A number from 1000 to 9999 has four digits. *)
Lemma four_digits p :
  1000 <= Z.pos p <= 9999 -> Decimal.nb_digits (Pos.to_uint p) = 4%nat.
Proof.
  intros Hp.
  pose proof (length_str_of_Z p 4 ltac:(cbn; lia)) as Hle.
  rewrite str_of_Z_pos, length_string_of_uint in Hle.
  pose proof (uint_val_upper (Pos.to_uint p) 0 ltac:(lia)) as Hup.
  rewrite uint_val_0, DecimalPos.Unsigned.of_to in Hup. cbn [Z.of_N] in Hup.
  destruct (Nat.eq_dec (Decimal.nb_digits (Pos.to_uint p)) 4) as [|Hne];
    [assumption|exfalso].
  assert (Hpow : 10 ^ Z.of_nat (Decimal.nb_digits (Pos.to_uint p)) <= 10 ^ 3)
    by (apply Z.pow_le_mono_r; lia).
  change (10 ^ 3) with 1000 in Hpow. lia.
Qed.

(** The values of the digits of a decimal numeral. *)
Fixpoint uint_digits (u : Decimal.uint) : list Z :=
  match u with
  | Decimal.Nil => []
  | Decimal.D0 l => 0 :: uint_digits l
  | Decimal.D1 l => 1 :: uint_digits l
  | Decimal.D2 l => 2 :: uint_digits l
  | Decimal.D3 l => 3 :: uint_digits l
  | Decimal.D4 l => 4 :: uint_digits l
  | Decimal.D5 l => 5 :: uint_digits l
  | Decimal.D6 l => 6 :: uint_digits l
  | Decimal.D7 l => 7 :: uint_digits l
  | Decimal.D8 l => 8 :: uint_digits l
  | Decimal.D9 l => 9 :: uint_digits l
  end.

Lemma unicode_digits_uint u : forall fuel,
  (Decimal.nb_digits u <= fuel)%nat ->
  PyDate.unicode_digits fuel (NilEmpty.string_of_uint u) = Some (uint_digits u).
Proof.
  induction u; intros fuel Hf;
    cbn [NilEmpty.string_of_uint uint_digits Decimal.nb_digits] in *;
    [destruct fuel; reflexivity|..];
    (destruct fuel as [|fuel]; [lia|];
     cbn [PyDate.unicode_digits];
     match goal with
     | |- context [PyDate.head_digit (String ?c ?r)] =>
         change (PyDate.head_digit (String c r))
           with (Some (PyDate.digit_val c, r))
     end;
     cbv beta iota; rewrite IHu by lia; reflexivity).
Qed.

Lemma fold_uint_digits u : forall acc,
  fold_left (fun a v => a * 10 + v) (uint_digits u) acc = uint_val acc u.
Proof.
  induction u; intros acc; cbn [uint_digits fold_left uint_val];
    [reflexivity|..]; apply IHu.
Qed.

Lemma length_uint_digits u :
  List.length (uint_digits u) = Decimal.nb_digits u.
Proof.
  induction u; cbn [uint_digits List.length Decimal.nb_digits]; congruence.
Qed.

(** The year field of a year that [strftime] prints with four digits:
    no dash, and the year read back. *)
Lemma year_field y :
  1000 <= y <= 9999 ->
  no_dash (str_of_Z y) = true /\
  PyDate.parse_year (str_of_Z y) = Some y.
Proof.
  intros Hy. destruct y as [|p|p]; try lia.
  pose proof (four_digits p Hy) as H4.
  rewrite str_of_Z_pos. split; [apply no_dash_string_of_uint|].
  unfold PyDate.parse_year.
  rewrite length_string_of_uint, unicode_digits_uint by lia.
  rewrite length_uint_digits, H4. cbn [Nat.eqb].
  rewrite fold_uint_digits, uint_val_0.
  now rewrite DecimalPos.Unsigned.of_to.
Qed.

Definition field_check (k : nat) : bool :=
  let v := Z.of_nat k in
  let s := PyDate.zero_pad 2 v in
  no_dash s &&
  (if v <=? 12 then option_Z_is (PyDate.parse_field 12 s) v else true) &&
  option_Z_is (PyDate.parse_day s) v.

Lemma field_checked : forallb field_check (seq 1 31) = true.
Proof. vm_compute. reflexivity. Qed.

(** [strptime] reads back what [strftime] prints for a date from the
    year 1000 on. *)
Lemma strptime_strftime d :
  PyDate.valid_date d = true ->
  1000 <= PyDate.year d ->
  PyDate.strptime_ymd (PyDate.strftime_ymd d) =
  inr (PyDate.mkdatetime d 0 0 0 0).
Proof.
  intros Hv Hy4. pose proof Hv as Hv'. destruct d as [y m dd].
  cbn [PyDate.year] in Hy4.
  unfold PyDate.valid_date, PyDate.MINYEAR, PyDate.MAXYEAR in Hv'.
  cbn [PyDate.year PyDate.month PyDate.day] in Hv'.
  rewrite !andb_true_iff, !Z.leb_le in Hv'.
  destruct Hv' as [[[[[Hy1 Hy2] Hm1] Hm2] Hd1] Hd2].
  assert (Hd3 : dd <= 31).
  { unfold PyDate.days_in_month in Hd2.
    destruct ((m =? 2) && PyDate.is_leap y); [lia|].
    assert (Hm : m = 1 \/ m = 2 \/ m = 3 \/ m = 4 \/ m = 5 \/ m = 6 \/ m = 7 \/
                 m = 8 \/ m = 9 \/ m = 10 \/ m = 11 \/ m = 12) by lia.
    repeat (destruct Hm as [->|Hm]); try subst m; cbn in Hd2; lia. }
  destruct (year_field y ltac:(lia)) as (Hynd & Hyval).
  pose proof field_checked as Hfc. rewrite forallb_forall in Hfc.
  pose proof (Hfc (Z.to_nat m)) as Hmc.
  assert (Hinm : In (Z.to_nat m) (seq 1 31)) by (apply in_seq; lia).
  specialize (Hmc Hinm). unfold field_check in Hmc.
  rewrite Z2Nat.id in Hmc by lia. cbv zeta in Hmc.
  replace (m <=? 12) with true in Hmc by (symmetry; apply Z.leb_le; lia).
  rewrite !andb_true_iff in Hmc. destruct Hmc as [[Hmnd Hmval] _].
  apply option_Z_is_spec in Hmval.
  pose proof (Hfc (Z.to_nat dd)) as Hdc.
  assert (Hind : In (Z.to_nat dd) (seq 1 31)) by (apply in_seq; lia).
  specialize (Hdc Hind). unfold field_check in Hdc.
  rewrite Z2Nat.id in Hdc by lia. cbv zeta in Hdc.
  rewrite !andb_true_iff in Hdc. destruct Hdc as [_ Hdval].
  apply option_Z_is_spec in Hdval.
  unfold PyDate.strptime_ymd, PyDate.strftime_ymd.
  cbn [PyDate.year PyDate.month PyDate.day].
  rewrite split_dash_app by exact Hynd.
  rewrite split_dash_app by exact Hmnd.
  rewrite Hyval, Hmval, Hdval, Hv. reflexivity.
Qed.

(** X11.  A date from the year 1000 on, given as the string [strftime]
    prints for it (four digits of year, two of month, two of day), comes
    back unchanged: it is the end of the current window that
    [detect_changes] asks for, and the [current_date] of its result. *)
Lemma detect_changes_keeps_date_string region d lb w :
  PyDate.valid_date d = true ->
  1000 <= PyDate.year d ->
  in_range (PyDate.toordinal d - 15) ->
  in_range (PyDate.toordinal d - lb) ->
  in_range (PyDate.toordinal d - (lb + 15)) ->
  let s := PyDate.strftime_ymd d in
  exists res evs bs be cs,
    detect_changes region (DateStr s) lb w = (inr res, logged w evs) /\
    requests evs =
    [ReqCollectionSize region bs be 20; ReqCollectionSize region cs s 20] /\
    forall cr, res = Some cr -> current_date cr = s.
Proof.
  intros Hv Hy H15 Hlb Hlb15 s.
  pose (ref := PyDate.mkdatetime d 0 0 0 0).
  assert (Hres : resolve_date (DateStr s) w = (inr ref, w)).
  { unfold resolve_date, s. rewrite strptime_strftime by assumption.
    reflexivity. }
  pose proof (PyDateFacts.toordinal_range _ Hv) as Ho.
  pose proof (detect_changes_run region (DateStr s) lb w ref w Hres Ho H15
                Hlb Hlb15) as Hrun.
  cbv zeta in Hrun. eexists _, _, _, _, _.
  split; [exact Hrun|]. split; [apply requests_detect_events|].
  intros cr Hcr. apply detect_result_dates in Hcr. apply Hcr.
Qed.

(* ----------------------------------------------------------------- *)
(** *** More on the extraction *)

Lemma sorted_lt_NoDup l : StronglySorted lt l -> NoDup l.
Proof.
  induction 1 as [|x l Hs IH Hx]; constructor; [|exact IH].
  intros Hin. rewrite Forall_forall in Hx. specialize (Hx _ Hin). lia.
Qed.

Lemma numbered_ids_NoDup prefix positions :
  StronglySorted lt positions ->
  NoDup (map (fun k => prefix ++ str_of_nat (k + 1)) positions).
Proof.
  intros Hs. apply Finite.Injective_map_NoDup; [|now apply sorted_lt_NoDup].
  intros a b H. apply append_inj_r, str_of_nat_inj in H. lia.
Qed.

(** X12.  The ids of the alerts of one extraction are pairwise
    distinct. *)
Lemma alert_ids_distinct cr region fd fr w :
  response_features (damage_response cr region) = inr fd ->
  response_features (recovery_response cr region) = inr fr ->
  forallb has_geometry fd = true ->
  forallb has_geometry fr = true ->
  exists alerts evs,
    extract_change_areas cr region w = (inr alerts, logged w evs) /\
    NoDup (map a_id alerts).
Proof.
  intros Hd Hr Gd Gr.
  exists (loop_alerts damage_alert (current_date cr) 0 fd ++
          loop_alerts recovery_alert (current_date cr) 0 fr)%list,
         (extraction_events cr region fd fr).
  split; [now apply extract_change_areas_run|].
  rewrite map_app.
  rewrite (loop_alerts_ids damage_alert "damage_") by reflexivity.
  rewrite (loop_alerts_ids recovery_alert "recovery_") by reflexivity.
  apply NoDup_app.
  - apply numbered_ids_NoDup, kept_from_increasing.
  - apply numbered_ids_NoDup, kept_from_increasing.
  - intros s Hin1 Hin2. apply in_map_iff in Hin1, Hin2.
    destruct Hin1 as (k1 & <- & _), Hin2 as (k2 & H & _).
    cbn in H. discriminate H.
Qed.

Lemma severity_counts l :
  Forall (fun a => a_severity a = "high" \/ a_severity a = "medium" \/
                   a_severity a = "positive") l ->
  (List.length (filter (severity_is "high") l) +
   List.length (filter (severity_is "medium") l) +
   List.length (filter (severity_is "positive") l) = List.length l)%nat.
Proof.
  induction 1 as [|a l Ha Hl IH]; [reflexivity|].
  unfold severity_is in *. cbn [filter].
  destruct Ha as [Ha|[Ha|Ha]]; rewrite Ha;
    repeat match goal with
    | |- context [String.eqb ?x ?y] =>
        let v := eval vm_compute in (String.eqb x y) in
        change (String.eqb x y) with v
    end;
    cbn [List.length]; lia.
Qed.

(** X13.  The three counts of the summary (high, medium, recovery) add
    up to the number of alerts: every alert of an extraction has one of
    the three severities. *)
Lemma summary_counts_add_up cr region fd fr w :
  response_features (damage_response cr region) = inr fd ->
  response_features (recovery_response cr region) = inr fr ->
  forallb has_geometry fd = true ->
  forallb has_geometry fr = true ->
  exists alerts evs,
    extract_change_areas cr region w = (inr alerts, logged w evs) /\
    (List.length (filter (severity_is "high") alerts) +
     List.length (filter (severity_is "medium") alerts) +
     List.length (filter (severity_is "positive") alerts) =
     List.length alerts)%nat /\
    Forall (fun a => severity_is "positive" a = true <-> a_type a = "recovery")
           alerts.
Proof.
  intros Hd Hr Gd Gr.
  exists (loop_alerts damage_alert (current_date cr) 0 fd ++
          loop_alerts recovery_alert (current_date cr) 0 fr)%list,
         (extraction_events cr region fd fr).
  split; [now apply extract_change_areas_run|]. split.
  - apply severity_counts. apply Forall_app. split.
    + apply Forall_forall. intros a Hin. apply loop_alerts_In in Hin.
      destruct Hin as (k & f & g & _ & _ & _ & ->).
      cbn [damage_alert a_severity]. unfold damage_severity.
      destruct (20 <? _)%float; auto.
    + apply Forall_forall. intros a Hin. apply loop_alerts_In in Hin.
      destruct Hin as (k & f & g & _ & _ & _ & ->). auto.
  - apply Forall_app. split.
    + apply Forall_forall. intros a Hin. apply loop_alerts_In in Hin.
      destruct Hin as (k & f & g & _ & _ & _ & ->).
      unfold severity_is. cbn [damage_alert a_severity a_type].
      unfold damage_severity.
      destruct (20 <? _)%float; split; intros H; discriminate H.
    + apply Forall_forall. intros a Hin. apply loop_alerts_In in Hin.
      destruct Hin as (k & f & g & _ & _ & _ & ->).
      split; reflexivity.
Qed.

Definition is_area_request (r : ee_request) : bool :=
  match r with
  | ReqArea _ => true
  | _ => false
  end.

Definition is_centroid_request (r : ee_request) : bool :=
  match r with
  | ReqCentroid _ => true
  | _ => false
  end.

Definition is_vectors_request (r : ee_request) : bool :=
  match r with
  | ReqVectors _ _ _ _ _ => true
  | _ => false
  end.

Lemma loop_requests mk date features : forall i,
  forallb has_geometry features = true ->
  let reqs := requests (loop_events features) in
  List.length (filter is_area_request reqs) = List.length features /\
  List.length (filter is_centroid_request reqs) =
  List.length (loop_alerts mk date i features) /\
  filter is_vectors_request reqs = [].
Proof.
  induction features as [|f rest IH]; intros i Hg; cbv zeta.
  - repeat split; reflexivity.
  - cbn [forallb] in Hg. apply andb_true_iff in Hg. destruct Hg as [Hf Hrest].
    specialize (IH (S i) Hrest). cbv zeta in IH. destruct IH as (IH1 & IH2 & IH3).
    rewrite loop_alerts_cons. unfold loop_events in *. cbn [flat_map].
    rewrite requests_app, !filter_app, !length_app, IH1, IH2, IH3.
    unfold has_geometry in Hf. unfold feature_events, feature_alerts.
    destruct (subscript_key f "geometry") as [e|g]; [discriminate|].
    cbv zeta. destruct (MIN_AREA_ACRES <=? _)%float; repeat split; reflexivity.
Qed.

(** X14.  An extraction asks the vectorization service twice, once per
    mask; it asks for the area of every raw feature and for the centroid
    of the kept features only: as many centroid requests as alerts. *)
Lemma extraction_requests cr region fd fr w :
  response_features (damage_response cr region) = inr fd ->
  response_features (recovery_response cr region) = inr fr ->
  forallb has_geometry fd = true ->
  forallb has_geometry fr = true ->
  exists alerts evs,
    extract_change_areas cr region w = (inr alerts, logged w evs) /\
    List.length (filter is_vectors_request (requests evs)) = 2%nat /\
    List.length (filter is_area_request (requests evs)) =
    (List.length fd + List.length fr)%nat /\
    List.length (filter is_centroid_request (requests evs)) =
    List.length alerts /\
    (List.length alerts <= List.length fd + List.length fr)%nat.
Proof.
  intros Hd Hr Gd Gr.
  exists (loop_alerts damage_alert (current_date cr) 0 fd ++
          loop_alerts recovery_alert (current_date cr) 0 fr)%list,
         (extraction_events cr region fd fr).
  split; [now apply extract_change_areas_run|].
  destruct (loop_requests damage_alert (current_date cr) fd 0 Gd)
    as (A1 & C1 & V1).
  destruct (loop_requests recovery_alert (current_date cr) fr 0 Gr)
    as (A2 & C2 & V2).
  unfold extraction_events.
  cbn [requests]. rewrite requests_app. cbn [requests].
  cbn [filter is_vectors_request is_area_request is_centroid_request].
  rewrite !filter_app.
  cbn [filter is_vectors_request is_area_request is_centroid_request].
  rewrite V1, V2, !length_app, A1, A2, C1, C2.
  repeat split; try reflexivity.
  assert (B : forall mk fs i,
            (List.length (loop_alerts mk (current_date cr) i fs) <=
             List.length fs)%nat).
  { intros mk fs. induction fs as [|f rest IH]; intros i; [cbn; lia|].
    rewrite loop_alerts_cons, length_app. specialize (IH (S i)).
    unfold feature_alerts. destruct (subscript_key f "geometry");
      [cbn; lia|]. cbv zeta.
    destruct (MIN_AREA_ACRES <=? _)%float; cbn [List.length]; lia. }
  pose proof (B damage_alert fd 0%nat). pose proof (B recovery_alert fr 0%nat).
  lia.
Qed.

(** An answer of the vectorization service that holds no feature: a
    falsy answer ([None], an empty dict), a dict without ["features"], or
    one whose ["features"] is the empty list. *)
Definition no_features (info : json) : Prop :=
  truthy info = false \/
  exists fields,
    info = JObj fields /\
    (assoc_get "features" fields = None \/
     assoc_get "features" fields = Some (JArr [])).

Lemma no_features_response info :
  no_features info -> response_features info = inr [].
Proof.
  unfold response_features. intros [H|(fields & -> & [H|H])].
  - now rewrite H.
  - destruct (truthy (JObj fields)); [|reflexivity].
    cbn [contains_key]. now rewrite H.
  - destruct (truthy (JObj fields)); [|reflexivity].
    cbn [contains_key subscript_key]. now rewrite H.
Qed.

(** X15.  When the vectorization service returns no feature for either
    mask, the extraction returns the empty list without an error, after
    its two requests: no area and no centroid is asked for. *)
Lemma extract_change_areas_nothing cr region w :
  no_features (damage_response cr region) ->
  no_features (recovery_response cr region) ->
  extract_change_areas cr region w =
  (inr [],
   logged w
     [EarthEngine (ReqVectors (selfMask (damage_mask cr)) region 30
                              1e8%float "polygon");
      EarthEngine (ReqVectors (selfMask (recovery_mask cr)) region 30
                              1e8%float "polygon")]).
Proof.
  intros Hd Hr.
  apply no_features_response in Hd, Hr.
  exact (extract_change_areas_run cr region [] [] w Hd Hr eq_refl eq_refl).
Qed.

Lemma process_features_loop mk date info items alerts w :
  response_features info = inr items ->
  process_features mk date info alerts w =
  feature_loop mk date 0 items alerts w.
Proof.
  unfold response_features, process_features. intros Hr.
  destruct (truthy info).
  - destruct (contains_key "features" info) as [e|[]]; [discriminate| |].
    + cbn [lift]. erewrite bind_run by reflexivity.
      destruct (subscript_key info "features") as [e|fs]; [discriminate|].
      cbn [lift]. erewrite bind_run by reflexivity.
      rewrite Hr. cbn [lift]. erewrite bind_run by reflexivity.
      reflexivity.
    + cbn [lift]. erewrite bind_run by reflexivity.
      injection Hr as <-. reflexivity.
  - injection Hr as <-. reflexivity.
Qed.

Lemma feature_loop_stops mk date pre f e post : forall i alerts w,
  forallb has_geometry pre = true ->
  subscript_key f "geometry" = inl e ->
  feature_loop mk date i (pre ++ f :: post) alerts w =
  (inl e, logged w (loop_events pre)).
Proof.
  induction pre as [|p pre IH]; intros i alerts w Hg He.
  - cbn [app feature_loop loop_events flat_map]. rewrite logged_nil.
    apply bind_stop. apply lift_stop. exact He.
  - cbn [forallb] in Hg. apply andb_true_iff in Hg. destruct Hg as [Hp Hpre].
    unfold has_geometry in Hp.
    destruct (subscript_key p "geometry") as [e'|g] eqn:E; [discriminate|].
    cbn [app].
    rewrite (feature_loop_step mk date i p g (pre ++ f :: post) alerts w E).
    rewrite IH by assumption. rewrite logged_logged.
    unfold loop_events. cbn [flat_map]. unfold feature_events at 2.
    rewrite E. reflexivity.
Qed.

(** X16.  A raw damage feature without a ["geometry"] makes the
    extraction raise: the features before it have been processed (their
    requests were sent), nothing is asked for it or after it, and the
    alerts gathered so far are lost with the exception. *)
Lemma extract_change_areas_missing_geometry cr region pre f e post w :
  response_features (damage_response cr region) =
  inr (pre ++ f :: post)%list ->
  forallb has_geometry pre = true ->
  subscript_key f "geometry" = inl e ->
  extract_change_areas cr region w =
  (inl e,
   logged w
     (EarthEngine (ReqVectors (selfMask (damage_mask cr)) region 30
                              1e8%float "polygon")
      :: loop_events pre)).
Proof.
  intros Hd Hg He. unfold extract_change_areas, mask_vectors.
  step. apply bind_stop.
  rewrite (process_features_loop _ _ _ _ _ _ Hd).
  rewrite (feature_loop_stops _ _ pre f e post) by assumption.
  rewrite logged_logged. reflexivity.
Qed.

(** X17.  Every alert of an extraction carries the [current_date] of the
    change results, the centroid of its feature with the latitude taken
    from the second coordinate and the longitude from the first, the
    converted area rounded to one decimal, and a description that embeds
    that rounded area. *)
Lemma alert_fields cr region fd fr w :
  response_features (damage_response cr region) = inr fd ->
  response_features (recovery_response cr region) = inr fr ->
  forallb has_geometry fd = true ->
  forallb has_geometry fr = true ->
  exists alerts evs,
    extract_change_areas cr region w = (inr alerts, logged w evs) /\
    Forall
      (fun a =>
         a_date a = current_date cr /\
         exists f g,
           In f (fd ++ fr)%list /\
           subscript_key f "geometry" = inr g /\
           a_lng a = fst (centroid_info (GeoJSON g)) /\
           a_lat a = snd (centroid_info (GeoJSON g)) /\
           a_area_acres a = round1 (acres_of_sqm (area_info (GeoJSON g))) /\
           (a_description a =
            "Significant vegetation loss detected (" ++
            float_str (a_area_acres a) ++ " acres)" \/
            a_description a =
            "Vegetation recovery observed (" ++
            float_str (a_area_acres a) ++ " acres)"))
      alerts.
Proof.
  intros Hd Hr Gd Gr.
  exists (loop_alerts damage_alert (current_date cr) 0 fd ++
          loop_alerts recovery_alert (current_date cr) 0 fr)%list,
         (extraction_events cr region fd fr).
  split; [now apply extract_change_areas_run|].
  apply Forall_app. split; apply Forall_forall; intros a Hin;
    apply loop_alerts_In in Hin;
    destruct Hin as (k & f & g & Hn & Hg & _ & ->);
    apply nth_error_In in Hn;
    (split; [reflexivity|]); exists f, g;
    (split; [apply in_or_app; auto|]);
    repeat split; auto.
Qed.

(* ----------------------------------------------------------------- *)
(** *** The five largest *)

Lemma sorted_app_cross {A} (R : A -> A -> Prop) l1 l2 :
  StronglySorted R (l1 ++ l2) ->
  forall a b, In a l1 -> In b l2 -> R a b.
Proof.
  induction l1 as [|x l1 IH]; cbn [app]; intros Hs a b Ha Hb; [destruct Ha|].
  inversion Hs as [|? ? Hs' Hx]; subst.
  destruct Ha as [<-|Ha]; [|now apply IH].
  rewrite Forall_forall in Hx. apply Hx. apply in_or_app. now right.
Qed.

(** X18.  For alerts whose areas are numbers, the summary lists
    [min 5 n] of the [n] alerts; together with the alerts it leaves out
    they are the alerts of the run, and no alert left out has a larger
    area than a listed one. *)
Lemma top_alerts_largest alerts :
  Forall (fun a => PyFloat.is_nan (a_area_acres a) = false) alerts ->
  exists others,
    Permutation (top_alerts alerts ++ others) alerts /\
    List.length (top_alerts alerts) = Nat.min 5 (List.length alerts) /\
    forall a b, In a (top_alerts alerts) -> In b others ->
                (a_area_acres a <? a_area_acres b)%float = false.
Proof.
  intros Hn. exists (skipn 5 (sorted_reverse a_area_acres alerts)).
  unfold top_alerts. split; [|split].
  - rewrite firstn_skipn. apply sorted_reverse_perm.
  - rewrite length_firstn.
    rewrite (Permutation_length (sorted_reverse_perm a_area_acres alerts)).
    reflexivity.
  - apply (sorted_app_cross (not_below a_area_acres)).
    rewrite firstn_skipn. now apply sorted_reverse_sorted.
Qed.

(* ----------------------------------------------------------------- *)
(** *** More on the export *)

(** X19.  When the output path is a directory, [export_alerts_json]
    raises [IsADirectoryError] after reading the clock: nothing is
    written, the files are as they were, and the confirmation line is not
    printed. *)
Lemma export_alerts_json_directory alerts output_path w :
  files w output_path = Some Directory ->
  exists w',
    export_alerts_json alerts output_path w =
    (inl (IsADirectoryError output_path), w') /\
    files w' = files w /\
    new_events w w' = [Clock].
Proof.
  intros Hdir. exists (logged_tick w [Clock]). split; [|split].
  - unfold export_alerts_json.
    erewrite bind_run by apply datetime_now_run.
    apply bind_stop. unfold write_text. cbn [files logged_tick].
    rewrite Hdir. reflexivity.
  - reflexivity.
  - unfold new_events, logged_tick. cbn [trace].
    rewrite skipn_app, skipn_all, Nat.sub_diag. reflexivity.
Qed.

(** X20.  An export to [output/alerts.json], in a directory [output]
    that is there, replaces whatever the file held with the encoded
    document, leaves every other path as it was, and reads the clock
    once. *)
Lemma export_alerts_json_frame alerts w :
  let output_path := path_join OUTPUT_DIR "alerts.json" in
  files w OUTPUT_DIR = Some Directory ->
  files w output_path <> Some Directory ->
  exists w',
    export_alerts_json alerts output_path w = (inr tt, w') /\
    files w' output_path =
    Some (File (json_dumps
                  (export_document (PyDate.isoformat (now (clock_reads w)))
                                   alerts))) /\
    (forall p, p <> output_path -> files w' p = files w p) /\
    clock_reads w' = S (clock_reads w).
Proof.
  intros output_path Hout Hdir.
  pose proof (alerts_path_writable (files w) Hout Hdir) as Hw.
  fold output_path in Hw.
  exists (after_export alerts output_path w).
  split; [now apply export_alerts_json_run|].
  unfold after_export, export_text. cbn [files clock_reads].
  split; [now rewrite String.eqb_refl|]. split; [|reflexivity].
  intros p Hp. apply String.eqb_neq in Hp. now rewrite Hp.
Qed.

(** X21.  Two exports to [output/alerts.json], in a directory [output]
    that is there, one after the other: the file holds the second
    document, stamped with the second reading of the clock; nothing of
    the first list remains. *)
Lemma export_alerts_json_twice first second w :
  let output_path := path_join OUTPUT_DIR "alerts.json" in
  files w OUTPUT_DIR = Some Directory ->
  files w output_path <> Some Directory ->
  exists w',
    (export_alerts_json first output_path ;;
     export_alerts_json second output_path) w = (inr tt, w') /\
    files w' output_path =
    Some (File (json_dumps
                  (export_document
                     (PyDate.isoformat (now (S (clock_reads w)))) second))) /\
    written (new_events w w') = [output_path; output_path].
Proof.
  intros output_path Hout Hdir.
  pose proof (alerts_path_writable (files w) Hout Hdir) as Hw.
  fold output_path in Hw.
  exists (after_export second output_path (after_export first output_path w)).
  assert (Hw' : writable (files (after_export first output_path w))
                         output_path).
  { apply alerts_path_writable; unfold after_export; cbn [files].
    - replace (String.eqb OUTPUT_DIR (path_join OUTPUT_DIR "alerts.json"))
        with false by reflexivity.
      exact Hout.
    - fold output_path. rewrite String.eqb_refl. discriminate. }
  split; [|split].
  - erewrite bind_run by (apply export_alerts_json_run; exact Hw).
    now apply export_alerts_json_run.
  - unfold after_export, export_text. cbn [files clock_reads].
    now rewrite String.eqb_refl.
  - unfold new_events, after_export. cbn [trace].
    rewrite <- app_assoc, skipn_app, skipn_all, Nat.sub_diag.
    reflexivity.
Qed.

(** X24.  Without the directory, nothing is written: an export to
    [output/alerts.json] raises [FileNotFoundError] when nothing is found
    at [output] and [NotADirectoryError] when [output] is a file; the
    clock has been read, the files are as they were, and the confirmation
    line is not printed. *)
Lemma export_alerts_json_no_directory alerts w :
  let output_path := path_join OUTPUT_DIR "alerts.json" in
  files w output_path <> Some Directory ->
  files w OUTPUT_DIR <> Some Directory ->
  exists e w',
    export_alerts_json alerts output_path w = (inl e, w') /\
    files w' = files w /\
    new_events w w' = [Clock] /\
    (files w OUTPUT_DIR = None -> e = FileNotFoundError output_path) /\
    (forall c, files w OUTPUT_DIR = Some (File c) ->
               e = NotADirectoryError output_path).
Proof.
  intros output_path Hfile Hout.
  assert (Hrun : forall e,
            match files w OUTPUT_DIR with
            | Some (File _) => e = NotADirectoryError output_path
            | _ => e = FileNotFoundError output_path
            end ->
            export_alerts_json alerts output_path w =
            (inl e, logged_tick w [Clock])).
  { intros e He. unfold export_alerts_json.
    erewrite bind_run by apply datetime_now_run.
    apply bind_stop. unfold write_text. cbn [files logged_tick].
    replace (String.eqb output_path "") with false by reflexivity.
    replace (String.eqb (snd (split_path output_path)) "") with false
      by reflexivity.
    change (parent_entry (files w) output_path) with (files w OUTPUT_DIR).
    destruct (files w output_path) as [[c|]|]; [|congruence|];
      destruct (files w OUTPUT_DIR) as [[c'|]|]; subst e;
      reflexivity || congruence. }
  assert (Hnew : new_events w (logged_tick w [Clock]) = [Clock]).
  { unfold new_events, logged_tick. cbn [trace].
    rewrite skipn_app, skipn_all, Nat.sub_diag. reflexivity. }
  destruct (files w OUTPUT_DIR) as [[c|]|] eqn:E; [| congruence |].
  - exists (NotADirectoryError output_path), (logged_tick w [Clock]).
    split; [now apply Hrun|]. split; [reflexivity|]. split; [exact Hnew|].
    split; [discriminate|reflexivity].
  - exists (FileNotFoundError output_path), (logged_tick w [Clock]).
    split; [now apply Hrun|]. split; [reflexivity|]. split; [exact Hnew|].
    split; [reflexivity|discriminate].
Qed.

(* ----------------------------------------------------------------- *)
(** *** A run that cannot write *)

Lemma mkdir_exist_ok_blocked path c w :
  files w path = Some (File c) ->
  mkdir_exist_ok path w = (inl (FileExistsError path), logged w [Mkdir path]).
Proof.
  intros H. unfold mkdir_exist_ok.
  erewrite bind_run by apply emit_run. cbn [files logged].
  rewrite H. reflexivity.
Qed.

(** X22.  When [output] exists and is a file, a run that found imagery
    does all of the detection and extraction and then raises
    [FileExistsError] at [mkdir]: the alerts are not returned,
    [output/alerts.json] is not written, and the files are as they
    were. *)
Lemma run_analysis_output_blocked boundary_file region cr fd fr c w :
  ee_initialize = None ->
  boundary_result (files w) boundary_file = inr region ->
  let ref := now (clock_reads w) in
  PyDate.valid_date (PyDate.dt_date ref) = true ->
  in_range (PyDate.toordinal (PyDate.dt_date ref) - (30 + 15)) ->
  let bs := window_date ref (30 + 15) in
  let be := window_date ref 30 in
  let cs := window_date ref 15 in
  let ce := PyDate.strftime_ymd (PyDate.dt_date ref) in
  detect_result region bs be cs ce = Some cr ->
  response_features (damage_response cr region) = inr fd ->
  response_features (recovery_response cr region) = inr fr ->
  forallb has_geometry fd = true ->
  forallb has_geometry fr = true ->
  files w OUTPUT_DIR = Some (File c) ->
  exists w' evs,
    run_analysis boundary_file w = (inl (FileExistsError OUTPUT_DIR), w') /\
    evs = new_events w w' /\
    files w' = files w /\
    written evs = [OUTPUT_DIR] /\
    List.length (filter is_vectors_request (requests evs)) = 2%nat.
Proof.
  intros Hinit Hb ref Hv H45 bs be cs ce Hsome Hd Hr Gd Gr Hout.
  pose proof (PyDateFacts.toordinal_range _ Hv) as Ho.
  assert (H15 : in_range (PyDate.toordinal (PyDate.dt_date ref) - 15))
    by (unfold in_range in *; lia).
  assert (H30 : in_range (PyDate.toordinal (PyDate.dt_date ref) - 30))
    by (unfold in_range in *; lia).
  assert (Hce : current_date cr = ce).
  { apply (detect_result_dates _ _ _ _ _ _ Hsome). }
  set (alerts := (loop_alerts damage_alert ce 0 fd ++
                  loop_alerts recovery_alert ce 0 fr)%list).
  set (evs := (analysis_events (files w) boundary_file region bs be cs ce cr
                 fd fr alerts ++ [Mkdir OUTPUT_DIR])%list).
  exists (logged_tick w evs), evs.
  split; [|split; [|split; [reflexivity|split]]].
  - unfold run_analysis.
    do 3 step.
    erewrite bind_run by (apply initialize_ee_connected; exact Hinit).
    cbn [negb]. rewrite logged_logged. cbn [app].
    step.
    erewrite bind_run by (apply load_reservation_boundary_ok; exact Hb).
    erewrite bind_run by (rewrite print_run, logged_logged; reflexivity).
    erewrite bind_run by (apply detect_changes_now_run; assumption).
    fold ref bs be cs ce. rewrite Hsome.
    erewrite bind_run by (rewrite print_run, logged_tick_logged; reflexivity).
    erewrite bind_run by (apply extract_change_areas_run; eassumption).
    rewrite logged_tick_logged, Hce. fold alerts.
    erewrite bind_run by (rewrite print_run, logged_tick_logged; reflexivity).
    apply bind_stop.
    erewrite mkdir_exist_ok_blocked by (cbn [files logged_tick]; exact Hout).
    rewrite logged_tick_logged. f_equal. f_equal.
    unfold evs, analysis_events, banner.
    rewrite <- !app_assoc. cbn [app]. rewrite <- ?app_assoc. reflexivity.
  - unfold new_events, logged_tick. cbn [trace].
    rewrite skipn_app, skipn_all, Nat.sub_diag. reflexivity.
  - unfold evs, analysis_events.
    destruct (boundary_events_quiet (files w) boundary_file) as [_ Hq].
    rewrite !written_app, Hq. cbn [written app banner].
    rewrite written_detect_events.
    assert (Hx : written (extraction_events cr region fd fr) = []).
    { unfold extraction_events. cbn [written]. rewrite written_app.
      cbn [written].
      assert (Hl : forall fs, written (loop_events fs) = []).
      { intros fs. unfold loop_events.
        induction fs as [|f rest IH]; [reflexivity|].
        cbn [flat_map]. rewrite written_app, IH.
        unfold feature_events. destruct (subscript_key f "geometry");
          [reflexivity|]. cbv zeta.
        destruct (MIN_AREA_ACRES <=? _)%float; reflexivity. }
      now rewrite !Hl. }
    rewrite Hx. reflexivity.
  - unfold evs, analysis_events.
    destruct (boundary_events_quiet (files w) boundary_file) as [Hq _].
    rewrite !requests_app, Hq. cbn [requests app banner].
    rewrite requests_detect_events.
    destruct (loop_requests damage_alert ce fd 0 Gd) as (_ & _ & V1).
    destruct (loop_requests recovery_alert ce fr 0 Gr) as (_ & _ & V2).
    unfold extraction_events. cbn [requests app]. rewrite requests_app.
    cbn [requests filter is_vectors_request app].
    rewrite !filter_app.
    cbn [filter is_vectors_request]. rewrite V1, V2. reflexivity.
Qed.

(** X23.  An empty string as the command-line argument is the same as no
    argument: the entry point prints the usage lines, and the run uses
    the bounding box without looking at the files. *)
Lemma main_empty_argument script rest w :
  main (script :: "" :: rest) w = main [script] w /\
  load_reservation_boundary (Some "") w =
  (inr fallback_region, logged w [Print fallback_warning]).
Proof.
  split; [reflexivity|]. now rewrite load_reservation_boundary_run.
Qed.

End Pipeline.

(* ================================================================= *)
(** ** A worked scenario

    Stand-ins for the services, with which the pipeline runs to the end
    inside Rocq: a clock stopped on 2024-06-15, a gateway with four
    scenes per window, a vectorizer that returns two damage polygons (one
    of 1 acre, one of 3 acres) and no recovery polygon. *)

Definition fixed_clock : nat -> PyDate.datetime :=
  fun _ => PyDate.mkdatetime (PyDate.mkdate 2024 6 15) 9 30 0 0.

Definition four_scenes : geometry -> string -> string -> Z -> Z :=
  fun _ _ _ _ => 4.

Definition no_scenes : geometry -> string -> string -> Z -> Z :=
  fun _ _ _ _ => 0.

Definition flat_composite : geometry -> string -> string -> Z -> image :=
  fun _ _ _ _ _ _ => Some 0.5%float.

Definition nd_plain (x y : float) : option float :=
  Some ((x - y) / (x + y))%float.

Definition empty_world : world := mkworld [] (fun _ => None) 0.

(** A system that reports absence for every path at which nothing is
    found. *)
Definition plain_lookup : string -> option exn := fun _ => None.

(** A square polygon whose first corner has longitude [lng]. *)
Definition square (lng : float) : json :=
  JObj [("type", JStr "Polygon");
        ("coordinates",
         JArr [JArr [JArr [JFloat lng; JFloat 47.9%float];
                     JArr [JFloat (lng + 0.001)%float; JFloat 47.9%float];
                     JArr [JFloat (lng + 0.001)%float; JFloat 47.901%float];
                     JArr [JFloat lng; JFloat 47.901%float];
                     JArr [JFloat lng; JFloat 47.9%float]]])].

Definition feature_of (geom : json) : json :=
  JObj [("type", JStr "Feature"); ("geometry", geom);
        ("properties", JObj [("label", JInt 1)])].

Definition collection_of (features : list json) : json :=
  JObj [("type", JStr "FeatureCollection"); ("features", JArr features)].

Definition first_longitude (geom : geometry) : float :=
  match geom with
  | GeoJSON (JObj [_; (_, JArr [JArr (JArr [JFloat x; _] :: _)])]) => x
  | _ => 0%float
  end.

(** Areas in square metres: 1 acre at longitude -95.0, 3 acres at -94.9,
    2 acres at -94.8, 1.9 acres at -94.7, and 25 acres elsewhere. *)
Definition area_table (geom : geometry) : float :=
  let x := first_longitude geom in
  if (x =? -95.0)%float then 4046.862669715303%float
  else if (x =? -94.9)%float then 12140.58800914591%float
  else if (x =? -94.8)%float then 8093.725339430606%float
  else if (x =? -94.7)%float then 7689.039072459075%float
  else 101171.56674288257%float.

Definition centroid_table (geom : geometry) : float * float :=
  ((first_longitude geom + 0.0005)%float, 47.9005%float).

(** Every pixel of the damage mask is set, none of the recovery mask. *)
Definition all_damage : change_results :=
  mk_change_results (fun _ => Some 0.8%float) (fun _ => Some 0.5%float)
                    (fun _ => Some (-0.3)%float)
                    (fun _ => Some 1%float) (fun _ => Some 0%float)
                    "2024-05-16" "2024-06-15".

(** The vectorizer: two polygons for a mask that is set at the origin,
    none otherwise. *)
Definition two_polygons (mask : raster) (region : geometry) : json :=
  match mask (0, 0) with
  | Some _ => collection_of [feature_of (square (-95.0)%float);
                             feature_of (square (-94.9)%float)]
  | None => collection_of []
  end.

Definition no_rounding (x : float) : float := x.

Definition show_float (x : float) : string :=
  if (x =? 3)%float then "3.0" else if (x =? 25)%float then "25.0" else "2.0".

Definition never_decodes (text : string) : exn + json :=
  inl (JSONDecodeError "Expecting value: line 1 column 1 (char 0)").

Definition dumps_count (doc : json) : string :=
  match subscript_key doc "count" with
  | inr (JInt n) => "{count: " ++ str_of_Z n ++ "}"
  | _ => "{}"
  end.

(** A world whose boundary file is there but is not JSON. *)
Definition damaged_boundary_world : world :=
  mkworld []
          (fun p => if String.eqb p "red_lake_boundary.geojson"
                    then Some (File "<html>not found</html>") else None)
          0.

(** A world in which the directory [output] is there, and is empty. *)
Definition output_directory : world :=
  mkworld [] (fun p => if String.eqb p "output" then Some Directory else None) 0.

(** A system that refuses names of more than 255 bytes. *)
Definition long_names_refused : string -> option exn :=
  fun p => if (255 <? String.length p)%nat then Some (OSError 36 p) else None.

(** A vectorizer that returns, for a mask that is set at the origin, a
    polygon of exactly 2 acres and one of 1.9 acres. *)
Definition edge_polygons (mask : raster) (region : geometry) : json :=
  match mask (0, 0) with
  | Some _ => collection_of [feature_of (square (-94.8)%float);
                             feature_of (square (-94.7)%float)]
  | None => collection_of []
  end.

(** Areas in square metres: 20 acres at longitude -94.6, 20.01 acres at
    -94.5, and 5 acres elsewhere. *)
Definition large_areas (geom : geometry) : float :=
  let x := first_longitude geom in
  if (x =? -94.6)%float then 80937.25339430606%float
  else if (x =? -94.5)%float then 80977.72202100322%float
  else 20234.313348576513%float.

(** A vectorizer that returns a polygon at -94.6 and one at -94.5 for a
    mask that is set at the origin, and one at -94.4 otherwise. *)
Definition large_polygons (mask : raster) (region : geometry) : json :=
  match mask (0, 0) with
  | Some _ => collection_of [feature_of (square (-94.6)%float);
                             feature_of (square (-94.5)%float)]
  | None => collection_of [feature_of (square (-94.4)%float)]
  end.

(** A vectorizer that returns polygons of 3, 25 and 2 acres for a mask
    that is set at the origin. *)
Definition three_polygons (mask : raster) (region : geometry) : json :=
  match mask (0, 0) with
  | Some _ => collection_of [feature_of (square (-94.9)%float);
                             feature_of (square (-94.0)%float);
                             feature_of (square (-94.8)%float)]
  | None => collection_of []
  end.

Ltac ordinal_in_range := vm_compute; split; intro; discriminate.

(** C1 at lookback 30 and 2024-06-15: baseline 2024-05-01 to 2024-05-16,
    current 2024-05-31 to 2024-06-15. *)
Lemma detect_changes_windows_witness :
  exists res evs,
    detect_changes fixed_clock four_scenes flat_composite nd_plain PrimFloat.sub
      fallback_region (DateStr "2024-06-15") 30 empty_world =
    (inr res, logged empty_world evs) /\
    requests evs =
    [ReqCollectionSize fallback_region "2024-05-01" "2024-05-16" 20;
     ReqCollectionSize fallback_region "2024-05-31" "2024-06-15" 20].
Proof.
  destruct (detect_changes_windows fixed_clock four_scenes flat_composite
              nd_plain PrimFloat.sub fallback_region (DateStr "2024-06-15") 30
              empty_world
              (PyDate.mkdatetime (PyDate.mkdate 2024 6 15) 0 0 0 0)
              empty_world eq_refl eq_refl
              ltac:(ordinal_in_range) ltac:(ordinal_in_range)
              ltac:(ordinal_in_range))
    as (_ & _ & _ & res & evs & Hrun & Hreq & _).
  exists res, evs. split; [exact Hrun|exact Hreq].
Defined.

(** C3 at lookback 10: the claim's refusal does not happen. *)
Lemma short_lookback_not_rejected :
  ~ rejected_before_gateway
      (detect_changes fixed_clock four_scenes flat_composite nd_plain
         PrimFloat.sub fallback_region (DateStr "2024-06-15") 10)
      empty_world /\
  requests
    (trace (snd (detect_changes fixed_clock four_scenes flat_composite nd_plain
                   PrimFloat.sub fallback_region (DateStr "2024-06-15") 10
                   empty_world))) =
  [ReqCollectionSize fallback_region "2024-05-21" "2024-06-05" 20;
   ReqCollectionSize fallback_region "2024-05-31" "2024-06-15" 20].
Proof.
  split.
  - intros (e & w' & H & _).
    assert (F : fst (detect_changes fixed_clock four_scenes flat_composite
                       nd_plain PrimFloat.sub fallback_region
                       (DateStr "2024-06-15") 10 empty_world) = inl e)
      by (rewrite H; reflexivity).
    unfold detect_changes, resolve_date, days_before in F.
    vm_compute in F. discriminate F.
  - vm_compute. reflexivity.
Qed.

Lemma detect_changes_short_lookback_witness :
  exists res evs,
    detect_changes fixed_clock four_scenes flat_composite nd_plain PrimFloat.sub
      fallback_region (DateStr "2024-06-15") 10 empty_world =
    (inr res, logged empty_world evs) /\
    requests evs =
    [ReqCollectionSize fallback_region "2024-05-21" "2024-06-05" 20;
     ReqCollectionSize fallback_region "2024-05-31" "2024-06-15" 20].
Proof.
  destruct (detect_changes_short_lookback fixed_clock four_scenes
              flat_composite nd_plain PrimFloat.sub fallback_region
              (DateStr "2024-06-15") 10 empty_world
              (PyDate.mkdatetime (PyDate.mkdate 2024 6 15) 0 0 0 0)
              empty_world eq_refl eq_refl
              ltac:(ordinal_in_range) ltac:(ordinal_in_range)
              ltac:(ordinal_in_range) eq_refl)
    as (_ & (res & evs & Hrun & Hreq) & _).
  exists res, evs. split; [exact Hrun|exact Hreq].
Defined.

(** C5 at the thresholds of the configuration, -0.15 and 0.10. *)
Lemma masks_disjoint_witness :
  (NDVI_DECREASE_THRESHOLD <? 0)%float = true /\
  (0 <? NDVI_INCREASE_THRESHOLD)%float = true /\
  let masks :=
    classify (img_subtract PrimFloat.sub (fun _ => Some 0.5%float)
                           (fun _ => Some 0.8%float))
             NDVI_DECREASE_THRESHOLD NDVI_INCREASE_THRESHOLD in
  mask_set (fst masks) (0, 0) = true /\
  mask_set (fst masks) (0, 0) && mask_set (snd masks) (0, 0) = false.
Proof.
  split; [reflexivity|]. split; [reflexivity|]. split; [reflexivity|].
  exact (masks_disjoint PrimFloat.sub (fun _ => Some 0.8%float)
           (fun _ => Some 0.5%float) NDVI_DECREASE_THRESHOLD
           NDVI_INCREASE_THRESHOLD (0, 0) eq_refl eq_refl).
Defined.



(** C8 with a gateway that has no scene. *)
Lemma run_analysis_no_imagery_witness :
  exists w',
    run_analysis None fixed_clock no_scenes flat_composite nd_plain
      PrimFloat.sub two_polygons area_table centroid_table
      plain_lookup never_decodes
      dumps_count no_rounding show_float show_float None empty_world =
    (inr None, w') /\
    files w' = files empty_world /\
    written (trace w') = [] /\
    requests (trace w') =
    [ReqInitialize "red-lake-forest-watch";
     ReqCollectionSize fallback_region "2024-05-01" "2024-05-16" 20;
     ReqCollectionSize fallback_region "2024-05-31" "2024-06-15" 20].
Proof.
  destruct (run_analysis_no_imagery None fixed_clock no_scenes flat_composite
              nd_plain PrimFloat.sub two_polygons area_table centroid_table
              plain_lookup never_decodes dumps_count no_rounding show_float show_float
              None fallback_region empty_world eq_refl eq_refl eq_refl
              ltac:(ordinal_in_range) (or_introl eq_refl))
    as (w' & evs & Hrun & Hevs & Hfiles & Hw & Hreq & _).
  exists w'. subst evs. unfold new_events in Hw, Hreq. cbn [skipn] in Hw, Hreq.
  split; [exact Hrun|]. split; [exact Hfiles|]. split; [exact Hw|exact Hreq].
Defined.

(** C6 at a feature of exactly 2.0 acres, which is kept, and at one of
    1.9 acres, which is dropped. *)
Lemma area_filter_witness :
  (area_table (GeoJSON (square (-94.8)%float)) * 0.000247105 = 2.0)%float /\
  (area_table (GeoJSON (square (-94.7)%float)) * 0.000247105 = 1.9)%float /\
  exists alerts evs,
    extract_change_areas edge_polygons area_table centroid_table no_rounding
      show_float all_damage fallback_region empty_world =
    (inr alerts, logged empty_world evs) /\
    In "damage_1" (map a_id alerts) /\
    ~ In "damage_2" (map a_id alerts) /\
    List.length alerts = 1%nat.
Proof.
  split; [vm_compute; reflexivity|]. split; [vm_compute; reflexivity|].
  destruct (area_filter edge_polygons area_table centroid_table no_rounding
              show_float all_damage fallback_region
              [feature_of (square (-94.8)%float);
               feature_of (square (-94.7)%float)] []
              empty_world eq_refl eq_refl eq_refl eq_refl)
    as (alerts & evs & Hrun & Hd & _ & Hlen).
  exists alerts, evs. split; [exact Hrun|].
  destruct (Hd 0%nat (feature_of (square (-94.8)%float))
               (square (-94.8)%float) eq_refl eq_refl)
    as (_ & _ & _ & Hkeep).
  destruct (Hd 1%nat (feature_of (square (-94.7)%float))
               (square (-94.7)%float) eq_refl eq_refl)
    as (_ & _ & Hdrop & _).
  split; [apply Hkeep; vm_compute; reflexivity|].
  split; [apply Hdrop; vm_compute; reflexivity|].
  rewrite Hlen. vm_compute. reflexivity.
Defined.

(** C2: a dropped first feature leaves a gap, the only alert is
    [damage_2], not [damage_1]. *)
Lemma dropped_feature_leaves_gap :
  match fst (extract_change_areas two_polygons area_table centroid_table
               no_rounding show_float all_damage fallback_region
               empty_world) with
  | inr alerts => map a_id alerts
  | inl _ => []
  end = ["damage_2"] /\
  kept_positions area_table
    [feature_of (square (-95.0)%float); feature_of (square (-94.9)%float)] =
  [1%nat].
Proof. split; vm_compute; reflexivity. Qed.

Lemma alert_ids_follow_positions_witness :
  exists alerts evs,
    extract_change_areas two_polygons area_table centroid_table no_rounding
      show_float all_damage fallback_region empty_world =
    (inr alerts, logged empty_world evs) /\
    map a_id alerts = ["damage_2"].
Proof.
  destruct (alert_ids_follow_positions two_polygons area_table centroid_table
              no_rounding show_float all_damage fallback_region
              [feature_of (square (-95.0)%float);
               feature_of (square (-94.9)%float)] []
              empty_world eq_refl eq_refl eq_refl eq_refl)
    as (alerts & evs & Hrun & Hids & _).
  exists alerts, evs. split; [exact Hrun|].
  rewrite Hids. vm_compute. reflexivity.
Defined.

(** C7 at a damage feature of exactly 20.0 acres, whose alert is
    ["medium"], at one of 20.01 acres, whose alert is ["high"], and at a
    recovery feature, whose alert is ["positive"]. *)
Lemma alert_severity_witness :
  (large_areas (GeoJSON (square (-94.6)%float)) * 0.000247105 = 20.0)%float /\
  (large_areas (GeoJSON (square (-94.5)%float)) * 0.000247105 = 20.01)%float /\
  exists alerts evs a b c,
    extract_change_areas large_polygons large_areas centroid_table no_rounding
      show_float all_damage fallback_region empty_world =
    (inr alerts, logged empty_world evs) /\
    In a alerts /\ a_id a = "damage_1" /\ a_severity a = "medium" /\
    In b alerts /\ a_id b = "damage_2" /\ a_severity b = "high" /\
    In c alerts /\ a_id c = "recovery_1" /\ a_severity c = "positive".
Proof.
  split; [vm_compute; reflexivity|]. split; [vm_compute; reflexivity|].
  destruct (alert_severity large_polygons large_areas centroid_table
              no_rounding show_float all_damage fallback_region
              [feature_of (square (-94.6)%float);
               feature_of (square (-94.5)%float)]
              [feature_of (square (-94.4)%float)]
              empty_world eq_refl eq_refl eq_refl eq_refl)
    as (alerts & evs & Hrun & Hd & Hr & _).
  destruct (Hd 0%nat (feature_of (square (-94.6)%float))
               (square (-94.6)%float) eq_refl eq_refl eq_refl)
    as (a & Ha & Hida & _ & _ & _ & _ & _ & Hmedium & _).
  destruct (Hd 1%nat (feature_of (square (-94.5)%float))
               (square (-94.5)%float) eq_refl eq_refl eq_refl)
    as (b & Hb & Hidb & _ & _ & _ & _ & _ & _ & Hhigh).
  destruct (Hr 0%nat (feature_of (square (-94.4)%float))
               (square (-94.4)%float) eq_refl eq_refl eq_refl)
    as (c & Hc & Hidc & _ & _ & _ & Hpositive).
  exists alerts, evs, a, b, c. split; [exact Hrun|].
  split; [exact Ha|]. split; [exact Hida|].
  split; [apply Hmedium; vm_compute; reflexivity|].
  split; [exact Hb|]. split; [exact Hidb|].
  split; [apply Hhigh; vm_compute; reflexivity|].
  split; [exact Hc|]. split; [exact Hidc|exact Hpositive].
Defined.


(** C10 with one alert. *)
Lemma export_alerts_json_document_witness :
  exists doc w',
    export_alerts_json fixed_clock dumps_count
      [damage_alert no_rounding show_float 1 3 (-94.8995, 47.9005)%float
                    "2024-06-15"]
      "output/alerts.json" output_directory = (inr tt, w') /\
    subscript_key doc "count" = inr (JInt 1) /\
    files w' "output/alerts.json" = Some (File (dumps_count doc)).
Proof.
  destruct (export_alerts_json_document fixed_clock dumps_count
              [damage_alert no_rounding show_float 1 3
                            (-94.8995, 47.9005)%float "2024-06-15"]
              output_directory eq_refl
              ltac:(intro H; discriminate H))
    as (doc & items & w' & Hrun & _ & _ & _ & Hfile & _ & Hcount & Hitems & _).
  exists doc, w'. split; [exact Hrun|]. split; [|exact Hfile].
  rewrite Hcount, Hitems. reflexivity.
Defined.

(** A composite that is green in the baseline window and bare in the
    current one: NDVI falls from 0.8 to 0.2 on every pixel. *)
Definition browning : geometry -> string -> string -> Z -> image :=
  fun _ start_date _ _ band _ =>
    if String.eqb start_date "2024-05-01" then
      if String.eqb band "B8" then Some 0.9%float else Some 0.1%float
    else
      if String.eqb band "B8" then Some 0.6%float else Some 0.4%float.


(** A failed connection in the scenario. *)
Lemma run_analysis_setup_failure_witness :
  exists evs,
    run_analysis (Some "Please authorize access to your Earth Engine account")
      fixed_clock four_scenes browning nd_plain PrimFloat.sub two_polygons
      area_table centroid_table
      plain_lookup never_decodes dumps_count no_rounding
      show_float show_float None empty_world =
    (inr None, logged empty_world evs) /\
    requests evs = [ReqInitialize "red-lake-forest-watch"] /\
    written evs = [].
Proof.
  destruct (run_analysis_setup_failure
              (Some "Please authorize access to your Earth Engine account")
              fixed_clock four_scenes browning nd_plain PrimFloat.sub
              two_polygons area_table centroid_table
              plain_lookup never_decodes dumps_count
              no_rounding show_float show_float None
              "Please authorize access to your Earth Engine account"
              empty_world eq_refl)
    as (evs & Hrun & Hreq & Hw & _).
  exists evs. auto.
Defined.

(** The masks found in the scenario: the damage mask is set at the
    origin, the recovery mask is not. *)
Lemma detected_masks_disjoint_witness :
  exists cr w',
    detect_changes fixed_clock four_scenes browning nd_plain PrimFloat.sub
      fallback_region (DateStr "2024-06-15") 30 empty_world =
    (inr (Some cr), w') /\
    mask_set (damage_mask cr) (0, 0) = true /\
    mask_set (damage_mask cr) (0, 0) && mask_set (recovery_mask cr) (0, 0) =
    false.
Proof.
  pose (run := detect_changes fixed_clock four_scenes browning nd_plain
                 PrimFloat.sub fallback_region (DateStr "2024-06-15") 30
                 empty_world).
  assert (Hrun : run =
                 (inr (Some match fst run with
                            | inr (Some cr) => cr
                            | _ => all_damage
                            end), snd run))
    by (vm_compute; reflexivity).
  eexists _, _. split; [exact Hrun|].
  split; [vm_compute; reflexivity|].
  exact (detected_masks_disjoint fixed_clock four_scenes browning nd_plain
           PrimFloat.sub fallback_region (DateStr "2024-06-15") 30 empty_world
           _ _ (0, 0) Hrun).
Defined.

(** C9 in the scenario, with damage polygons of 3, 25 and 2 acres. *)
Lemma alerts_order_and_summary_witness :
  exists dalerts ralerts ranked w',
    run_analysis None fixed_clock four_scenes browning nd_plain PrimFloat.sub
      three_polygons area_table centroid_table plain_lookup never_decodes
      dumps_count no_rounding show_float show_float None empty_world =
    (inr (Some (dalerts ++ ralerts)%list), w') /\
    map a_id dalerts = ["damage_1"; "damage_2"; "damage_3"] /\
    map a_id ralerts = [] /\
    Permutation ranked (dalerts ++ ralerts) /\
    StronglySorted (not_below a_area_acres) ranked.
Proof.
  pose (found := detect_result four_scenes browning nd_plain PrimFloat.sub
                   fallback_region "2024-05-01" "2024-05-16" "2024-05-31"
                   "2024-06-15").
  destruct (alerts_order_and_summary None fixed_clock four_scenes browning
              nd_plain PrimFloat.sub three_polygons area_table centroid_table
              plain_lookup never_decodes dumps_count no_rounding show_float
              show_float None fallback_region
              (match found with Some cr => cr | None => all_damage end)
              [feature_of (square (-94.9)%float);
               feature_of (square (-94.0)%float);
               feature_of (square (-94.8)%float)] []
              empty_world eq_refl eq_refl eq_refl ltac:(ordinal_in_range)
              eq_refl eq_refl eq_refl eq_refl eq_refl
              ltac:(intros c H; discriminate H)
              ltac:(intro H; discriminate H)
              (fun x H => H))
    as (dalerts & ralerts & ranked & before & w' & Hrun & Hd & _ & Hr & _ &
        Hperm & Hsort & _).
  exists dalerts, ralerts, ranked, w'. split; [exact Hrun|].
  split; [rewrite Hd; vm_compute; reflexivity|].
  split; [rewrite Hr; vm_compute; reflexivity|].
  split; [exact Hperm|exact Hsort].
Defined.

(** The undecodable boundary file of the scenario. *)
Lemma load_reservation_boundary_undecodable_witness :
  load_reservation_boundary
    plain_lookup never_decodes (Some "red_lake_boundary.geojson")
    damaged_boundary_world =
  (inl (JSONDecodeError "Expecting value: line 1 column 1 (char 0)"),
   logged damaged_boundary_world
     [PathExists "red_lake_boundary.geojson";
      FileRead "red_lake_boundary.geojson"]).
Proof.
  exact (load_reservation_boundary_undecodable plain_lookup never_decodes
           "red_lake_boundary.geojson" "<html>not found</html>"
           (JSONDecodeError "Expecting value: line 1 column 1 (char 0)")
           damaged_boundary_world
           ltac:(intro H; discriminate H) eq_refl eq_refl).
Defined.

(* ================================================================= *)
(** ** More of the scenario *)

(** A decoder that reads every boundary file as a collection of two
    squares, and one that reads it as a collection without features. *)
Definition decodes_two_squares (text : string) : exn + json :=
  inr (collection_of [feature_of (square (-95.2)%float);
                      feature_of (square (-94.9)%float)]).

Definition decodes_no_feature (text : string) : exn + json :=
  inr (JObj [("type", JStr "FeatureCollection"); ("features", JArr [])]).

Definition boundary_world : world :=
  mkworld []
          (fun p => if String.eqb p "red_lake_boundary.geojson"
                    then Some (File "{}") else None)
          0.

(** A vectorizer whose second damage feature has no geometry, and one
    that answers [None]. *)
Definition broken_polygons (mask : raster) (region : geometry) : json :=
  match mask (0, 0) with
  | Some _ => collection_of [feature_of (square (-94.9)%float);
                             JObj [("type", JStr "Feature")];
                             feature_of (square (-94.8)%float)]
  | None => collection_of []
  end.

Definition no_polygons (mask : raster) (region : geometry) : json := JNull.

(** A world in which [output] is a file, and one in which
    [output/alerts.json] is a directory. *)
Definition output_is_file : world :=
  mkworld [] (fun p => if String.eqb p "output" then Some (File "") else None) 0.

Definition alerts_is_directory : world :=
  mkworld []
          (fun p => if String.eqb p "output/alerts.json" then Some Directory
                    else None)
          0.

Definition two_damage_features : list json :=
  [feature_of (square (-95.0)%float); feature_of (square (-94.9)%float)].

(** Six alerts with areas 3, 25, 2, 25, 4 and 7 acres. *)
Definition six_alerts : list alert :=
  map (fun ka => damage_alert no_rounding show_float (fst ka) (snd ka)
                              (-94.9, 47.9)%float "2024-06-15")
      [(0%nat, 3%float); (1%nat, 25%float); (2%nat, 2%float);
       (3%nat, 25%float); (4%nat, 4%float); (5%nat, 7%float)].

Lemma load_reservation_boundary_first_feature_witness :
  load_reservation_boundary plain_lookup decodes_two_squares
    (Some "red_lake_boundary.geojson") boundary_world =
  (inr (GeoJSON (square (-95.2)%float)),
   logged boundary_world [PathExists "red_lake_boundary.geojson";
                          FileRead "red_lake_boundary.geojson"]).
Proof.
  exact (load_reservation_boundary_first_feature
    plain_lookup decodes_two_squares
           "red_lake_boundary.geojson" "{}" _
           (feature_of (square (-95.2)%float))
           [feature_of (square (-94.9)%float)] (square (-95.2)%float)
           boundary_world ltac:(intro H; discriminate H)
           eq_refl eq_refl eq_refl eq_refl).
Defined.

Lemma load_reservation_boundary_no_feature_witness :
  exists e,
    load_reservation_boundary plain_lookup decodes_no_feature
      (Some "red_lake_boundary.geojson") boundary_world =
    (inl e, logged boundary_world [PathExists "red_lake_boundary.geojson";
                                   FileRead "red_lake_boundary.geojson"]) /\
    e = IndexError "list index out of range".
Proof.
  destruct (load_reservation_boundary_no_feature plain_lookup decodes_no_feature
              "red_lake_boundary.geojson" "{}"
              [("type", JStr "FeatureCollection"); ("features", JArr [])]
              boundary_world ltac:(intro H; discriminate H)
              eq_refl eq_refl (or_intror eq_refl))
    as (e & Hrun & _ & He).
  exists e. split; [exact Hrun|exact (He eq_refl)].
Defined.

Lemma detect_changes_malformed_date_witness :
  exists msg,
    detect_changes fixed_clock four_scenes flat_composite nd_plain
      PrimFloat.sub fallback_region (DateStr "15/06/2024") 30 empty_world =
    (inl (ValueError msg), empty_world).
Proof.
  destruct (detect_changes_malformed_date fixed_clock four_scenes
              flat_composite nd_plain PrimFloat.sub fallback_region
              "15/06/2024" 30
              (ValueError "time data does not match format '%Y-%m-%d'")
              empty_world eq_refl)
    as (Hrun & _).
  eexists. exact Hrun.
Defined.

Lemma detect_changes_out_of_calendar_witness :
  exists msg,
    detect_changes fixed_clock four_scenes flat_composite nd_plain
      PrimFloat.sub fallback_region (DateStr "0001-01-10") 30 empty_world =
    (inl (OverflowError msg), empty_world).
Proof.
  refine (detect_changes_out_of_calendar fixed_clock four_scenes flat_composite
            nd_plain PrimFloat.sub fallback_region (DateStr "0001-01-10") 30
            empty_world (PyDate.mkdatetime (PyDate.mkdate 1 1 10) 0 0 0 0)
            empty_world eq_refl eq_refl (or_introl _)).
  vm_compute. intros [H _]. apply H. reflexivity.
Defined.

Lemma detect_changes_windows_apart_witness :
  exists bs be cs ce : PyDate.date,
    PyDate.toordinal be - PyDate.toordinal bs = 15 /\
    PyDate.toordinal ce - PyDate.toordinal cs = 15 /\
    PyDate.toordinal cs - PyDate.toordinal be = 30 - 15.
Proof.
  destruct (detect_changes_windows_apart fixed_clock four_scenes flat_composite
              nd_plain PrimFloat.sub fallback_region (DateStr "2024-06-15") 30
              empty_world
              (PyDate.mkdatetime (PyDate.mkdate 2024 6 15) 0 0 0 0)
              empty_world eq_refl eq_refl
              ltac:(intro H; discriminate H) ltac:(ordinal_in_range))
    as (bs & be & cs & ce & _ & H1 & H2 & H3 & _).
  exists bs, be, cs, ce. auto.
Defined.

Lemma detect_changes_keeps_date_string_witness :
  exists res evs bs be cs,
    detect_changes fixed_clock four_scenes flat_composite nd_plain
      PrimFloat.sub fallback_region (DateStr "2024-06-15") 30 empty_world =
    (inr res, logged empty_world evs) /\
    requests evs =
    [ReqCollectionSize fallback_region bs be 20;
     ReqCollectionSize fallback_region cs "2024-06-15" 20].
Proof.
  destruct (detect_changes_keeps_date_string fixed_clock four_scenes
              flat_composite nd_plain PrimFloat.sub fallback_region
              (PyDate.mkdate 2024 6 15) 30 empty_world eq_refl
              ltac:(intro H; discriminate H)
              ltac:(ordinal_in_range) ltac:(ordinal_in_range)
              ltac:(ordinal_in_range))
    as (res & evs & bs & be & cs & Hrun & Hreq & _).
  exists res, evs, bs, be, cs. split; [exact Hrun|exact Hreq].
Defined.

Lemma alert_ids_distinct_witness :
  exists alerts evs,
    extract_change_areas two_polygons area_table centroid_table no_rounding
      show_float all_damage fallback_region empty_world =
    (inr alerts, logged empty_world evs) /\
    NoDup (map a_id alerts).
Proof.
  exact (alert_ids_distinct two_polygons area_table centroid_table
           no_rounding show_float all_damage fallback_region
           two_damage_features [] empty_world
           eq_refl eq_refl eq_refl eq_refl).
Defined.

Lemma summary_counts_add_up_witness :
  exists alerts evs,
    extract_change_areas two_polygons area_table centroid_table no_rounding
      show_float all_damage fallback_region empty_world =
    (inr alerts, logged empty_world evs) /\
    (List.length (filter (severity_is "high") alerts) +
     List.length (filter (severity_is "medium") alerts) +
     List.length (filter (severity_is "positive") alerts) =
     List.length alerts)%nat.
Proof.
  destruct (summary_counts_add_up two_polygons area_table centroid_table
              no_rounding show_float all_damage fallback_region
              two_damage_features [] empty_world
              eq_refl eq_refl eq_refl eq_refl)
    as (alerts & evs & Hrun & Hsum & _).
  exists alerts, evs. split; [exact Hrun|exact Hsum].
Defined.

Lemma extraction_requests_witness :
  exists alerts evs,
    extract_change_areas two_polygons area_table centroid_table no_rounding
      show_float all_damage fallback_region empty_world =
    (inr alerts, logged empty_world evs) /\
    List.length (filter is_area_request (requests evs)) = 2%nat /\
    List.length (filter is_centroid_request (requests evs)) =
    List.length alerts.
Proof.
  destruct (extraction_requests two_polygons area_table centroid_table
              no_rounding show_float all_damage fallback_region
              two_damage_features [] empty_world
              eq_refl eq_refl eq_refl eq_refl)
    as (alerts & evs & Hrun & _ & Ha & Hc & _).
  exists alerts, evs. split; [exact Hrun|]. split; [exact Ha|exact Hc].
Defined.

Lemma extract_change_areas_nothing_witness :
  fst (extract_change_areas no_polygons area_table centroid_table no_rounding
         show_float all_damage fallback_region empty_world) = inr [].
Proof.
  rewrite (extract_change_areas_nothing no_polygons area_table centroid_table
             no_rounding show_float all_damage fallback_region empty_world
             (or_introl eq_refl) (or_introl eq_refl)).
  reflexivity.
Defined.

Lemma extract_change_areas_missing_geometry_witness :
  fst (extract_change_areas broken_polygons area_table centroid_table
         no_rounding show_float all_damage fallback_region empty_world) =
  inl (KeyError "geometry").
Proof.
  rewrite (extract_change_areas_missing_geometry broken_polygons area_table
             centroid_table no_rounding show_float all_damage fallback_region
             [feature_of (square (-94.9)%float)]
             (JObj [("type", JStr "Feature")]) (KeyError "geometry")
             [feature_of (square (-94.8)%float)] empty_world
             eq_refl eq_refl eq_refl).
  reflexivity.
Defined.

Lemma alert_fields_witness :
  exists alerts evs,
    extract_change_areas two_polygons area_table centroid_table no_rounding
      show_float all_damage fallback_region empty_world =
    (inr alerts, logged empty_world evs) /\
    Forall (fun a => a_date a = "2024-06-15") alerts.
Proof.
  destruct (alert_fields two_polygons area_table centroid_table
              no_rounding show_float all_damage fallback_region
              two_damage_features [] empty_world
              eq_refl eq_refl eq_refl eq_refl)
    as (alerts & evs & Hrun & Hf).
  exists alerts, evs. split; [exact Hrun|].
  eapply Forall_impl; [|exact Hf]. cbv beta. intros a [Hd _]. exact Hd.
Defined.

Lemma top_alerts_largest_witness :
  map a_id (top_alerts six_alerts) =
  ["damage_2"; "damage_4"; "damage_6"; "damage_5"; "damage_1"] /\
  exists others,
    Permutation (top_alerts six_alerts ++ others) six_alerts /\
    List.length (top_alerts six_alerts) = 5%nat.
Proof.
  split; [vm_compute; reflexivity|].
  destruct (top_alerts_largest six_alerts
              ltac:(repeat constructor)) as (others & Hp & Hl & _).
  exists others. split; [exact Hp|exact Hl].
Defined.

Lemma export_alerts_json_directory_witness :
  exists w',
    export_alerts_json fixed_clock dumps_count six_alerts "output/alerts.json"
      alerts_is_directory =
    (inl (IsADirectoryError "output/alerts.json"), w') /\
    files w' = files alerts_is_directory.
Proof.
  destruct (export_alerts_json_directory fixed_clock dumps_count six_alerts
              "output/alerts.json" alerts_is_directory eq_refl)
    as (w' & Hrun & Hf & _).
  exists w'. split; [exact Hrun|exact Hf].
Defined.

Lemma export_alerts_json_frame_witness :
  exists w',
    export_alerts_json fixed_clock dumps_count six_alerts "output/alerts.json"
      output_directory = (inr tt, w') /\
    files w' "output/alerts.json" = Some (File "{count: 6}") /\
    files w' "output" = Some Directory.
Proof.
  destruct (export_alerts_json_frame fixed_clock dumps_count six_alerts
              output_directory eq_refl ltac:(intro H; discriminate H))
    as (w' & Hrun & Hfile & Hframe & _).
  exists w'. split; [exact Hrun|]. split.
  - etransitivity; [exact Hfile|vm_compute; reflexivity].
  - rewrite (Hframe "output" ltac:(intro H; discriminate H)). reflexivity.
Defined.

Lemma export_alerts_json_twice_witness :
  exists w',
    (bind (export_alerts_json fixed_clock dumps_count six_alerts
             "output/alerts.json")
          (fun _ => export_alerts_json fixed_clock dumps_count []
                      "output/alerts.json")) output_directory = (inr tt, w') /\
    files w' "output/alerts.json" = Some (File "{count: 0}").
Proof.
  destruct (export_alerts_json_twice fixed_clock dumps_count six_alerts []
              output_directory eq_refl ltac:(intro H; discriminate H))
    as (w' & Hrun & Hfile & _).
  exists w'. split; [exact Hrun|].
  etransitivity; [exact Hfile|vm_compute; reflexivity].
Defined.

(** Without the directory [output], and with a file in its place. *)
Lemma export_alerts_json_no_directory_witness :
  fst (export_alerts_json fixed_clock dumps_count six_alerts
         "output/alerts.json" empty_world) =
  inl (FileNotFoundError "output/alerts.json") /\
  fst (export_alerts_json fixed_clock dumps_count six_alerts
         "output/alerts.json" output_is_file) =
  inl (NotADirectoryError "output/alerts.json").
Proof.
  destruct (export_alerts_json_no_directory fixed_clock dumps_count six_alerts
              empty_world ltac:(intro H; discriminate H)
              ltac:(intro H; discriminate H))
    as (e & w' & Hrun & _ & _ & He & _).
  destruct (export_alerts_json_no_directory fixed_clock dumps_count six_alerts
              output_is_file ltac:(intro H; discriminate H)
              ltac:(intro H; discriminate H))
    as (e2 & w2 & Hrun2 & _ & _ & _ & He2).
  split.
  - etransitivity; [exact (f_equal fst Hrun)|].
    cbn [fst]. now rewrite (He eq_refl).
  - etransitivity; [exact (f_equal fst Hrun2)|].
    cbn [fst]. now rewrite (He2 "" eq_refl).
Defined.

(** A boundary path too long for the system, in a world without
    files. *)
Lemma load_reservation_boundary_lookup_error_witness :
  let path := repeat_string "a" 300 in
  load_reservation_boundary long_names_refused never_decodes (Some path)
    empty_world =
  (inl (OSError 36 path), logged empty_world [PathExists path]).
Proof.
  exact (load_reservation_boundary_lookup_error long_names_refused
           never_decodes (repeat_string "a" 300)
           (OSError 36 (repeat_string "a" 300)) empty_world
           ltac:(intro H; discriminate H) eq_refl eq_refl).
Defined.

Lemma run_analysis_output_blocked_witness :
  exists w',
    run_analysis None fixed_clock four_scenes browning nd_plain PrimFloat.sub
      two_polygons area_table centroid_table
      plain_lookup never_decodes dumps_count
      no_rounding show_float show_float None output_is_file =
    (inl (FileExistsError "output"), w') /\
    files w' = files output_is_file.
Proof.
  pose (found := detect_result four_scenes browning nd_plain PrimFloat.sub
                   fallback_region "2024-05-01" "2024-05-16" "2024-05-31"
                   "2024-06-15").
  destruct (run_analysis_output_blocked None fixed_clock four_scenes browning
              nd_plain PrimFloat.sub two_polygons area_table centroid_table
              plain_lookup never_decodes dumps_count no_rounding show_float show_float
              None fallback_region
              (match found with Some cr => cr | None => all_damage end)
              two_damage_features [] "" output_is_file
              eq_refl eq_refl eq_refl ltac:(ordinal_in_range)
              eq_refl eq_refl eq_refl eq_refl eq_refl eq_refl)
    as (w' & evs & Hrun & _ & Hf & _).
  exists w'. split; [exact Hrun|exact Hf].
Defined.
